(** * LaunchDarkly Python demo service: a shallow embedding of [python/app.py]

    The development follows the layout of the module: Python values and
    strings, the bucketing hash ([calculate_hash_value]), the context
    builders ([buildContext], [create_context]), the SDK singleton and the
    flag evaluator ([initialize_launchdarkly_sdk], [evaluate_flag]), the
    two endpoints that read and replace [current_context], and the status,
    flag store and event stream routes. Calls to the logger have no effect
    on any result and are left out; ldclient, the environment, the clock and
    [uuid] are reached through an interface. *)

From Stdlib Require Import ZArith List String Ascii Bool Lia QArith.
From Stdlib Require Import Lqa.
Import ListNotations.
Set Warnings "-register-all".
Local Open Scope Z_scope.

(** ** Python strings and values *)

Module Py.

(** A Python [str] is a sequence of Unicode code points. *)
Definition pystr := list Z.

(** ASCII literals of the source text. *)
Fixpoint py (s : string) : pystr :=
  match s with
  | EmptyString => []
  | String c r => Z.of_N (N_of_ascii c) :: py r
  end.

Fixpoint pystr_eqb (a b : pystr) : bool :=
  match a, b with
  | [], [] => true
  | x :: a', y :: b' => (x =? y) && pystr_eqb a' b'
  | _, _ => false
  end.

(** [str.isspace] on one code point (the Unicode white-space set of CPython). *)
Definition is_space (c : Z) : bool :=
  ((9 <=? c) && (c <=? 13)) || ((28 <=? c) && (c <=? 32)) ||
  (c =? 133) || (c =? 160) || (c =? 5760) ||
  ((8192 <=? c) && (c <=? 8202)) ||
  (c =? 8232) || (c =? 8233) || (c =? 8239) || (c =? 8287) || (c =? 12288).

Fixpoint lstrip (s : pystr) : pystr :=
  match s with
  | [] => []
  | c :: r => if is_space c then lstrip r else s
  end.

Definition rstrip (s : pystr) : pystr := rev (lstrip (rev s)).

(** [s.strip()] *)
Definition strip (s : pystr) : pystr := rstrip (lstrip s).

(** [prefix in s] at position 0: [s.startswith(prefix)] *)
Fixpoint startswith (s prefix : pystr) : bool :=
  match prefix, s with
  | [], _ => true
  | p :: ps, c :: cs => (p =? c) && startswith cs ps
  | _ :: _, [] => false
  end.

(** The values that reach the functions modelled here: JSON-like data. A
    [dict] keeps its insertion order; lookup takes the first binding. *)
Inductive pyval : Type :=
| PNone
| PBool (b : bool)
| PInt (n : Z)
| PFloat (q : Q)
| PStr (s : pystr)
| PList (l : list pyval)
| PDict (d : list (pystr * pyval)).

Definition pydict := list (pystr * pyval).

(** [bool(v)] *)
Definition truthy (v : pyval) : bool :=
  match v with
  | PNone => false
  | PBool b => b
  | PInt n => negb (n =? 0)
  | PFloat q => negb (Qeq_bool q 0)
  | PStr s => match s with [] => false | _ => true end
  | PList l => match l with [] => false | _ => true end
  | PDict d => match d with [] => false | _ => true end
  end.

(** [type(v).__name__] *)
Definition type_name (v : pyval) : pystr :=
  match v with
  | PNone => py "NoneType"
  | PBool _ => py "bool"
  | PInt _ => py "int"
  | PFloat _ => py "float"
  | PStr _ => py "str"
  | PList _ => py "list"
  | PDict _ => py "dict"
  end.

(** [d.get(k)] as an option, [k in d], [d.get(k, dflt)], [d[k] = v]. *)
Fixpoint lookup (k : pystr) (d : pydict) : option pyval :=
  match d with
  | [] => None
  | (k', v) :: r => if pystr_eqb k k' then Some v else lookup k r
  end.

Definition has_key (k : pystr) (d : pydict) : bool :=
  match lookup k d with Some _ => true | None => false end.

Definition get_default (k : pystr) (dflt : pyval) (d : pydict) : pyval :=
  match lookup k d with Some v => v | None => dflt end.

(** [d.get(k)]: [None] when the key is absent. *)
Definition get (k : pystr) (d : pydict) : pyval := get_default k PNone d.

Fixpoint setitem (k : pystr) (v : pyval) (d : pydict) : pydict :=
  match d with
  | [] => [(k, v)]
  | (k', v') :: r =>
      if pystr_eqb k k' then (k, v) :: r else (k', v') :: setitem k v r
  end.

(** Exceptions: the class decides which [except] clause catches it, the text
    is [str(e)]. [KeyboardInterrupt] stands for the classes that derive from
    [BaseException] only, which [except Exception] lets through. *)
Inductive exc_class :=
| ValueError | TypeError | RuntimeError | AttributeError
| UnicodeEncodeError | OtherException | KeyboardInterrupt.

Record pyexc := { exc_kind : exc_class; exc_text : pystr }.

Definition is_Exception (e : pyexc) : bool :=
  match exc_kind e with KeyboardInterrupt => false | _ => true end.

Inductive outcome (A : Type) :=
| Ok (a : A)
| Raise (e : pyexc).
Arguments Ok {A} a.
Arguments Raise {A} e.

End Py.
Import Py.

(** ** hashlib.sha1 and the UTF-8 codec *)

Module Sha1.

(** [s.encode('utf-8')]: fails (UnicodeEncodeError) on a lone surrogate; a
    [str] holds no code point outside [0, 0x10FFFF]. *)
Definition utf8_cp (c : Z) : option (list Z) :=
  if c <? 0 then None
  else if c <? 0x80 then Some [c]
  else if c <? 0x800 then
    Some [Z.lor 0xC0 (Z.shiftr c 6); Z.lor 0x80 (Z.land c 0x3F)]
  else if c <? 0x10000 then
    if (0xD800 <=? c) && (c <=? 0xDFFF) then None
    else Some [Z.lor 0xE0 (Z.shiftr c 12);
               Z.lor 0x80 (Z.land (Z.shiftr c 6) 0x3F);
               Z.lor 0x80 (Z.land c 0x3F)]
  else if c <=? 0x10FFFF then
    Some [Z.lor 0xF0 (Z.shiftr c 18);
          Z.lor 0x80 (Z.land (Z.shiftr c 12) 0x3F);
          Z.lor 0x80 (Z.land (Z.shiftr c 6) 0x3F);
          Z.lor 0x80 (Z.land c 0x3F)]
  else None.

Fixpoint utf8_encode (s : pystr) : option (list Z) :=
  match s with
  | [] => Some []
  | c :: r =>
      match utf8_cp c, utf8_encode r with
      | Some b, Some bs => Some (b ++ bs)
      | _, _ => None
      end
  end.

(** 32-bit words are [Z] with the wrap-around written out. *)
Definition w32 (x : Z) : Z := x mod 2 ^ 32.
Definition rotl (n x : Z) : Z :=
  w32 (Z.lor (Z.shiftl x n) (Z.shiftr x (32 - n))).

(** Big-endian bytes of a 32-bit word and of the 64-bit bit length. *)
Definition be4 (w : Z) : list Z :=
  [(w / 2 ^ 24) mod 256; (w / 2 ^ 16) mod 256; (w / 2 ^ 8) mod 256; w mod 256].

Definition be8 (n : Z) : list Z := be4 (n / 2 ^ 32) ++ be4 n.

(** Padding: 0x80, zeros up to 56 mod 64, then the bit length. *)
Definition pad (msg : list Z) : list Z :=
  let len := Z.of_nat (List.length msg) in
  msg ++ [0x80] ++ repeat 0 (Z.to_nat ((55 - len) mod 64)) ++ be8 (8 * len).

Fixpoint chunks (n : nat) (fuel : nat) (l : list Z) : list (list Z) :=
  match fuel with
  | O => []
  | S f =>
      match l with
      | [] => []
      | _ => firstn n l :: chunks n f (skipn n l)
      end
  end.

Definition word_of_bytes (bs : list Z) : Z :=
  fold_left (fun acc b => acc * 256 + b) bs 0.

Definition block_words (block : list Z) : list Z :=
  map word_of_bytes (chunks 4 16 block).

(** Message schedule: [W(t) = rotl 1 (W(t-3) xor W(t-8) xor W(t-14) xor W(t-16))]. *)
Fixpoint extend (n : nat) (ws : list Z) : list Z :=
  match n with
  | O => ws
  | S n' =>
      let t := List.length ws in
      let g i := nth (t - i) ws 0 in
      extend n' (ws ++ [rotl 1 (Z.lxor (Z.lxor (Z.lxor (g 3%nat) (g 8%nat)) (g 14%nat)) (g 16%nat))])
  end.

Definition schedule (block : list Z) : list Z := extend 64 (block_words block).

Definition lnot32 (x : Z) : Z := Z.lxor x 0xFFFFFFFF.

Definition f_k (t : nat) (b c d : Z) : Z * Z :=
  if (t <? 20)%nat then (Z.lor (Z.land b c) (Z.land (lnot32 b) d), 0x5A827999)
  else if (t <? 40)%nat then (Z.lxor (Z.lxor b c) d, 0x6ED9EBA1)
  else if (t <? 60)%nat then
    (Z.lor (Z.lor (Z.land b c) (Z.land b d)) (Z.land c d), 0x8F1BBCDC)
  else (Z.lxor (Z.lxor b c) d, 0xCA62C1D6).

Definition state := (Z * Z * Z * Z * Z)%type.

Definition round (s : state) (tw : nat * Z) : state :=
  let '(a, b, c, d, e) := s in
  let '(t, w) := tw in
  let '(f, k) := f_k t b c d in
  (w32 (rotl 5 a + f + e + k + w), a, rotl 30 b, c, d).

Definition compress (h : state) (block : list Z) : state :=
  let ws := schedule block in
  let '(a, b, c, d, e) := fold_left round (combine (seq 0 80) ws) h in
  let '(h0, h1, h2, h3, h4) := h in
  (w32 (h0 + a), w32 (h1 + b), w32 (h2 + c), w32 (h3 + d), w32 (h4 + e)).

Definition init : state :=
  (0x67452301, 0xEFCDAB89, 0x98BADCFE, 0x10325476, 0xC3D2E1F0).

(** The five final words. *)
Definition sha1_words (msg : list Z) : state :=
  let p := pad msg in
  fold_left compress (chunks 64 (List.length p) p) init.

(** [hashlib.sha1(msg).digest()]: 20 bytes. *)
Definition sha1 (msg : list Z) : list Z :=
  let '(h0, h1, h2, h3, h4) := sha1_words msg in
  be4 h0 ++ be4 h1 ++ be4 h2 ++ be4 h3 ++ be4 h4.

Definition hexdigit (d : Z) : Z :=
  if d <? 10 then 48 + d else 87 + d.

(** [.hexdigest()]: two lower-case hexadecimal characters per byte. *)
Definition hexdigest (digest : list Z) : pystr :=
  flat_map (fun b => [hexdigit (b / 16); hexdigit (b mod 16)]) digest.

End Sha1.

(** ** Hash value calculation for bucketing *)

Module Bucketing.
Import Sha1.

(** The dict [calculate_hash_value] returns. [bucketValue] is a Python
    float: a binary64 number, held as the rational it denotes. *)
Record BucketingInfo := {
  hashValue : Z;
  bucketValue : Q;
  salt : pystr
}.

Definition hex_val (c : Z) : option Z :=
  if (48 <=? c) && (c <=? 57) then Some (c - 48)
  else if (97 <=? c) && (c <=? 102) then Some (c - 87)
  else if (65 <=? c) && (c <=? 70) then Some (c - 55)
  else None.

Fixpoint int16_from (acc : Z) (s : pystr) : option Z :=
  match s with
  | [] => Some acc
  | c :: r =>
      match hex_val c with
      | Some d => int16_from (acc * 16 + d) r
      | None => None
      end
  end.

(** [int(s, 16)] on a string of hexadecimal digits; [None] is ValueError. *)
Definition int16 (s : pystr) : option Z :=
  match s with
  | [] => None
  | _ => int16_from 0 s
  end.

Definition is_empty (s : pystr) : bool :=
  match s with [] => true | _ => false end.

(** 15 F's = 1152921504606846975 *)
Definition max_hash : positive := 0xFFFFFFFFFFFFFFF.

(** The integer nearest to [n / d], for [0 < d]; a tie goes to the even
    neighbour. *)
Definition round_half_even (n d : Z) : Z :=
  let q := n / d in
  let r := n mod d in
  if 2 * r <? d then q
  else if d <? 2 * r then q + 1
  else if Z.even q then q else q + 1.

(** Python's [a / b] on two ints with [0 <= a] and [0 < b]: the binary64
    float nearest to the quotient, ties to even. [e] is the floor of the
    base-2 logarithm of the quotient, so that scaling by [2 ^ (52 - e)] puts
    the quotient in [2^52, 2^53), where the 53-bit significand is the
    nearest integer. The exponent range of binary64 is not checked: the
    quotients of this program are 0 or lie between 2^-60 and 1. *)
Definition true_divide (a : Z) (b : positive) : Q :=
  if a <=? 0 then 0%Q
  else
    let e := Z.log2 a - Z.log2 (Z.pos b) in
    let e := if a * 2 ^ Z.max 0 (- e) <? Z.pos b * 2 ^ Z.max 0 e
             then e - 1 else e in
    let shift := 52 - e in
    let mantissa := round_half_even (a * 2 ^ Z.max 0 shift)
                                    (Z.pos b * 2 ^ Z.max 0 (- shift)) in
    (mantissa * 2 ^ Z.max 0 (- shift)) # Z.to_pos (2 ^ Z.max 0 shift).

(** [calculate_hash_value(flag_key, context_key, salt)]; the result [None] is
    Python's [None], returned by the input check and by the [except] clause. *)
Definition calculate_hash_value (flag_key context_key salt : pystr)
  : option BucketingInfo :=
  if is_empty flag_key || is_empty context_key || is_empty salt then None
  else
    let hash_input := flag_key ++ py "." ++ salt ++ py "." ++ context_key in
    match utf8_encode hash_input with
    | None => None
    | Some bytes =>
        let sha1_hash := hexdigest (sha1 bytes) in
        let hash_prefix := firstn 15 sha1_hash in
        match int16 hash_prefix with
        | None => None
        | Some hash_value =>
            Some {| hashValue := hash_value;
                    bucketValue := true_divide hash_value max_hash;
                    salt := salt |}
        end
    end.

(** Vocabulary of the properties: lower-case hexadecimal characters, bytes,
    Unicode scalar values (code points that are not surrogates). *)
Definition scalar (c : Z) : Prop :=
  0 <= c <= 0x10FFFF /\ ~ (0xD800 <= c <= 0xDFFF).
Definition hexchar (c : Z) : Prop := exists d, 0 <= d < 16 /\ c = hexdigit d.
Definition byte (b : Z) : Prop := 0 <= b < 256.

End Bucketing.

(** ** Context creation and management *)

Module Contexts.

(** The ldclient [ContextBuilder] is modelled by what the code sets on it. *)
Record ContextBuilder := {
  b_key : pyval;
  b_kind : pystr;
  b_anonymous : bool;
  b_attrs : pydict
}.

(** [Context.builder(key)]; the kind of a fresh builder is "user". *)
Definition builder (key : pyval) : ContextBuilder :=
  {| b_key := key; b_kind := py "user"; b_anonymous := false; b_attrs := [] |}.

Definition kind (k : pystr) (b : ContextBuilder) : ContextBuilder :=
  {| b_key := b_key b; b_kind := k; b_anonymous := b_anonymous b;
     b_attrs := b_attrs b |}.

Definition anonymous (a : bool) (b : ContextBuilder) : ContextBuilder :=
  {| b_key := b_key b; b_kind := b_kind b; b_anonymous := a;
     b_attrs := b_attrs b |}.

Definition set (name : pystr) (v : pyval) (b : ContextBuilder) : ContextBuilder :=
  {| b_key := b_key b; b_kind := b_kind b; b_anonymous := b_anonymous b;
     b_attrs := setitem name v (b_attrs b) |}.

(** A built single-kind context, and the context handed to the evaluator. *)
Record SubContext := {
  c_key : pyval;
  c_kind : pystr;
  c_anonymous : bool;
  c_attrs : pydict
}.

Inductive LDContext :=
| Single (c : SubContext)
| Multi (cs : list SubContext).

(** What the endpoint reads back from a context object with [hasattr] and
    attribute access; [None] in a field is an absent attribute. *)
Record SubView := {
  v_truthy : bool;
  v_key : option pyval;
  v_anonymous : option pyval;
  v_name : option pyval;
  v_email : option pyval;
  v_get : option (pystr -> outcome pyval)
}.

(** The part of ldclient the builders and the endpoint go through. *)
Class ContextSDK := {
  build : ContextBuilder -> outcome SubContext;
  create_multi : list SubContext -> outcome LDContext;
  get_individual_context : option (LDContext -> pystr -> outcome (option SubView))
}.

Definition built (b : ContextBuilder) : SubContext :=
  {| c_key := b_key b; c_kind := b_kind b; c_anonymous := b_anonymous b;
     c_attrs := b_attrs b |}.

Definition view (c : SubContext) : SubView :=
  {| v_truthy := true;
     v_key := Some (c_key c);
     v_anonymous := Some (PBool (c_anonymous c));
     v_name := Some (get (py "name") (c_attrs c));
     v_email := None;
     v_get := Some (fun a => Ok (get a (c_attrs c))) |}.

Definition find_kind (k : pystr) (ctx : LDContext) : option SubContext :=
  match ctx with
  | Single c => if pystr_eqb (c_kind c) k then Some c else None
  | Multi cs => find (fun c => pystr_eqb (c_kind c) k) cs
  end.

(** The SDK as a recorder: building keeps exactly what was set. *)
#[export] Instance recording_sdk : ContextSDK := {
  build := fun b => Ok (built b);
  create_multi := fun cs => Ok (Multi cs);
  get_individual_context :=
    Some (fun ctx k => Ok (option_map view (find_kind k ctx)))
}.

Definition bind {A B} (r : outcome A) (f : A -> outcome B) : outcome B :=
  match r with
  | Ok a => f a
  | Raise e => Raise e
  end.

Notation "x <- c ;; k" := (bind c (fun x => k))
  (at level 61, c at next level, right associativity).

Definition raise {A} (c : exc_class) (msg : pystr) : outcome A :=
  Raise {| exc_kind := c; exc_text := msg |}.

(** [except Exception as e: raise RuntimeError(prefix + str(e)) from e] *)
Definition reraise_runtime {A} (prefix : pystr) (r : outcome A) : outcome A :=
  match r with
  | Ok a => Ok a
  | Raise e =>
      if is_Exception e then raise RuntimeError (prefix ++ exc_text e)
      else Raise e
  end.

Definition isinstance_str (v : pyval) : bool :=
  match v with PStr _ => true | _ => false end.

(** [v.strip()] for a [v] already known to be a [str]. *)
Definition strip_val (v : pyval) : pyval :=
  match v with PStr s => PStr (strip s) | _ => v end.

Section Builders.
Variable sdk : ContextSDK.

(** [buildContext(context_data)] *)
Definition buildContext (context_data : pyval) : outcome LDContext :=
  match context_data with
  | PNone => raise ValueError (py "context_data cannot be None")
  | PDict d =>
      let context_key := get (py "key") d in
      let email := get (py "email") d in
      let name := get (py "name") d in
      let location := get (py "location") d in
      let anon := get_default (py "anonymous") (PBool false) d in
      if negb (truthy context_key) then
        raise ValueError (py "context_data must contain a 'key' field")
      else
        reraise_runtime (py "Failed to build multi-context: ")
          (let b := kind (py "user") (builder context_key) in
           let b := if truthy anon then anonymous true b else b in
           let b := if truthy email && isinstance_str email
                       && truthy (strip_val email)
                    then set (py "email") (strip_val email) b else b in
           let b := if truthy name && isinstance_str name
                       && truthy (strip_val name)
                    then set (py "name") (strip_val name) b else b in
           let b := if truthy location && isinstance_str location
                       && truthy (strip_val location)
                    then set (py "location") (strip_val location) b else b in
           user_context <- build b ;;
           container_context <-
             build (kind (py "container") (builder (PStr (py "python-app")))) ;;
           create_multi [user_context; container_context])
  | v =>
      raise ValueError
        (py "context_data must be a dictionary, got " ++ type_name v)
  end.

(** The type check of an optional attribute in [create_context]. *)
Definition check_optional (label : pystr) (v : pyval) : outcome unit :=
  match v with
  | PNone => Ok tt
  | PStr _ => Ok tt
  | _ => raise TypeError (label ++ py " must be a string, got " ++ type_name v)
  end.

(** [create_context(context_key, email=None, name=None, location=None)] *)
Definition create_context (context_key email name location : pyval)
  : outcome LDContext :=
  match context_key with
  | PNone => raise ValueError (py "context_key cannot be None")
  | PStr k =>
      if negb (truthy context_key) || negb (truthy (strip_val context_key)) then
        raise ValueError (py "context_key cannot be empty or whitespace")
      else
        _ <- check_optional (py "email") email ;;
        _ <- check_optional (py "name") name ;;
        _ <- check_optional (py "location") location ;;
        reraise_runtime (py "Failed to create multi-context: ")
          (let b := kind (py "user") (builder (strip_val context_key)) in
           let b := if truthy email && truthy (strip_val email)
                    then set (py "email") (strip_val email) b else b in
           let b := if truthy name && truthy (strip_val name)
                    then set (py "name") (strip_val name) b else b in
           let b := if truthy location && truthy (strip_val location)
                    then set (py "location") (strip_val location) b else b in
           user_context <- build b ;;
           container_context <-
             build (kind (py "container") (builder (PStr (py "python-app")))) ;;
           create_multi [user_context; container_context])
  | v =>
      raise ValueError
        (py "context_key must be a string, got " ++ type_name v)
  end.

End Builders.

(** [validate_context_key(context_key)]: the pair (is_valid, error_message). *)
Definition validate_context_key (context_key : pyval) : bool * option pystr :=
  match context_key with
  | PNone => (false, Some (py "context_key cannot be None"))
  | PStr k =>
      if negb (truthy context_key) || negb (truthy (strip_val context_key)) then
        (false, Some (py "context_key cannot be empty or whitespace"))
      else (true, None)
  | v => (false, Some (py "context_key must be a string, got " ++ type_name v))
  end.

(** What either builder stores for an optional attribute: the trimmed text
    when it is a non-blank [str], nothing otherwise. *)
Definition kept (v : pyval) : option pyval :=
  match v with
  | PStr s => match strip s with [] => None | t => Some (PStr t) end
  | _ => None
  end.

Definition container_context : SubContext :=
  {| c_key := PStr (py "python-app"); c_kind := py "container";
     c_anonymous := false; c_attrs := [] |}.

End Contexts.

(** ** The SDK singleton and flag evaluation *)

Module App.
Import Contexts Bucketing.

(** The client object is known by its identity. *)
Definition ClientRef := nat.

(** [detail.value] and [detail.reason] of the SDK's evaluation detail. *)
Record EvaluationDetail := { value : pyval; reason : pyval }.

(** Everything outside the module: the environment, ldclient, the clock and
    the random source, over a state of their own. *)
Record Engine (E : Type) := {
  environ_get : pystr -> E -> option pystr;
  set_config : pystr -> E -> outcome unit * E;
  ldclient_get : E -> outcome ClientRef * E;
  is_initialized : ClientRef -> E -> outcome bool * E;
  variation_detail :
    ClientRef -> pystr -> LDContext -> pyval -> E -> outcome EvaluationDetail * E;
  time_time : E -> Q * E;
  time_sleep : Q -> E -> E;
  uuid4 : E -> pystr * E
}.
Arguments environ_get {E}.
Arguments set_config {E}.
Arguments ldclient_get {E}.
Arguments is_initialized {E}.
Arguments variation_detail {E}.
Arguments time_time {E}.
Arguments time_sleep {E}.
Arguments uuid4 {E}.

(** The calls made on ldclient, most recent first. *)
Inductive Call :=
| CallSetConfig (sdk_key : pystr)
| CallGet
| CallIsInitialized (c : ClientRef)
| CallVariationDetail (c : ClientRef) (flag_key : pystr) (context : LDContext)
    (default_value : pyval).

Record World (E : Type) := { engine_state : E; calls : list Call }.
Arguments engine_state {E}.
Arguments calls {E}.

(** The module-level variables. *)
Record Globals := {
  _ld_client : option ClientRef;
  _sdk_initialized : bool;
  _sdk_initialization_error : option pystr;
  current_context : pyval
}.

Definition set_init (b : bool) (err : option pystr) (g : Globals) : Globals :=
  {| _ld_client := _ld_client g; _sdk_initialized := b;
     _sdk_initialization_error := err; current_context := current_context g |}.

Definition set_client (c : ClientRef) (g : Globals) : Globals :=
  {| _ld_client := Some c; _sdk_initialized := _sdk_initialized g;
     _sdk_initialization_error := _sdk_initialization_error g;
     current_context := current_context g |}.

Definition set_current_context (cc : pyval) (g : Globals) : Globals :=
  {| _ld_client := _ld_client g; _sdk_initialized := _sdk_initialized g;
     _sdk_initialization_error := _sdk_initialization_error g;
     current_context := cc |}.

(** The anonymous multi-context, as built at start-up and by the anonymous
    branch of [context_endpoint]. *)
Definition anonymous_context (context_key : pyval) : pydict :=
  [(py "kind", PStr (py "multi"));
   (py "user", PDict [(py "kind", PStr (py "user"));
                      (py "key", context_key);
                      (py "anonymous", PBool true)]);
   (py "container", PDict [(py "kind", PStr (py "container"));
                           (py "key", PStr (py "python-app"))])].

(** The current_context created when the module is loaded; [u] is the text of
    [uuid.uuid4()]. *)
Definition startup_context (u : pystr) : pyval :=
  PDict (anonymous_context (PStr (py "python-anon-" ++ u))).

Section WithEngine.
Variable E : Type.
Variable eng : Engine E.

(** Computations that call out: a world in, a result or an exception and a
    world out. *)
Definition M (A : Type) := World E -> outcome A * World E.

Definition ret {A} (a : A) : M A := fun w => (Ok a, w).

Definition throw {A} (e : pyexc) : M A := fun w => (Raise e, w).

Definition mbind {A B} (m : M A) (f : A -> M B) : M B :=
  fun w =>
    match m w with
    | (Ok a, w') => f a w'
    | (Raise e, w') => (Raise e, w')
    end.

(** [try: m except Exception as e: h e] *)
Definition try_except {A} (m : M A) (h : pyexc -> M A) : M A :=
  fun w =>
    match m w with
    | (Ok a, w') => (Ok a, w')
    | (Raise e, w') => if is_Exception e then h e w' else (Raise e, w')
    end.

Definition logged {A} (c : Call) (f : E -> outcome A * E) : M A :=
  fun w =>
    let (r, s) := f (engine_state w) in
    (r, {| engine_state := s; calls := c :: calls w |}).

Definition call_set_config (k : pystr) : M unit :=
  logged (CallSetConfig k) (set_config eng k).

Definition call_get : M ClientRef := logged CallGet (ldclient_get eng).

Definition call_is_initialized (c : ClientRef) : M bool :=
  logged (CallIsInitialized c) (is_initialized eng c).

Definition call_variation_detail (c : ClientRef) (flag_key : pystr)
    (context : LDContext) (default_value : pyval) : M EvaluationDetail :=
  logged (CallVariationDetail c flag_key context default_value)
    (variation_detail eng c flag_key context default_value).

Definition call_time : M Q :=
  fun w =>
    let (t, s) := time_time eng (engine_state w) in
    (Ok t, {| engine_state := s; calls := calls w |}).

Definition call_sleep (d : Q) : M unit :=
  fun w =>
    (Ok tt, {| engine_state := time_sleep eng d (engine_state w);
               calls := calls w |}).

Definition call_uuid4 : M pystr :=
  fun w =>
    let (u, s) := uuid4 eng (engine_state w) in
    (Ok u, {| engine_state := s; calls := calls w |}).

End WithEngine.

Arguments ret {E A}.
Arguments throw {E A}.
Arguments mbind {E A B}.
Arguments try_except {E A}.
Arguments call_set_config {E}.
Arguments call_get {E}.
Arguments call_is_initialized {E}.
Arguments call_variation_detail {E}.
Arguments call_time {E}.
Arguments call_sleep {E}.
Arguments call_uuid4 {E}.

Notation "x <~ c ;; k" := (mbind c (fun x => k))
  (at level 61, c at next level, right associativity).

Section Lifecycle.
Variable E : Type.
Variable eng : Engine E.

(** The loop [while not _ld_client.is_initialized(): ...] of
    [initialize_launchdarkly_sdk]. [Ok true]: the client reported ready;
    [Ok false]: the timeout of 10 seconds elapsed. Each iteration takes one
    unit of fuel. *)
Fixpoint wait_for_initialization (fuel : nat) (c : ClientRef) (start_time : Q)
    (w : World E) : option (outcome bool * World E) :=
  match fuel with
  | O => None
  | S fuel' =>
      match call_is_initialized eng c w with
      | (Raise e, w1) => Some (Raise e, w1)
      | (Ok true, w1) => Some (Ok true, w1)
      | (Ok false, w1) =>
          match call_time eng w1 with
          | (Raise e, w2) => Some (Raise e, w2)
          | (Ok now, w2) =>
              if negb (Qle_bool (now - start_time) 10) then Some (Ok false, w2)
              else
                wait_for_initialization fuel' c start_time
                  (snd (call_sleep eng (1 # 10) w2))
          end
      end
  end.

Definition is_some {A} (o : option A) : bool :=
  match o with Some _ => true | None => false end.

(** The clause [except Exception as e] of [initialize_launchdarkly_sdk]. *)
Definition initialization_failed (e : pyexc) (g : Globals) (w : World E)
  : outcome bool * Globals * World E :=
  if is_Exception e then
    (Ok false,
     set_init false
       (Some (py "Failed to initialize LaunchDarkly SDK: " ++ exc_text e)) g,
     w)
  else (Raise e, g, w).

(** [initialize_launchdarkly_sdk()]; [None] only when the polling loop runs
    out of fuel. *)
Definition initialize_launchdarkly_sdk (fuel : nat) (g : Globals) (w : World E)
  : option (outcome bool * Globals * World E) :=
  if _sdk_initialized g && is_some (_ld_client g) then Some (Ok true, g, w)
  else
    match environ_get eng (py "LAUNCHDARKLY_SDK_KEY") (engine_state w) with
    | None | Some [] =>
        Some (Ok false,
              set_init false
                (Some (py "LAUNCHDARKLY_SDK_KEY environment variable not set")) g,
              w)
    | Some sdk_key =>
        match call_set_config eng sdk_key w with
        | (Raise e, w1) => Some (initialization_failed e g w1)
        | (Ok _, w1) =>
            match call_get eng w1 with
            | (Raise e, w2) => Some (initialization_failed e g w2)
            | (Ok c, w2) =>
                let g1 := set_client c g in
                match call_time eng w2 with
                | (Raise e, w3) => Some (initialization_failed e g1 w3)
                | (Ok start_time, w3) =>
                    match wait_for_initialization fuel c start_time w3 with
                    | None => None
                    | Some (Raise e, w4) => Some (initialization_failed e g1 w4)
                    | Some (Ok false, w4) =>
                        Some (Ok false,
                              set_init false
                                (Some (py "SDK initialization timed out after 10 seconds"))
                                g1,
                              w4)
                    | Some (Ok true, w4) =>
                        Some (Ok true, set_init true None g1, w4)
                    end
                end
            end
        end
    end.

(** [get_ld_client()] *)
Definition get_ld_client (g : Globals) : option ClientRef := _ld_client g.

(** [is_sdk_initialized()]:
    [_sdk_initialized and _ld_client is not None and _ld_client.is_initialized()] *)
Definition is_sdk_initialized (g : Globals) : M E bool :=
  if _sdk_initialized g then
    match _ld_client g with
    | None => ret false
    | Some c => call_is_initialized eng c
    end
  else ret false.

(** [get_sdk_connection_state()] *)
Definition get_sdk_connection_state (g : Globals) : M E pystr :=
  if negb (_sdk_initialized g) then ret (py "OFF")
  else
    match _ld_client g with
    | None => ret (py "OFF")
    | Some c =>
        ready <~ call_is_initialized eng c ;;
        if negb ready then ret (py "INITIALIZING") else ret (py "VALID")
    end.

(** [get_flag_salt(flag_key)] *)
Definition get_flag_salt (flag_key : pystr) (g : Globals) : M E pystr :=
  try_except
    (match get_ld_client g with
     | None => ret flag_key
     | Some _ =>
         ready <~ is_sdk_initialized g ;;
         if negb ready then ret flag_key
         else if pystr_eqb flag_key (py "user-message")
              then ret (py "94b881a3be5c449d99dbbe1a92ca3fa0")
              else ret flag_key
     end)
    (fun _ => ret flag_key).

(** The reason dict built from [detail.reason] in [evaluate_flag]. *)
Definition is_not_none (v : pyval) : bool :=
  match v with PNone => false | _ => true end.

Definition copy_if_set (k : pystr) (reason_dict reason : pydict) : pydict :=
  if has_key k reason_dict && is_not_none (get k reason_dict)
  then setitem k (get k reason_dict) reason
  else reason.

Definition normalize_reason (detail_reason : pyval) : pydict :=
  let reason_dict := match detail_reason with PDict d => d | _ => [] end in
  let reason :=
    [(py "kind", get_default (py "kind") (PStr (py "UNKNOWN")) reason_dict)] in
  let reason := copy_if_set (py "ruleIndex") reason_dict reason in
  let reason := copy_if_set (py "ruleId") reason_dict reason in
  let reason := copy_if_set (py "errorKind") reason_dict reason in
  reason.

Definition client_not_ready (default_value : pyval) : pyval :=
  PDict [(py "value", default_value);
         (py "reason", PDict [(py "kind", PStr (py "ERROR"));
                              (py "errorKind", PStr (py "CLIENT_NOT_READY"))])].

Definition evaluation_exception (default_value : pyval) (e : pyexc) : pyval :=
  PDict [(py "value", default_value);
         (py "reason", PDict [(py "kind", PStr (py "ERROR"));
                              (py "errorKind", PStr (py "EXCEPTION"));
                              (py "errorMessage", PStr (exc_text e))])].

(** [evaluate_flag(flag_key, context, default_value)] *)
Definition evaluate_flag (flag_key : pystr) (context : LDContext)
    (default_value : pyval) (g : Globals) : M E pyval :=
  try_except
    (let client := get_ld_client g in
     ready <~ is_sdk_initialized g ;;
     match client with
     | None => ret (client_not_ready default_value)
     | Some c =>
         if negb ready then ret (client_not_ready default_value)
         else
           detail <~ call_variation_detail eng c flag_key context default_value ;;
           ret (PDict [(py "value", value detail);
                       (py "reason", PDict (normalize_reason (reason detail)))])
     end)
    (fun e => ret (evaluation_exception default_value e)).

End Lifecycle.

Arguments wait_for_initialization {E}.
Arguments initialize_launchdarkly_sdk {E}.
Arguments is_sdk_initialized {E}.
Arguments get_sdk_connection_state {E}.
Arguments get_flag_salt {E}.
Arguments evaluate_flag {E}.

(** An engine as the test-suite mocks it: the readiness answer and the
    outcome of [variation_detail] are fixed, the SDK key is missing from the
    environment, the clock stands still. *)
Definition mock_engine (ready : outcome bool) (detail : outcome EvaluationDetail)
  : Engine unit :=
  {| environ_get := fun _ _ => None;
     set_config := fun _ s => (Ok tt, s);
     ldclient_get := fun s => (Ok 0%nat, s);
     is_initialized := fun _ s => (ready, s);
     variation_detail := fun _ _ _ _ s => (detail, s);
     time_time := fun s => (0%Q, s);
     time_sleep := fun _ s => s;
     uuid4 := fun s => (py "6f1c2a9e-0b7d-4c55-9e2a-3d1f8b4c7a10", s) |}.

Definition empty_world : World unit := {| engine_state := tt; calls := [] |}.

(** Module-level variables after a successful start-up. *)
Definition ready_globals (c : ClientRef) (u : pystr) : Globals :=
  {| _ld_client := Some c; _sdk_initialized := true;
     _sdk_initialization_error := None;
     current_context := startup_context u |}.

Definition is_evaluation (c : Call) : bool :=
  match c with CallVariationDetail _ _ _ _ => true | _ => false end.

(** ** Flask routes *)

Record Request := {
  method : pystr;
  args : list (pystr * pystr);
  origin : option pystr;
  get_json : outcome pyval
}.

Record Response := {
  body : pyval;
  status : Z;
  headers : list (pystr * pystr)
}.

(** [request.args.get(k)] *)
Fixpoint args_get (k : pystr) (l : list (pystr * pystr)) : pyval :=
  match l with
  | [] => PNone
  | (k', v) :: r => if pystr_eqb k k' then PStr v else args_get k r
  end.

(** [v == 'literal'] *)
Definition str_eq (v : pyval) (s : pystr) : bool :=
  match v with PStr t => pystr_eqb t s | _ => false end.

(** AttributeError of [v.attr] on a value that has no such method. *)
Definition no_attribute (v : pyval) (attr : pystr) : pyexc :=
  {| exc_kind := AttributeError;
     exc_text := py "'" ++ type_name v ++ py "' object has no attribute '"
                 ++ attr ++ py "'" |}.

(** The body shared by the error answers of [/api/flag]. *)
Definition flag_error (msg error_kind : pystr) (code : Z) : Response :=
  {| body := PDict [(py "error", PStr msg);
                    (py "value", PStr (py "Hello from Python!"));
                    (py "reason", PDict [(py "kind", PStr (py "ERROR"));
                                         (py "errorKind", PStr error_kind)])];
     status := code;
     headers := [] |}.

Definition missing_parameter : Response :=
  flag_error (py "Missing required parameter: contextKey")
    (py "MISSING_PARAMETER") 400.

(** [if not cur and k in d: cur = d.get(k)] *)
Definition from_current (cur : pyval) (k : pystr) (d : pydict) : pyval :=
  if negb (truthy cur) && has_key k d then get k d else cur.

Definition hash_info_dict (h : BucketingInfo) : pyval :=
  PDict [(py "hashValue", PInt (hashValue h));
         (py "bucketValue", PFloat (bucketValue h));
         (py "salt", PStr (salt h))].

Definition as_str (v : pyval) : pystr :=
  match v with PStr s => s | _ => [] end.

Definition lift {E A} (r : outcome A) : M E A := fun w => (r, w).

Definition set_if (c : bool) (k : pystr) (v : pyval) (d : pydict) : pydict :=
  if c then setitem k v d else d.

Definition attr_or (o : option pyval) (dflt : pyval) : pyval :=
  match o with Some v => v | None => dflt end.

Definition attr_truthy (o : option pyval) : bool :=
  match o with Some v => truthy v | None => false end.

Section Routes.
Variable E : Type.
Variable eng : Engine E.
Variable sdk : ContextSDK.

(** The dict of the user sub-context in the answer of [/api/flag]. *)
Definition user_dict (u : SubView) (context_key : pyval) : pydict :=
  let d := [(py "kind", PStr (py "user"));
            (py "key", attr_or (v_key u) context_key);
            (py "anonymous", attr_or (v_anonymous u) (PBool false))] in
  let d := set_if (attr_truthy (v_name u)) (py "name") (attr_or (v_name u) PNone) d in
  let d := set_if (attr_truthy (v_email u)) (py "email") (attr_or (v_email u) PNone) d in
  match v_get u with
  | None => d
  | Some getter =>
      match getter (py "location") with
      | Ok location_val => set_if (truthy location_val) (py "location") location_val d
      | Raise e => d
      end
  end.

(** [KeyboardInterrupt]-like exceptions of the attribute getter are not
    caught by [except Exception]. *)
Definition user_dict_escapes (u : SubView) : option pyexc :=
  match v_get u with
  | None => None
  | Some getter =>
      match getter (py "location") with
      | Ok _ => None
      | Raise e => if is_Exception e then None else Some e
      end
  end.

(** Lines 826-885 of [flag_endpoint]: the context as a dict. *)
Definition context_dict (context : LDContext)
    (context_key email name location : pyval) : outcome pyval :=
  let d := [(py "kind", PStr (py "multi"))] in
  match get_individual_context with
  | Some individual =>
      Contexts.bind (individual context (py "user")) (fun user_context =>
      Contexts.bind
        (match user_context with
         | Some u =>
             if v_truthy u then
               match user_dict_escapes u with
               | Some e => Raise e
               | None => Ok (setitem (py "user") (PDict (user_dict u context_key)) d)
               end
             else Ok d
         | None => Ok d
         end) (fun d =>
      Contexts.bind (individual context (py "container")) (fun container_context =>
      match container_context with
      | Some c =>
          if v_truthy c then
            Ok (PDict (setitem (py "container")
                         (PDict [(py "kind", PStr (py "container"));
                                 (py "key", attr_or (v_key c) (PStr (py "python-app")))])
                         d))
          else Ok (PDict d)
      | None => Ok (PDict d)
      end)))
  | None =>
      let u := [(py "kind", PStr (py "user"));
                (py "key", context_key);
                (py "anonymous", PBool (negb (truthy email)))] in
      let u := set_if (truthy email) (py "email") email u in
      let u := set_if (truthy name) (py "name") name u in
      let u := set_if (truthy location) (py "location") location u in
      Ok (PDict (d ++ [(py "user", PDict u);
                       (py "container", PDict [(py "kind", PStr (py "container"));
                                               (py "key", PStr (py "python-app"))])]))
  end.

(** The choice of the context parameters at the head of [flag_endpoint]:
    either an early answer or (context_key, email, name, location). *)
Definition select_context (req : Request) (g : Globals)
  : M E (Response + (pyval * pyval * pyval * pyval)) :=
  let context_key := args_get (py "contextKey") (args req) in
  let email := args_get (py "email") (args req) in
  let name := args_get (py "name") (args req) in
  let location := args_get (py "location") (args req) in
  if negb (truthy context_key) then
    if truthy (current_context g) then
      match current_context g with
      | PDict d =>
          if str_eq (get (py "kind") d) (py "multi") then
            match get_default (py "user") (PDict []) d with
            | PDict user =>
                ret (inr (get (py "key") user,
                          from_current email (py "email") user,
                          from_current name (py "name") user,
                          from_current location (py "location") user))
            | v => throw (no_attribute v (py "get"))
            end
          else
            ret (inr (get (py "key") d,
                      from_current email (py "email") d,
                      from_current name (py "name") d,
                      from_current location (py "location") d))
      | v => throw (no_attribute v (py "get"))
      end
    else ret (inl missing_parameter)
  else ret (inr (context_key, email, name, location)).

(** The bucketing demonstration of [flag_endpoint]; [context_key] has passed
    [validate_context_key], so it is a [str]. *)
Definition attach_hash_info (context_key : pyval) (g : Globals) (result : pydict)
  : M E pydict :=
  try_except
    (salt <~ get_flag_salt eng (py "user-message") g ;;
     match calculate_hash_value (py "user-message") (as_str context_key) salt with
     | Some hash_info => ret (setitem (py "hashInfo") (hash_info_dict hash_info) result)
     | None => ret result
     end)
    (fun _ => ret (setitem (py "hashInfo") PNone result)).

(** [GET /api/flag] *)
Definition flag_endpoint (req : Request) (g : Globals) : M E Response :=
  try_except
    (sel <~ select_context req g ;;
     match sel with
     | inl early => ret early
     | inr (context_key, email, name, location) =>
         let (is_valid, error_message) := validate_context_key context_key in
         if negb is_valid then
           ret (flag_error
                  (py "Invalid contextKey: " ++
                   match error_message with Some m => m | None => py "None" end)
                  (py "INVALID_PARAMETER") 400)
         else
           match create_context sdk context_key email name location with
           | Raise e =>
               match exc_kind e with
               | ValueError | TypeError | RuntimeError =>
                   ret (flag_error (py "Failed to create context: " ++ exc_text e)
                          (py "CONTEXT_CREATION_FAILED") 400)
               | _ => throw e
               end
           | Ok context =>
               result <~ evaluate_flag eng (py "user-message") context
                           (PStr (py "Hello from Python!")) g ;;
               let result := match result with PDict d => d | _ => [] end in
               result <~ attach_hash_info context_key g result ;;
               cd <~ lift (context_dict context context_key email name location) ;;
               ret {| body := PDict (setitem (py "context") cd result);
                      status := 200;
                      headers := [] |}
           end
     end)
    (fun _ => ret (flag_error (py "Internal server error")
                     (py "INTERNAL_ERROR") 500)).

(** [v.strip()] on an arbitrary JSON value. *)
Definition py_strip (v : pyval) : outcome pystr :=
  match v with
  | PStr t => Ok (strip t)
  | _ => Raise (no_attribute v (py "strip"))
  end.

(** The condition [v and v.strip()] *)
Definition set_and_not_blank (v : pyval) : outcome bool :=
  if truthy v then
    Contexts.bind (py_strip v) (fun t => Ok (truthy (PStr t)))
  else Ok false.

Definition cors (o : pystr) : list (pystr * pystr) :=
  [(py "Access-Control-Allow-Origin", o);
   (py "Access-Control-Allow-Credentials", py "true")].

Definition request_origin (req : Request) : pystr :=
  match origin req with Some o => o | None => py "http://localhost:8000" end.

Definition custom_context (email : pyval) : pydict :=
  [(py "kind", PStr (py "multi"));
   (py "user", PDict [(py "kind", PStr (py "user"));
                      (py "key", email);
                      (py "email", email);
                      (py "anonymous", PBool false)]);
   (py "container", PDict [(py "kind", PStr (py "container"));
                           (py "key", PStr (py "python-app"))])].

(** [new_context['user'][k] = v] *)
Definition set_user_attr (k : pystr) (v : pyval) (ctx : pydict) : pydict :=
  match get (py "user") ctx with
  | PDict u => setitem (py "user") (PDict (setitem k v u)) ctx
  | _ => ctx
  end.

(** The expression [needs_new_key] of the anonymous branch. *)
Definition needs_new_key (cc : pyval) : outcome bool :=
  if negb (truthy cc) then Ok true
  else
    match cc with
    | PDict d =>
        if negb (str_eq (get (py "kind") d) (py "multi")) then Ok true
        else
          match get_default (py "user") (PDict []) d with
          | PDict user =>
              if negb (truthy (get_default (py "anonymous") (PBool false) user))
              then Ok true
              else
                match get_default (py "key") (PStr []) user with
                | PStr k => Ok (negb (startswith k (py "python-anon-")))
                | v => Raise (no_attribute v (py "startswith"))
                end
          | v => Raise (no_attribute v (py "get"))
          end
    | _ => Ok true
    end.

(** The key kept by the anonymous branch when no new one is needed:
    [current_context.get('user', {}).get('key', fallback)]. *)
Definition kept_key (cc : pyval) (fallback : pyval) : outcome pyval :=
  match cc with
  | PDict d =>
      match get_default (py "user") (PDict []) d with
      | PDict user => Ok (get_default (py "key") fallback user)
      | v => Raise (no_attribute v (py "get"))
      end
  | v => Raise (no_attribute v (py "get"))
  end.

(** The [try] block of the POST branch of [context_endpoint]: the answer and
    the new value of [current_context], if it is replaced. *)
Definition update_context (req : Request) (g : Globals)
  : M E (Response * option pyval) :=
  data <~ lift (get_json req) ;;
  match data with
  | PDict d =>
      let context_type := get_default (py "type") (PStr (py "anonymous")) d in
      let email := get (py "email") d in
      let name := get (py "name") d in
      let location := get (py "location") d in
      if str_eq context_type (py "custom") then
        blank <~ lift (if negb (truthy email) then Ok true
                       else Contexts.bind (py_strip email)
                              (fun t => Ok (pystr_eqb t []))) ;;
        if (blank : bool) then
          ret ({| body := PDict [(py "success", PBool false);
                                 (py "error",
                                  PStr (py "Email is required for custom context"))];
                  status := 400;
                  headers := cors (request_origin req) |}, None)
        else
          let new_context := custom_context email in
          has_name <~ lift (set_and_not_blank name) ;;
          let new_context :=
            if (has_name : bool) then set_user_attr (py "name") name new_context
            else new_context in
          has_location <~ lift (set_and_not_blank location) ;;
          let new_context :=
            if (has_location : bool)
            then set_user_attr (py "location") location new_context
            else new_context in
          ret ({| body := PDict [(py "success", PBool true);
                                 (py "context", PDict new_context)];
                  status := 200;
                  headers := cors (request_origin req) |},
               Some (PDict new_context))
      else
        fresh <~ lift (needs_new_key (current_context g)) ;;
        u <~ call_uuid4 eng ;;
        context_key <~ (if (fresh : bool) then ret (PStr (py "python-anon-" ++ u))
                        else lift (kept_key (current_context g)
                                     (PStr (py "python-anon-" ++ u)))) ;;
        let new_context := anonymous_context context_key in
        has_location <~ lift (set_and_not_blank location) ;;
        let new_context :=
          if (has_location : bool)
          then set_user_attr (py "location") location new_context
          else new_context in
        ret ({| body := PDict [(py "success", PBool true);
                               (py "context", PDict new_context)];
                status := 200;
                headers := cors (request_origin req) |},
             Some (PDict new_context))
  | v => throw (no_attribute v (py "get"))
  end.

(** [GET|POST|OPTIONS /api/context]: the answer and the module-level
    variables after the request. *)
Definition context_endpoint (req : Request) (g : Globals)
  : M E (Response * Globals) :=
  if pystr_eqb (method req) (py "OPTIONS") then
    ret ({| body := PDict [(py "status", PStr (py "ok"))];
            status := 200;
            headers := cors (request_origin req) ++
                       [(py "Access-Control-Allow-Headers", py "Content-Type");
                        (py "Access-Control-Allow-Methods", py "GET, POST, OPTIONS")] |},
         g)
  else if pystr_eqb (method req) (py "GET") then
    ret ({| body := current_context g; status := 200;
            headers := cors (request_origin req) |}, g)
  else
    try_except
      (r <~ update_context req g ;;
       match snd r with
       | Some new_context => ret (fst r, set_current_context new_context g)
       | None => ret (fst r, g)
       end)
      (fun e =>
         ret ({| body := PDict [(py "success", PBool false);
                                (py "error", PStr (exc_text e))];
                 status := 500;
                 headers := cors (request_origin req) |}, g)).

End Routes.

Arguments select_context {E}.
Arguments flag_endpoint {E}.
Arguments update_context {E}.
Arguments context_endpoint {E}.

(** ** Vocabulary of the properties *)

(** What the normalized reason holds for an optional field: the engine's
    entry when it is present and not null, no key otherwise. *)
Definition populated (k : pystr) (detail_reason : pyval) : option pyval :=
  match detail_reason with
  | PDict d =>
      match lookup k d with
      | Some PNone => None
      | Some v => Some v
      | None => None
      end
  | _ => None
  end.

(** The kind of the normalized reason: the engine's entry, UNKNOWN when the
    reason is not a dict or has no kind. *)
Definition reported_kind (detail_reason : pyval) : pyval :=
  match detail_reason with
  | PDict d =>
      match lookup (py "kind") d with
      | Some v => v
      | None => PStr (py "UNKNOWN")
      end
  | _ => PStr (py "UNKNOWN")
  end.

(** The shape every value of [current_context] has: a multi-context with a
    user sub-context whose key is a non-empty string and the container
    sub-context of this service. *)
Definition well_formed_context (cc : pyval) : Prop :=
  exists d user container key,
    cc = PDict d /\
    lookup (py "kind") d = Some (PStr (py "multi")) /\
    lookup (py "user") d = Some (PDict user) /\
    lookup (py "key") user = Some (PStr key) /\ key <> [] /\
    lookup (py "container") d = Some (PDict container) /\
    lookup (py "key") container = Some (PStr (py "python-app")).

Definition hello : pyval := PStr (py "Hello!").

Definition sample_context : LDContext :=
  Multi [ {| c_key := PStr (py "user-123"); c_kind := py "user";
             c_anonymous := false; c_attrs := [] |};
          {| c_key := PStr (py "python-app"); c_kind := py "container";
             c_anonymous := false; c_attrs := [] |} ].

Definition sample_globals : Globals :=
  ready_globals 0%nat (py "6f1c2a9e-0b7d-4c55-9e2a-3d1f8b4c7a10").

Definition network_error : pyexc :=
  {| exc_kind := OtherException; exc_text := py "Network error" |}.

Definition custom_request : Request :=
  {| method := py "POST"; args := []; origin := None;
     get_json := Ok (PDict [(py "type", PStr (py "custom"));
                            (py "email", PStr (py "user@example.com"))]) |}.

Section Predicates.
Variable E : Type.
Variable eng : Engine E.

(** The client is not READY: the flag is unset, the client is absent, or the
    client itself reports that it is not initialized. *)
Definition not_ready (g : Globals) (w : World E) : Prop :=
  _sdk_initialized g = false \/ _ld_client g = None \/
  exists c, _ld_client g = Some c /\
            fst (is_initialized eng c (engine_state w)) = Ok false.

(** The client is READY and answers the readiness poll, leaving the world
    [w1]. *)
Definition ready (g : Globals) (c : ClientRef) (w w1 : World E) : Prop :=
  _sdk_initialized g = true /\ _ld_client g = Some c /\
  call_is_initialized eng c w = (Ok true, w1).

(** The values [current_context] can take: the start-up value, and whatever a
    request to [/api/context] leaves behind. *)
Inductive reachable_context : pyval -> Prop :=
| reach_startup u : reachable_context (startup_context u)
| reach_request req g w resp g' w' :
    reachable_context (current_context g) ->
    context_endpoint eng req g w = (Ok (resp, g'), w') ->
    reachable_context (current_context g').

(** A postcondition on the normal return of a computation. *)
Definition returns {A} (m : M E A) (P : A -> Prop) : Prop :=
  forall w a w', m w = (Ok a, w') -> P a.

End Predicates.

Arguments not_ready {E}.
Arguments ready {E}.
Arguments reachable_context {E}.
Arguments returns {E A}.

End App.

(** ** Health and status routes *)

Module Status.
Import Contexts App.

Definition opt_str (o : option pystr) : pyval :=
  match o with Some s => PStr s | None => PNone end.

Section StatusRoutes.
Variable E : Type.
Variable eng : Engine E.
(** [ldclient.VERSION] *)
Variable VERSION : pystr.

(** [GET /health]; the route has no [try], so an exception of the readiness
    poll leaves the function. *)
Definition health_check (g : Globals) : M E Response :=
  initialized <~ is_sdk_initialized eng g ;;
  if (initialized : bool) then
    ret {| body := PDict [(py "status", PStr (py "healthy"));
                          (py "service", PStr (py "python-app-dev"));
                          (py "sdkInitialized", PBool true)];
           status := 200; headers := [] |}
  else
    ret {| body := PDict [(py "status", PStr (py "unhealthy"));
                          (py "service", PStr (py "python-app-dev"));
                          (py "sdkInitialized", PBool false);
                          (py "error", opt_str (_sdk_initialization_error g))];
           status := 503; headers := [] |}.

(** [GET /api/status] *)
Definition get_status (g : Globals) : M E Response :=
  try_except
    (connection_state <~ get_sdk_connection_state eng g ;;
     initialized <~ is_sdk_initialized eng g ;;
     let sdk_version :=
       if (initialized : bool) then VERSION else py "not-initialized" in
     let connected := initialized && pystr_eqb connection_state (py "VALID") in
     let response :=
       [(py "connected", PBool connected);
        (py "mode", PStr (py "default"));
        (py "sdkVersion", PStr sdk_version);
        (py "sdkInitialized", PBool initialized);
        (py "connectionState", PStr connection_state)] in
     let response :=
       if negb initialized && truthy (opt_str (_sdk_initialization_error g))
       then setitem (py "error") (opt_str (_sdk_initialization_error g)) response
       else response in
     ret {| body := PDict response; status := 200; headers := [] |})
    (fun e =>
       ret {| body := PDict [(py "connected", PBool false);
                             (py "mode", PStr (py "default"));
                             (py "sdkVersion", PStr (py "error"));
                             (py "sdkInitialized", PBool false);
                             (py "connectionState", PStr (py "OFF"));
                             (py "error", PStr (exc_text e))];
              status := 500; headers := [] |}).

End StatusRoutes.

Arguments health_check {E}.
Arguments get_status {E}.

End Status.

(** ** The raw flag store route *)

Module Store.
Import Contexts App.

(** A flag object of the feature store: one with [to_json_dict], or one
    that is parsed back from its [str]; either conversion may raise. *)
Inductive FlagObj :=
| HasToJsonDict (to_json_dict : outcome pyval)
| Printed (json_loads_str : outcome pyval).

Definition flag_json (f : FlagObj) : outcome pyval :=
  match f with
  | HasToJsonDict r => r
  | Printed r => r
  end.

(** The SDK internals the route reaches: [client._config.feature_store]
    ([false] when it is None) and the result handed to the callback of
    [feature_store.all(FEATURES, callback)]. *)
Record FeatureStore (E : Type) := {
  has_feature_store : ClientRef -> E -> outcome bool * E;
  store_all : ClientRef -> E -> outcome (option (list (pystr * FlagObj))) * E
}.
Arguments has_feature_store {E}.
Arguments store_all {E}.

Definition external {E A} (f : E -> outcome A * E) : M E A :=
  fun w =>
    let (r, s) := f (engine_state w) in
    (r, {| engine_state := s; calls := calls w |}).

(** The loop [for key, flag_obj in raw_flags.items(): flags_dict[key] = ...] *)
Fixpoint convert_flags (raw_flags : list (pystr * FlagObj)) (flags_dict : pydict)
  : outcome pydict :=
  match raw_flags with
  | [] => Ok flags_dict
  | (key, flag_obj) :: rest =>
      match flag_json flag_obj with
      | Ok j => convert_flags rest (setitem key j flags_dict)
      | Raise e => Raise e
      end
  end.

Definition store_failure (msg : pystr) (initialized : bool) (code : Z) : Response :=
  {| body := PDict [(py "success", PBool false);
                    (py "error", PStr msg);
                    (py "sdkInitialized", PBool initialized);
                    (py "flags", PDict [])];
     status := code; headers := [] |}.

Section StoreRoute.
Variable E : Type.
Variable eng : Engine E.
Variable store : FeatureStore E.

(** [GET|POST /api/sdk-data-store] *)
Definition get_sdk_data_store (g : Globals) : M E Response :=
  try_except
    (initialized <~ is_sdk_initialized eng g ;;
     if negb initialized then
       ret (store_failure (py "SDK not initialized") false 503)
     else
       match get_ld_client g with
       | None => ret (store_failure (py "SDK client not available") false 503)
       | Some client =>
           try_except
             (feature_store <~ external (has_feature_store store client) ;;
              if negb feature_store then
                ret (store_failure (py "Feature store not available") true 500)
              else
                raw_flags <~ external (store_all store client) ;;
                match raw_flags with
                | None =>
                    ret (store_failure (py "No flags in feature store") true 500)
                | Some raw =>
                    flags_dict <~ lift (convert_flags raw []) ;;
                    ret {| body :=
                             PDict [(py "success", PBool true);
                                    (py "flags", PDict flags_dict);
                                    (py "sdkInitialized", PBool true);
                                    (py "flagCount",
                                     PInt (Z.of_nat (List.length flags_dict)));
                                    (py "contextIndependent", PBool true);
                                    (py "storeType",
                                     PStr (py "in-memory-feature-store"))];
                           status := 200; headers := [] |}
                end)
             (fun e =>
                ret (store_failure
                       (py "Error accessing feature store: " ++ exc_text e)
                       true 500))
       end)
    (fun e =>
       ret {| body := PDict [(py "success", PBool false);
                             (py "error", PStr (py "Internal server error"));
                             (py "message", PStr (exc_text e));
                             (py "flags", PDict [])];
              status := 500; headers := [] |}).

End StoreRoute.

Arguments get_sdk_data_store {E}.

End Store.

(** ** The server-sent events route *)

Module Stream.
Import Contexts App.

(** [int(x)] on a float: truncation towards zero. *)
Definition py_int (q : Q) : Z := Z.quot (Qnum q) (Z.pos (Qden q)).

(** What the generator yields: a [data:] event or the heartbeat comment. *)
Inductive Event :=
| Data (d : pyval)
| Heartbeat.

(** The streaming answer: the generator has captured the context and the
    context key of the request. *)
Record StreamResponse := {
  stream_context : LDContext;
  stream_context_key : pyval;
  mimetype : pystr;
  stream_headers : list (pystr * pystr)
}.

(** The generator between two steps: before the first event, after it, in
    the loop (with the queue the listener fills, the time of the last
    heartbeat and whether a listener is registered), or finished. *)
Record StreamState := {
  update_queue : list pyval;
  last_heartbeat : Q;
  listener_registered : bool
}.

Inductive Phase :=
| Opening
| Subscribing
| Looping (st : StreamState)
| Closed.

Definition sse_error (msg : pystr) (code : Z) : Response :=
  {| body := PDict [(py "error", PStr msg)]; status := code; headers := [] |}.

Section Sse.
Variable E : Type.
Variable eng : Engine E.
Variable sdk : ContextSDK.
(** [client.flag_tracker.add_flag_value_change_listener(flag_key, context, fn)] *)
Variable add_flag_value_change_listener :
  ClientRef -> pystr -> LDContext -> E -> outcome unit * E.
(** [json.dumps] *)
Variable json_dumps : pyval -> pystr.

(** The text of one yielded chunk. *)
Definition chunk (e : Event) : pystr :=
  match e with
  | Data d => py "data: " ++ json_dumps d ++ [10; 10]
  | Heartbeat => py ": heartbeat" ++ [10; 10]
  end.

(** [GET /api/sse]: the set-up that runs before the stream is returned. *)
Definition sse_endpoint (req : Request) : M E (Response + StreamResponse) :=
  try_except
    (let context_key := args_get (py "contextKey") (args req) in
     let email := args_get (py "email") (args req) in
     let name := args_get (py "name") (args req) in
     let location := args_get (py "location") (args req) in
     if negb (truthy context_key) then
       ret (inl (sse_error (py "Missing required parameter: contextKey") 400))
     else
       let (is_valid, error_message) := validate_context_key context_key in
       if negb is_valid then
         ret (inl (sse_error
                     (py "Invalid contextKey: " ++
                      match error_message with Some m => m | None => py "None" end)
                     400))
       else
         match create_context sdk context_key email name location with
         | Raise e =>
             match exc_kind e with
             | ValueError | TypeError | RuntimeError =>
                 ret (inl (sse_error
                             (py "Failed to create context: " ++ exc_text e) 400))
             | _ => throw e
             end
         | Ok context =>
             ret (inr {| stream_context := context;
                         stream_context_key := context_key;
                         mimetype := py "text/event-stream";
                         stream_headers :=
                           [(py "Cache-Control", py "no-cache");
                            (py "X-Accel-Buffering", py "no");
                            (py "Connection", py "keep-alive")] |})
         end)
    (fun e =>
       ret (inl {| body := PDict [(py "error",
                                   PStr (py "Failed to establish SSE connection"));
                                  (py "message", PStr (exc_text e))];
                   status := 500; headers := [] |})).

(** The payload built for the first event and again by the listener:
    evaluation, bucketing demonstration, timestamp, then the three fields of
    [sse_data]. *)
Definition snapshot (context : LDContext) (context_key : pyval) (g : Globals)
  : M E pyval :=
  result <~ evaluate_flag eng (py "user-message") context
              (PStr (py "Hello from Python!")) g ;;
  let result := match result with PDict d => d | _ => [] end in
  result <~ attach_hash_info E eng context_key g result ;;
  now <~ call_time eng ;;
  let result := setitem (py "timestamp") (PInt (py_int now)) result in
  ret (PDict [(py "message", get (py "value") result);
              (py "hashInfo", get (py "hashInfo") result);
              (py "timestamp", get (py "timestamp") result)]).

(** [flag_value_change_listener]: what it puts in the queue, if anything. *)
Definition flag_value_change_listener (context : LDContext) (context_key : pyval)
    (g : Globals) : M E (option pyval) :=
  try_except
    (sse_data <~ snapshot context context_key g ;; ret (Some sse_data))
    (fun _ => ret None).

(** The registration of the listener; the result is [listener_registered]. *)
Definition register_listener (context : LDContext) (g : Globals) : M E bool :=
  match get_ld_client g with
  | None => ret false
  | Some client =>
      ready <~ is_sdk_initialized eng g ;;
      if (ready : bool) then
        try_except
          (_ <~ Store.external
                  (add_flag_value_change_listener client (py "user-message") context) ;;
           ret true)
          (fun _ => ret false)
      else ret false
  end.

(** One pass of [while True]. *)
Definition loop_iteration (st : StreamState) : M E (list Event * Phase) :=
  current_time <~ call_time eng ;;
  let updates := match update_queue st with [] => [] | u :: _ => [Data u] end in
  let queue := match update_queue st with [] => [] | _ :: r => r end in
  let due := Qle_bool 15 (current_time - last_heartbeat st) in
  _ <~ call_sleep eng 1 ;;
  ret (updates ++ (if due then [Heartbeat] else []),
       Looping {| update_queue := queue;
                  last_heartbeat := if due then current_time else last_heartbeat st;
                  listener_registered := listener_registered st |}).

(** The clause [except Exception as e] of the generator: one last event. *)
Definition stream_error (e : pyexc) : M E (list Event * Phase) :=
  now <~ call_time eng ;;
  ret ([Data (PDict [(py "error", PStr (py "Stream error"));
                     (py "message", PStr (exc_text e));
                     (py "timestamp", PInt (py_int now))])],
       Closed).

(** One step of the generator and the events it yields: the code up to the
    first [yield]; the registration of the listener, up to the loop; one pass
    of the loop; an exception of a step runs the [except Exception] clause,
    after which the generator is finished. *)
Definition resume (context : LDContext) (context_key : pyval) (g : Globals)
    (ph : Phase) : M E (list Event * Phase) :=
  match ph with
  | Opening =>
      try_except
        (first <~ snapshot context context_key g ;;
         ret ([Data first], Subscribing))
        stream_error
  | Subscribing =>
      try_except
        (registered <~ register_listener context g ;;
         now <~ call_time eng ;;
         ret ([], Looping {| update_queue := [];
                             last_heartbeat := now;
                             listener_registered := registered |}))
        stream_error
  | Looping st => try_except (loop_iteration st) stream_error
  | Closed => ret ([], Closed)
  end.

(** The SDK reports a change of the flag: the listener, when one is
    registered, puts its payload at the back of the queue. The result also
    tells what was put. *)
Definition flag_changed (context : LDContext) (context_key : pyval) (g : Globals)
    (ph : Phase) : M E (list pyval * Phase) :=
  match ph with
  | Looping st =>
      if listener_registered st then
        put <~ flag_value_change_listener context context_key g ;;
        match put with
        | Some sse_data =>
            ret ([sse_data],
                 Looping {| update_queue := update_queue st ++ [sse_data];
                            last_heartbeat := last_heartbeat st;
                            listener_registered := true |})
        | None => ret ([], ph)
        end
      else ret ([], ph)
  | _ => ret ([], ph)
  end.

(** A connection seen from outside: the generator runs its next step, or the
    SDK reports a change of the flag between two steps. *)
Inductive Action := Resume | FlagChange.

(** The events yielded and the payloads put in the queue along a sequence of
    actions. *)
Fixpoint run (context : LDContext) (context_key : pyval) (g : Globals)
    (script : list Action) (ph : Phase)
  : M E (list Event * list pyval * Phase) :=
  match script with
  | [] => ret ([], [], ph)
  | Resume :: rest =>
      r <~ resume context context_key g ph ;;
      r' <~ run context context_key g rest (snd r) ;;
      ret (fst r ++ fst (fst r'), snd (fst r'), snd r')
  | FlagChange :: rest =>
      r <~ flag_changed context context_key g ph ;;
      r' <~ run context context_key g rest (snd r) ;;
      ret (fst (fst r'), fst r ++ snd (fst r'), snd r')
  end.

End Sse.

Arguments sse_endpoint {E}.
Arguments snapshot {E}.
Arguments flag_value_change_listener {E}.
Arguments register_listener {E}.
Arguments loop_iteration {E}.
Arguments stream_error {E}.
Arguments resume {E}.
Arguments flag_changed {E}.
Arguments run {E}.

(** The payloads of the data events. *)
Definition payloads (es : list Event) : list pyval :=
  flat_map (fun e => match e with Data d => [d] | Heartbeat => [] end) es.

End Stream.

(** ** Vocabulary of the further properties *)

Module Vocabulary.
Import Contexts App.

(** An optional attribute that passes the type check of [create_context]. *)
Definition optional_ok (v : pyval) : Prop :=
  v = PNone \/ isinstance_str v = true.



(** A computation that lets no exception of class [Exception] out. *)
Definition contained {E A} (m : M E A) : Prop :=
  forall w e w', m w = (Raise e, w') -> is_Exception e = false.

(** The request has a contextKey parameter that is not empty but blank. *)
Definition blank_context_key (req : Request) : bool :=
  match args_get (py "contextKey") (args req) with
  | PStr (c :: k) => match strip (c :: k) with [] => true | _ => false end
  | _ => false
  end.

(** An optional attribute of a stored user sub-context: absent, None or a
    string. *)
Definition stored_optional (k : pystr) (user : pydict) : Prop :=
  match lookup k user with
  | None => True
  | Some v => optional_ok v
  end.

(** A [current_context] that [flag_endpoint] can always build a context
    from: a multi-context whose user key is a string that is not blank and
    whose email, name and location, when present, are strings. *)
Definition servable_context (cc : pyval) : Prop :=
  exists d user key,
    cc = PDict d /\
    lookup (py "kind") d = Some (PStr (py "multi")) /\
    lookup (py "user") d = Some (PDict user) /\
    lookup (py "key") user = Some (PStr key) /\ strip key <> [] /\
    stored_optional (py "email") user /\
    stored_optional (py "name") user /\
    stored_optional (py "location") user.

(** The answer of [/api/flag] to a blank contextKey. *)
Definition invalid_context_key : Response :=
  flag_error
    (py "Invalid contextKey: context_key cannot be empty or whitespace")
    (py "INVALID_PARAMETER") 400.

(** The key of the user sub-context of a stored context. *)
Definition user_key (cc : pyval) : option pyval :=
  match cc with
  | PDict d =>
      match lookup (py "user") d with
      | Some (PDict user) => lookup (py "key") user
      | _ => None
      end
  | _ => None
  end.

(** A stored multi-context with a user sub-context; [anon] tells whether its
    [anonymous] entry is truthy. *)
Definition stored_user (cc : pyval) (user : pydict) (anon : bool) : Prop :=
  exists d,
    cc = PDict d /\
    lookup (py "kind") d = Some (PStr (py "multi")) /\
    lookup (py "user") d = Some (PDict user) /\
    truthy (get_default (py "anonymous") (PBool false) user) = anon.

(** A request to [/api/context] that is neither OPTIONS nor GET. *)
Definition is_update (req : Request) : Prop :=
  pystr_eqb (method req) (py "OPTIONS") = false /\
  pystr_eqb (method req) (py "GET") = false.

Definition anonymous_request (location : pyval) : Request :=
  {| method := py "POST"; args := []; origin := None;
     get_json := Ok (PDict [(py "type", PStr (py "anonymous"));
                            (py "location", location)]) |}.

Definition get_request : Request :=
  {| method := py "GET"; args := []; origin := None;
     get_json := Ok PNone |}.

Definition mock : Engine unit := mock_engine (Ok true) (Raise network_error).

Definition custom_globals : Globals :=
  set_current_context (PDict (custom_context (PStr (py "user@example.com"))))
    sample_globals.

(** A complete answer of [/api/status]. *)
Definition status_answer (VERSION : pystr) (r : Response) : Prop :=
  (status r = 200 \/ status r = 500) /\
  exists d cs v c i,
    body r = PDict d /\
    lookup (py "mode") d = Some (PStr (py "default")) /\
    lookup (py "connectionState") d = Some (PStr cs) /\
    (cs = py "OFF" \/ cs = py "INITIALIZING" \/ cs = py "VALID") /\
    lookup (py "sdkVersion") d = Some (PStr v) /\
    lookup (py "connected") d = Some (PBool c) /\
    lookup (py "sdkInitialized") d = Some (PBool i) /\
    (c = true <-> i = true /\ cs = py "VALID") /\
    (i = true -> v = VERSION) /\
    (status r = 200 ->
     v = if i then VERSION else py "not-initialized") /\
    (status r = 500 ->
     c = false /\ i = false /\ cs = py "OFF" /\ v = py "error" /\
     exists m, lookup (py "error") d = Some (PStr m)).

(** The number of steps of the generator in a script. *)
Definition steps (script : list Stream.Action) : nat :=
  List.length (filter (fun a => match a with
                                | Stream.Resume => true
                                | Stream.FlagChange => false
                                end) script).

(** A registration that always succeeds, and a stream in its loop with an
    empty queue, a heartbeat at time 0 and no listener. *)
Definition accepting_tracker {E} (c : ClientRef) (flag_key : pystr)
    (context : LDContext) (s : E) : outcome unit * E := (Ok tt, s).

Definition idle_stream : Stream.StreamState :=
  {| Stream.update_queue := []; Stream.last_heartbeat := 0%Q;
     Stream.listener_registered := false |}.


(** A well-formed answer of [/api/sdk-data-store]. *)
Definition store_answer (r : Response) : Prop :=
  (status r = 200 \/ status r = 500 \/ status r = 503) /\
  exists d flags,
    body r = PDict d /\
    lookup (py "flags") d = Some (PDict flags) /\
    (status r <> 200 ->
     flags = [] /\ lookup (py "success") d = Some (PBool false)) /\
    (status r = 200 ->
     lookup (py "success") d = Some (PBool true) /\
     lookup (py "flagCount") d = Some (PInt (Z.of_nat (List.length flags)))) /\
    lookup (py "error") d <> Some (PStr (py "SDK client not available")).

(** An engine whose client never becomes ready and whose state is the
    clock: reading the time shows it, sleeping advances it. *)
Definition ticking_engine : Engine Q :=
  {| environ_get := fun _ _ => Some (py "sdk-key");
     set_config := fun _ s => (Ok tt, s);
     ldclient_get := fun s => (Ok 0%nat, s);
     is_initialized := fun _ s => (Ok false, s);
     variation_detail :=
       fun _ _ _ dv s => (Ok {| value := dv; reason := PNone |}, s);
     time_time := fun s => (s, s);
     time_sleep := fun d s => (s + d)%Q;
     uuid4 := fun s => (py "6f1c2a9e-0b7d-4c55-9e2a-3d1f8b4c7a10", s) |}.

(** [n] sleeps of 100 ms. *)
Fixpoint slept (n : nat) : Q :=
  match n with
  | O => 0
  | S n' => slept n' + (1 # 10)
  end.

Definition fresh_globals (u : pystr) : Globals :=
  {| _ld_client := None; _sdk_initialized := false;
     _sdk_initialization_error := None;
     current_context := startup_context u |}.

End Vocabulary.

(** * Properties *)

(** ** Strings and dicts *)

Module PyFacts.

Lemma pystr_eqb_eq a b : pystr_eqb a b = true <-> a = b.
Proof.
  revert b; induction a as [|x a IH]; intros [|y b]; simpl; split;
    try congruence; try reflexivity.
  - intros H. apply andb_true_iff in H as [H1 H2].
    apply Z.eqb_eq in H1. apply IH in H2. congruence.
  - intros H. injection H as -> ->. rewrite Z.eqb_refl. simpl. now apply IH.
Qed.

Lemma pystr_eqb_refl a : pystr_eqb a a = true.
Proof. now apply pystr_eqb_eq. Qed.

End PyFacts.

(** ** The bucketing hash *)

Module BucketingFacts.
Import Sha1 Bucketing.

(** The embedded SHA-1 on the test vectors of FIPS 180: the empty message,
    a one-block message and a two-block message. *)
Example sha1_empty :
  hexdigest (sha1 []) = py "da39a3ee5e6b4b0d3255bfef95601890afd80709".
Proof. vm_compute. reflexivity. Qed.

Example sha1_abc :
  hexdigest (sha1 (py "abc")) = py "a9993e364706816aba3e25717850c26c9cd0d89d".
Proof. vm_compute. reflexivity. Qed.

Example sha1_two_blocks :
  hexdigest (sha1 (py "abcdbcdecdefdefgefghfghighijhijkijkljklmklmnlmnomnopnopq"))
  = py "84983e441c3bd26ebaae4aa1f95129e5e54670f1".
Proof. vm_compute. reflexivity. Qed.

Example utf8_euro : utf8_encode [0x20AC] = Some [0xE2; 0x82; 0xAC].
Proof. reflexivity. Qed.

(** Every string of Unicode scalar values has a UTF-8 encoding: only a lone
    surrogate makes [encode] fail on a [str]. *)
Lemma utf8_encode_scalar s :
  Forall scalar s -> exists bytes, utf8_encode s = Some bytes.
Proof.
  induction 1 as [|c s [Hr Hs] _ [bs IH]]; [now exists []|].
  cbn [utf8_encode]. rewrite IH.
  assert (Hc : exists b, utf8_cp c = Some b).
  { unfold utf8_cp.
    destruct (c <? 0) eqn:H0; [apply Z.ltb_lt in H0; lia|].
    destruct (c <? 128); [eauto|].
    destruct (c <? 2048); [eauto|].
    destruct (c <? 65536).
    - destruct ((55296 <=? c) && (c <=? 57343)) eqn:Hsur; [|eauto].
      apply andb_true_iff in Hsur as [H1 H2].
      apply Z.leb_le in H1, H2. lia.
    - destruct (c <=? 1114111) eqn:H4; [eauto|].
      apply Z.leb_gt in H4. lia. }
  destruct Hc as [b ->]. eauto.
Qed.

Lemma hex_val_hexdigit d : 0 <= d < 16 -> hex_val (hexdigit d) = Some d.
Proof.
  intros H. unfold hex_val, hexdigit.
  destruct (d <? 10) eqn:Hlt.
  - apply Z.ltb_lt in Hlt.
    replace ((48 <=? 48 + d) && (48 + d <=? 57)) with true.
    + f_equal; lia.
    + symmetry. apply andb_true_iff. split; apply Z.leb_le; lia.
  - apply Z.ltb_ge in Hlt.
    replace ((48 <=? 87 + d) && (87 + d <=? 57)) with false.
    + replace ((97 <=? 87 + d) && (87 + d <=? 102)) with true.
      * f_equal; lia.
      * symmetry. apply andb_true_iff. split; apply Z.leb_le; lia.
    + symmetry. apply andb_false_iff. right. apply Z.leb_gt. lia.
Qed.

Lemma int16_from_bound s : forall acc,
  Forall hexchar s -> 0 <= acc ->
  exists v, int16_from acc s = Some v /\
            acc * 16 ^ Z.of_nat (List.length s) <= v
              < (acc + 1) * 16 ^ Z.of_nat (List.length s).
Proof.
  induction s as [|c s IH]; intros acc Hs Hacc.
  - exists acc. simpl. split; [reflexivity | lia].
  - inversion Hs as [|? ? [d [Hd ->]] Hs']; subst.
    cbn [int16_from]. rewrite (hex_val_hexdigit d Hd).
    destruct (IH (acc * 16 + d) Hs') as [v [Hv Hb]]; [lia|].
    exists v. split; [exact Hv|].
    change (List.length (hexdigit d :: s)) with (S (List.length s)).
    rewrite Nat2Z.inj_succ, Z.pow_succ_r by lia.
    set (p := 16 ^ Z.of_nat (List.length s)) in *.
    assert (0 < p) by (apply Z.pow_pos_nonneg; lia).
    nia.
Qed.

Lemma be4_bytes w : Forall byte (be4 w).
Proof.
  unfold be4, byte. repeat constructor; apply Z.mod_pos_bound; lia.
Qed.

Lemma sha1_bytes msg : Forall byte (sha1 msg) /\ List.length (sha1 msg) = 20%nat.
Proof.
  unfold sha1. destruct (sha1_words msg) as [[[[h0 h1] h2] h3] h4].
  split; [|reflexivity].
  repeat (apply Forall_app; split); apply be4_bytes.
Qed.

Lemma hexdigest_hexchars bs : Forall byte bs -> Forall hexchar (hexdigest bs).
Proof.
  induction 1 as [|b bs Hb _ IH]; simpl; [constructor|].
  unfold byte in Hb.
  constructor; [|constructor; [|exact IH]].
  - exists (b / 16). split; [|reflexivity].
    split; [apply Z.div_pos; lia | apply Z.div_lt_upper_bound; lia].
  - exists (b mod 16). split; [|reflexivity]. apply Z.mod_pos_bound; lia.
Qed.

Lemma hexdigest_length bs : List.length (hexdigest bs) = (2 * List.length bs)%nat.
Proof. induction bs; simpl; [reflexivity | lia]. Qed.

Lemma Forall_prefix {A} (P : A -> Prop) n : forall l,
  Forall P l -> Forall P (firstn n l).
Proof.
  induction n as [|n IH]; intros l Hl; simpl; [constructor|].
  destruct Hl; constructor; auto.
Qed.

(** The 15-character prefix of a SHA-1 hex digest always parses, to a value
    of at most 15 F's. *)
Lemma hash_prefix_value msg :
  exists h, int16 (firstn 15 (hexdigest (sha1 msg))) = Some h /\
            0 <= h <= Z.pos max_hash.
Proof.
  destruct (sha1_bytes msg) as [Hb Hl].
  pose proof (hexdigest_hexchars _ Hb) as Hh.
  pose proof (hexdigest_length (sha1 msg)) as Hlen. rewrite Hl in Hlen.
  assert (Hp : Forall hexchar (firstn 15 (hexdigest (sha1 msg))))
    by (apply Forall_prefix; exact Hh).
  assert (Hn : List.length (firstn 15 (hexdigest (sha1 msg))) = 15%nat)
    by (rewrite length_firstn; lia).
  destruct (int16_from_bound _ 0 Hp) as [v [Hv Hbound]]; [lia|].
  rewrite Hn in Hbound.
  exists v. split.
  - unfold int16. destruct (firstn 15 (hexdigest (sha1 msg))); [discriminate Hn | exact Hv].
  - change (16 ^ Z.of_nat 15) with 1152921504606846976 in Hbound.
    change (Z.pos max_hash) with 1152921504606846975. lia.
Qed.

(** C6. When any of the three string inputs is empty, [calculate_hash_value]
    returns [None] instead of a bucketing record. *)
Theorem calculate_hash_value_empty_input flag_key context_key salt :
  flag_key = [] \/ context_key = [] \/ salt = [] ->
  calculate_hash_value flag_key context_key salt = None.
Proof.
  unfold calculate_hash_value.
  intros [-> | [-> | ->]]; [reflexivity | |].
  - destruct flag_key; reflexivity.
  - destruct flag_key; [reflexivity|]. destruct context_key; reflexivity.
Qed.

Lemma calculate_hash_value_empty_input_witness :
  (py "user-message" = [] \/ @nil Z = [] \/ py "salt" = []) /\
  calculate_hash_value (py "user-message") [] (py "salt") = None.
Proof.
  split.
  - right; left; reflexivity.
  - apply (calculate_hash_value_empty_input (py "user-message") [] (py "salt")).
    right; left; reflexivity.
Defined.
















(** The division rounds to 1.0 already 63 below the divisor, and not 64
    below. *)
Example true_divide_rounds_to_one :
  (true_divide (Z.pos max_hash - 63) max_hash == 1)%Q /\
  (true_divide (Z.pos max_hash - 64) max_hash
     == 9007199254740991 # 9007199254740992)%Q.
Proof. split; vm_compute; reflexivity. Qed.

(** The record returned for the call of the docstring example; the float is
    0x1.c7638c1e0eb9cp-7. *)
Lemma example_hash_value :
  calculate_hash_value (py "user-message") (py "user-123")
    (py "94b881a3be5c449d99dbbe1a92ca3fa0") =
    Some {| hashValue := 16022570981775159;
            bucketValue := 8011285490887580 # 576460752303423488;
            salt := py "94b881a3be5c449d99dbbe1a92ca3fa0" |}.
Proof. vm_compute. reflexivity. Qed.

(** C5 at its failing input, the call of the docstring example: the hash is
    16022570981775159 (the digest starts 038ec7183c1d737) and the bucket
    value is the float 2002821372721895 / 2^57, printed
    0.013897365013795064; it is not within 0.01 of the documented
    0.45082819853739825. *)
Theorem calculate_hash_value_example :
  exists r,
    calculate_hash_value (py "user-message") (py "user-123")
      (py "94b881a3be5c449d99dbbe1a92ca3fa0") = Some r /\
    firstn 15 (hexdigest (sha1 (py "user-message.94b881a3be5c449d99dbbe1a92ca3fa0.user-123")))
      = py "038ec7183c1d737" /\
    hashValue r = 16022570981775159 /\
    (bucketValue r == 2002821372721895 # 144115188075855872)%Q /\
    (13897365013795063 # 1000000000000000000 < bucketValue r)%Q /\
    (bucketValue r < 13897365013795065 # 1000000000000000000)%Q /\
    ~ ((45082819853739825 # 100000000000000000) - (1 # 100)
         <= bucketValue r)%Q.
Proof.
  eexists. split; [apply example_hash_value|].
  split; [vm_compute; reflexivity|].
  split; [reflexivity|].
  split; [vm_compute; reflexivity|].
  split; [vm_compute; reflexivity|].
  split; [vm_compute; reflexivity|].
  vm_compute. intros H. apply H. reflexivity.
Qed.

End BucketingFacts.

(** ** The context builders *)

Module ContextFacts.
Import Contexts.

(** [create_context] refuses a key that is None, empty or blank, whatever the
    SDK does. *)
Lemma create_context_rejects_blank_key (sdk : ContextSDK) key email name location :
  key = PNone \/ (exists k, key = PStr k /\ strip k = []) ->
  exists msg,
    create_context sdk key email name location =
      Raise {| exc_kind := ValueError; exc_text := msg |}.
Proof.
  intros [-> | [k [-> Hk]]]; [eexists; reflexivity|].
  unfold create_context.
  destruct k as [|c k]; [eexists; reflexivity|].
  cbn [truthy strip_val negb orb]. rewrite Hk. eexists; reflexivity.
Qed.

(** [buildContext] refuses an input that is None or whose key is absent,
    None or empty. *)
Lemma buildContext_rejects_missing_key (sdk : ContextSDK) context_data :
  context_data = PNone \/
  (exists d, context_data = PDict d /\ truthy (get (py "key") d) = false) ->
  exists msg,
    buildContext sdk context_data =
      Raise {| exc_kind := ValueError; exc_text := msg |}.
Proof.
  intros [-> | [d [-> Hd]]]; [eexists; reflexivity|].
  unfold buildContext. rewrite Hd. eexists; reflexivity.
Qed.

(** C3 at its failing input: a blank key passes the check of [buildContext],
    which builds a context whose user key is the untrimmed text. *)
Theorem buildContext_blank_key :
  strip (py "   ") = [] /\
  buildContext recording_sdk (PDict [(py "key", PStr (py "   "))]) =
    Ok (Multi [ {| c_key := PStr (py "   "); c_kind := py "user";
                   c_anonymous := false; c_attrs := [] |};
                container_context ]).
Proof. split; reflexivity. Qed.

(** The guard of an optional attribute, in both builders, is [kept]. *)
Lemma guard_buildContext k v (b : ContextBuilder) :
  (if truthy v && isinstance_str v && truthy (strip_val v)
   then set k (strip_val v) b else b) =
  match kept v with Some t => set k t b | None => b end.
Proof.
  destruct v as [|t|n|q|s|l|d]; cbn [truthy isinstance_str strip_val kept andb];
    try reflexivity.
  - destruct t; reflexivity.
  - destruct (negb (n =? 0)); reflexivity.
  - destruct (negb (Qeq_bool q 0)); reflexivity.
  - destruct s as [|c s]; [reflexivity|].
    cbn [andb]. destruct (strip (c :: s)); reflexivity.
  - destruct l; reflexivity.
  - destruct d; reflexivity.
Qed.

Lemma guard_create_context k v (b : ContextBuilder) :
  v = PNone \/ isinstance_str v = true ->
  (if truthy v && truthy (strip_val v) then set k (strip_val v) b else b) =
  match kept v with Some t => set k t b | None => b end.
Proof.
  intros [-> | Hv]; [reflexivity|].
  destruct v as [| | | |s| |]; try discriminate.
  cbn [truthy strip_val kept].
  destruct s as [|c s]; [reflexivity|].
  cbn [andb]. destruct (strip (c :: s)); reflexivity.
Qed.

Lemma check_optional_ok label v :
  check_optional label v = Ok tt -> v = PNone \/ isinstance_str v = true.
Proof. destruct v; simpl; intros H; try discriminate; auto. Qed.

(** C8, as the code has it. Both entry points store, for each of email, name
    and location, the trimmed text of a non-blank string and nothing
    otherwise: an empty string is omitted by [create_context] just as by
    [buildContext]. *)
Theorem optional_attributes_kept :
  (forall d ctx,
      buildContext recording_sdk (PDict d) = Ok ctx ->
      exists user,
        ctx = Multi [user; container_context] /\
        lookup (py "email") (c_attrs user) = kept (get (py "email") d) /\
        lookup (py "name") (c_attrs user) = kept (get (py "name") d) /\
        lookup (py "location") (c_attrs user) = kept (get (py "location") d)) /\
  (forall context_key email name location ctx,
      create_context recording_sdk context_key email name location = Ok ctx ->
      exists user,
        ctx = Multi [user; container_context] /\
        lookup (py "email") (c_attrs user) = kept email /\
        lookup (py "name") (c_attrs user) = kept name /\
        lookup (py "location") (c_attrs user) = kept location).
Proof.
  split.
  - intros d ctx. unfold buildContext.
    destruct (negb (truthy (get (py "key") d))); [discriminate|].
    generalize (get (py "email") d) (get (py "name") d) (get (py "location") d)
      (truthy (get_default (py "anonymous") (PBool false) d)).
    intros email name location anon. cbv zeta.
    rewrite !guard_buildContext.
    cbn [reraise_runtime recording_sdk build create_multi bind].
    intros H. injection H as <-. eexists. split; [reflexivity|].
    destruct anon, (kept email), (kept name), (kept location);
      repeat split; reflexivity.
  - intros context_key email name location ctx. unfold create_context.
    destruct context_key as [| | | |k| |]; try discriminate.
    destruct (negb (truthy (PStr k)) || negb (truthy (strip_val (PStr k))));
      [discriminate|].
    destruct (check_optional (py "email") email) as [[]|] eqn:He; [|discriminate].
    destruct (check_optional (py "name") name) as [[]|] eqn:Hn; [|discriminate].
    destruct (check_optional (py "location") location) as [[]|] eqn:Hl;
      [|discriminate].
    apply check_optional_ok in He, Hn, Hl.
    cbn [bind]. cbv zeta.
    rewrite !guard_create_context by assumption.
    cbn [reraise_runtime recording_sdk build create_multi bind].
    intros H. injection H as <-. eexists. split; [reflexivity|].
    destruct (kept email), (kept name), (kept location);
      repeat split; reflexivity.
Qed.

Lemma optional_attributes_kept_witness :
  exists user,
    create_context recording_sdk (PStr (py "user-123")) (PStr []) PNone PNone =
      Ok (Multi [user; container_context]) /\
    lookup (py "email") (c_attrs user) = None.
Proof.
  destruct optional_attributes_kept as [_ H].
  destruct (H (PStr (py "user-123")) (PStr []) PNone PNone _ eq_refl)
    as [user [Hu [He _]]].
  exists user. split; [rewrite <- Hu; reflexivity | exact He].
Defined.

(** Through [create_context] an explicitly supplied empty email is not
    stored: the user sub-context has no attribute at all. *)
Lemma create_context_empty_email_omitted :
  create_context recording_sdk (PStr (py "user-123")) (PStr []) PNone PNone =
    Ok (Multi [ {| c_key := PStr (py "user-123"); c_kind := py "user";
                   c_anonymous := false; c_attrs := [] |};
                container_context ]) /\
  ~ (exists ctx user rest,
        create_context recording_sdk (PStr (py "user-123")) (PStr []) PNone PNone =
          Ok ctx /\ ctx = Multi (user :: rest) /\
        lookup (py "email") (c_attrs user) = Some (PStr [])).
Proof.
  split; [reflexivity|].
  intros [ctx [user [rest [H [-> Hl]]]]].
  injection H as <- <-. discriminate Hl.
Qed.

End ContextFacts.

(** ** The SDK singleton and the evaluator *)

Module AppFacts.
Import Contexts App.

Section Evaluation.
Variable E : Type.
Variable eng : Engine E.

Lemma is_sdk_initialized_not_ready g w :
  not_ready eng g w ->
  exists w', is_sdk_initialized eng g w = (Ok false, w') /\
             (calls w' = calls w \/
              exists c, calls w' = CallIsInitialized c :: calls w).
Proof.
  unfold not_ready, is_sdk_initialized.
  intros [H | [H | [c [Hc Hi]]]].
  - rewrite H. exists w. split; [reflexivity | now left].
  - rewrite H. destruct (_sdk_initialized g); exists w; split;
      try reflexivity; now left.
  - rewrite Hc. destruct (_sdk_initialized g).
    + unfold call_is_initialized, logged.
      destruct (is_initialized eng c (engine_state w)) as [r s].
      simpl in Hi. subst r. eexists. split; [reflexivity|].
      right. exists c. reflexivity.
    + exists w. split; [reflexivity | now left].
Qed.

Lemma is_sdk_initialized_ready g c w w1 :
  ready eng g c w w1 -> is_sdk_initialized eng g w = (Ok true, w1).
Proof.
  intros [Hi [Hc Hr]]. unfold is_sdk_initialized. now rewrite Hi, Hc.
Qed.

(** C1. While the client is not READY, [evaluate_flag] returns exactly
    [{value: default, reason: {kind: ERROR, errorKind: CLIENT_NOT_READY}}]
    and makes no [variation_detail] call: the only call it may add to the log
    is the readiness poll. *)
Theorem evaluate_flag_client_not_ready flag_key context default_value g w :
  not_ready eng g w ->
  exists w',
    evaluate_flag eng flag_key context default_value g w =
      (Ok (PDict [(py "value", default_value);
                  (py "reason",
                   PDict [(py "kind", PStr (py "ERROR"));
                          (py "errorKind", PStr (py "CLIENT_NOT_READY"))])]),
       w') /\
    (calls w' = calls w \/ exists c, calls w' = CallIsInitialized c :: calls w) /\
    (forall call, In call (calls w') -> is_evaluation call = true ->
                  In call (calls w)).
Proof.
  intros H.
  destruct (is_sdk_initialized_not_ready g w H) as [w' [Hs Hc]].
  exists w'. split; [|split; [exact Hc|]].
  - unfold evaluate_flag, try_except, mbind. rewrite Hs.
    unfold get_ld_client. destruct (_ld_client g); reflexivity.
  - intros call Hin Hev. destruct Hc as [Hc | [c Hc]]; rewrite Hc in Hin.
    + exact Hin.
    + destruct Hin as [<- | Hin]; [discriminate Hev | exact Hin].
Qed.

(** C2, as the code has it. When the client is READY and [variation_detail]
    raises an exception of a class derived from [Exception], [evaluate_flag]
    returns normally with
    [{value: default, reason: {kind: ERROR, errorKind: EXCEPTION,
      errorMessage: str(e)}}]; the message is the text of the exception, so
    it is non-empty exactly when that text is. *)
Theorem evaluate_flag_engine_exception flag_key context default_value g c w w1 e :
  ready eng g c w w1 ->
  fst (variation_detail eng c flag_key context default_value (engine_state w1))
    = Raise e ->
  is_Exception e = true ->
  exists w2,
    evaluate_flag eng flag_key context default_value g w =
      (Ok (PDict [(py "value", default_value);
                  (py "reason",
                   PDict [(py "kind", PStr (py "ERROR"));
                          (py "errorKind", PStr (py "EXCEPTION"));
                          (py "errorMessage", PStr (exc_text e))])]),
       w2).
Proof.
  intros Hr Hv He.
  pose proof (is_sdk_initialized_ready g c w w1 Hr) as Hs.
  destruct Hr as [_ [Hc _]].
  unfold evaluate_flag, try_except, mbind. rewrite Hs.
  unfold get_ld_client. rewrite Hc. cbn [negb].
  unfold call_variation_detail, logged.
  destruct (variation_detail eng c flag_key context default_value (engine_state w1))
    as [r s].
  simpl in Hv. subst r. rewrite He.
  eexists. reflexivity.
Qed.

Lemma copy_if_set_populated k reason_dict reason :
  copy_if_set k reason_dict reason =
  match populated k (PDict reason_dict) with
  | Some v => setitem k v reason
  | None => reason
  end.
Proof.
  unfold copy_if_set, populated, has_key, get, get_default.
  destruct (lookup k reason_dict) as [v|]; [|reflexivity].
  destruct v; reflexivity.
Qed.

Lemma normalize_reason_fields r :
  lookup (py "kind") (normalize_reason r) = Some (reported_kind r) /\
  lookup (py "ruleIndex") (normalize_reason r) = populated (py "ruleIndex") r /\
  lookup (py "ruleId") (normalize_reason r) = populated (py "ruleId") r /\
  lookup (py "errorKind") (normalize_reason r) = populated (py "errorKind") r.
Proof.
  unfold normalize_reason. cbv zeta. rewrite !copy_if_set_populated.
  destruct r as [| | | | | |d]; try (repeat split; reflexivity).
  change (get_default (py "kind") (PStr (py "UNKNOWN")) d)
    with (reported_kind (PDict d)).
  destruct (populated (py "ruleIndex") (PDict d)),
    (populated (py "ruleId") (PDict d)),
    (populated (py "errorKind") (PDict d)); repeat split; reflexivity.
Qed.

Lemma populated_not_none k r v : populated k r = Some v -> v <> PNone.
Proof.
  unfold populated. destruct r; try discriminate.
  destruct (lookup k d) as [[]|]; intros H; inversion H; discriminate.
Qed.

(** C7, as the code has it. After a successful [variation_detail] the
    result carries [detail.value] and a reason whose [kind] key is always
    present: it is the engine's own [kind] entry (null when the engine's
    entry is null) and UNKNOWN when the engine's reason is not a dict or has
    no [kind]. Each of ruleIndex, ruleId and errorKind is present exactly when
    the engine populated it with a non-null value, and then holds that
    value; it is never a null placeholder. *)
Theorem evaluate_flag_reason_normalized
    flag_key context default_value g c w w1 detail s :
  ready eng g c w w1 ->
  variation_detail eng c flag_key context default_value (engine_state w1)
    = (Ok detail, s) ->
  exists w2 nr,
    evaluate_flag eng flag_key context default_value g w =
      (Ok (PDict [(py "value", value detail); (py "reason", PDict nr)]), w2) /\
    lookup (py "kind") nr = Some (reported_kind (reason detail)) /\
    (forall k,
        In k [py "ruleIndex"; py "ruleId"; py "errorKind"] ->
        lookup k nr = populated k (reason detail) /\
        lookup k nr <> Some PNone).
Proof.
  intros Hr Hv.
  pose proof (is_sdk_initialized_ready g c w w1 Hr) as Hs.
  destruct Hr as [_ [Hc _]].
  unfold evaluate_flag, try_except, mbind. rewrite Hs.
  unfold get_ld_client. rewrite Hc. cbn [negb].
  unfold call_variation_detail, logged. rewrite Hv.
  eexists. exists (normalize_reason (reason detail)).
  split; [reflexivity|].
  destruct (normalize_reason_fields (reason detail)) as [Hk [H1 [H2 H3]]].
  split; [exact Hk|].
  intros k [<- | [<- | [<- | []]]].
  - split; [exact H1|]. rewrite H1. intros H.
    now apply populated_not_none in H.
  - split; [exact H2|]. rewrite H2. intros H.
    now apply populated_not_none in H.
  - split; [exact H3|]. rewrite H3. intros H.
    now apply populated_not_none in H.
Qed.

(** A successful initialization leaves the module READY: the flag is set and
    the client exists. *)
Lemma initialize_success_ready fuel g w g' w' :
  initialize_launchdarkly_sdk eng fuel g w = Some (Ok true, g', w') ->
  _sdk_initialized g' = true /\ _ld_client g' <> None.
Proof.
  unfold initialize_launchdarkly_sdk, initialization_failed.
  destruct (_sdk_initialized g && is_some (_ld_client g)) eqn:Hg.
  - intros H. injection H as <- <-.
    apply andb_true_iff in Hg as [H1 H2]. split; [exact H1|].
    destruct (_ld_client g); [discriminate | discriminate H2].
  - destruct (environ_get eng _ _) as [[|k0 k]|]; try discriminate.
    destruct (call_set_config eng (k0 :: k) w) as [[[]|e1] w1].
    2:{ destruct (is_Exception e1); discriminate. }
    destruct (call_get eng w1) as [[c|e2] w2].
    2:{ destruct (is_Exception e2); discriminate. }
    destruct (call_time eng w2) as [[t|e3] w3].
    2:{ destruct (is_Exception e3); discriminate. }
    destruct (wait_for_initialization eng fuel c t w3) as [[[[|]|e4] w4]|];
      try discriminate.
    + intros H. injection H as <- <-. split; [reflexivity | discriminate].
    + destruct (is_Exception e4); discriminate.
Qed.

(** C9. Once initialization has succeeded and the client object exists, a
    further call to [initialize_launchdarkly_sdk] returns True at once: the
    client, the initialized flag, the recorded error and the rest of the
    module state are unchanged, and ldclient is not called. *)
Theorem initialize_idempotent_when_ready fuel g c w :
  _sdk_initialized g = true ->
  _ld_client g = Some c ->
  initialize_launchdarkly_sdk eng fuel g w = Some (Ok true, g, w).
Proof.
  intros Hi Hc. unfold initialize_launchdarkly_sdk.
  rewrite Hi, Hc. reflexivity.
Qed.

End Evaluation.

Lemma evaluate_flag_client_not_ready_witness :
  exists w',
    evaluate_flag (mock_engine (Ok false) (Ok {| value := hello; reason := PDict [] |}))
      (py "user-message") sample_context hello sample_globals empty_world =
      (Ok (client_not_ready hello), w') /\
    calls w' = [CallIsInitialized 0%nat].
Proof.
  destruct (evaluate_flag_client_not_ready unit
              (mock_engine (Ok false) (Ok {| value := hello; reason := PDict [] |}))
              (py "user-message") sample_context hello sample_globals empty_world)
    as [w' [H _]].
  - right; right. exists 0%nat. split; reflexivity.
  - exists w'. split; [exact H|].
    vm_compute in H. injection H as <-. reflexivity.
Defined.

Lemma evaluate_flag_engine_exception_witness :
  exists w2,
    evaluate_flag (mock_engine (Ok true) (Raise network_error))
      (py "user-message") sample_context hello sample_globals empty_world =
      (Ok (evaluation_exception hello network_error), w2).
Proof.
  apply (evaluate_flag_engine_exception unit
           (mock_engine (Ok true) (Raise network_error))
           (py "user-message") sample_context hello sample_globals 0%nat
           empty_world
           {| engine_state := tt; calls := [CallIsInitialized 0%nat] |}
           network_error).
  - repeat split.
  - reflexivity.
  - reflexivity.
Defined.

(** An exception without a message gives an empty [errorMessage], and an
    exception that does not derive from [Exception] is not caught. *)
Lemma evaluate_flag_exception_message_may_be_empty :
  (exists w2,
      evaluate_flag
        (mock_engine (Ok true)
           (Raise {| exc_kind := OtherException; exc_text := [] |}))
        (py "user-message") sample_context hello sample_globals empty_world =
        (Ok (PDict [(py "value", hello);
                    (py "reason",
                     PDict [(py "kind", PStr (py "ERROR"));
                            (py "errorKind", PStr (py "EXCEPTION"));
                            (py "errorMessage", PStr [])])]), w2)) /\
  (exists w2,
      evaluate_flag
        (mock_engine (Ok true)
           (Raise {| exc_kind := KeyboardInterrupt; exc_text := [] |}))
        (py "user-message") sample_context hello sample_globals empty_world =
        (Raise {| exc_kind := KeyboardInterrupt; exc_text := [] |}, w2)).
Proof. split; eexists; reflexivity. Qed.

Lemma evaluate_flag_reason_normalized_witness :
  exists w2,
    evaluate_flag (mock_engine (Ok true) (Ok {| value := hello; reason := PDict [] |}))
      (py "user-message") sample_context hello sample_globals empty_world =
      (Ok (PDict [(py "value", hello);
                  (py "reason", PDict [(py "kind", PStr (py "UNKNOWN"))])]), w2).
Proof.
  destruct (evaluate_flag_reason_normalized unit
              (mock_engine (Ok true) (Ok {| value := hello; reason := PDict [] |}))
              (py "user-message") sample_context hello sample_globals 0%nat
              empty_world
              {| engine_state := tt; calls := [CallIsInitialized 0%nat] |}
              {| value := hello; reason := PDict [] |} tt)
    as [w2 [nr [H _]]].
  - repeat split.
  - reflexivity.
  - exists w2. rewrite H. vm_compute in H. injection H as <- <-. reflexivity.
Defined.

(** A reason whose [kind] entry is null is passed on with a null [kind]. *)
Lemma evaluate_flag_null_kind :
  exists w2,
    evaluate_flag
      (mock_engine (Ok true)
         (Ok {| value := hello; reason := PDict [(py "kind", PNone)] |}))
      (py "user-message") sample_context hello sample_globals empty_world =
      (Ok (PDict [(py "value", hello);
                  (py "reason", PDict [(py "kind", PNone)])]), w2).
Proof. eexists; reflexivity. Qed.

Lemma initialize_idempotent_when_ready_witness :
  _sdk_initialized sample_globals = true /\
  _ld_client sample_globals = Some 0%nat /\
  initialize_launchdarkly_sdk
    (mock_engine (Ok true) (Raise network_error)) 0%nat sample_globals empty_world =
    Some (Ok true, sample_globals, empty_world).
Proof.
  split; [reflexivity|]. split; [reflexivity|].
  apply (initialize_idempotent_when_ready unit
           (mock_engine (Ok true) (Raise network_error)) 0%nat sample_globals 0%nat
           empty_world); reflexivity.
Defined.

End AppFacts.

(** ** The current context *)

Module ContextStateFacts.
Import Contexts App.

Section State.
Variable E : Type.
Variable eng : Engine E.

Lemma returns_ret {A} (a : A) (P : A -> Prop) : P a -> returns (E:=E) (ret a) P.
Proof. intros H w a' w' Heq. injection Heq as <- _. exact H. Qed.

Lemma returns_throw {A} e (P : A -> Prop) : returns (E:=E) (throw e) P.
Proof. intros w a w' Heq. discriminate Heq. Qed.

Lemma returns_any {A} (m : M E A) : returns m (fun _ => True).
Proof. intros w a w' _. exact I. Qed.

Lemma returns_bind {A B} (m : M E A) (f : A -> M E B) Q (P : B -> Prop) :
  returns m Q -> (forall a, Q a -> returns (f a) P) -> returns (mbind m f) P.
Proof.
  intros Hm Hf w b w' Heq. unfold mbind in Heq.
  destruct (m w) as [[a|e] w1] eqn:Hmw; [|discriminate].
  exact (Hf a (Hm _ _ _ Hmw) _ _ _ Heq).
Qed.

Lemma returns_try {A} (m : M E A) h (P : A -> Prop) :
  returns m P -> (forall e, returns (h e) P) -> returns (try_except m h) P.
Proof.
  intros Hm Hh w a w' Heq. unfold try_except in Heq.
  destruct (m w) as [[a1|e] w1] eqn:Hmw.
  - injection Heq as <- _. exact (Hm _ _ _ Hmw).
  - destruct (is_Exception e); [|discriminate]. exact (Hh e _ _ _ Heq).
Qed.

Lemma startup_well_formed u : well_formed_context (startup_context u).
Proof.
  unfold well_formed_context, startup_context, anonymous_context.
  do 4 eexists. repeat split; try reflexivity. discriminate.
Qed.

Lemma well_formed_truthy cc : well_formed_context cc -> truthy cc = true.
Proof.
  intros [d [user [container [key [-> [Hk _]]]]]].
  destruct d; [discriminate Hk | reflexivity].
Qed.

(** When no new key is needed, the key that is kept is a non-empty string. *)
Lemma kept_key_str cc fallback :
  needs_new_key cc = Ok false ->
  exists k, kept_key cc fallback = Ok (PStr k) /\ k <> [].
Proof.
  unfold needs_new_key, kept_key, get_default.
  destruct (truthy cc); cbn [negb]; [|discriminate].
  destruct cc as [| | | | | |d]; try discriminate.
  destruct (str_eq _ _); cbn [negb]; [|discriminate].
  destruct (lookup (py "user") d) as [[| | | | | |user]|]; try discriminate.
  destruct (truthy _); cbn [negb]; [|discriminate].
  destruct (lookup (py "key") user) as [[| | | |k| |]|]; try discriminate.
  intros H. exists k. split; [reflexivity|].
  destruct k; [discriminate H | discriminate].
Qed.

(** Both branches of a successful update build a well-formed context,
    whatever the previous one was. *)
Lemma update_context_well_formed req g w resp new w' :
  update_context eng req g w = (Ok (resp, Some new), w') ->
  well_formed_context new.
Proof.
  intros H.
  unfold update_context, mbind, lift, ret, throw in H.
  destruct (get_json req) as [data|]; [|discriminate].
  destruct data as [| | | | | |d]; try discriminate.
  destruct (str_eq _ (py "custom")).
  - destruct (truthy (get (py "email") d)) eqn:Hte; cbn [negb] in H;
      [|discriminate].
    destruct (get (py "email") d) as [| | | |s| |] eqn:Hem; try discriminate.
    cbn [py_strip Contexts.bind] in H.
    destruct (pystr_eqb (strip s) []); [discriminate|].
    destruct (set_and_not_blank (get (py "name") d)) as [hn|]; [|discriminate].
    destruct (set_and_not_blank (get (py "location") d)) as [hl|];
      [|discriminate].
    injection H as _ <- _.
    assert (Hs : s <> []) by (destruct s; [discriminate Hte | discriminate]).
    destruct hn, hl; do 4 eexists; repeat split; try reflexivity; try exact Hs.
  - destruct (needs_new_key (current_context g)) as [fresh|] eqn:Hn;
      [|discriminate].
    unfold call_uuid4 in H.
    destruct (uuid4 eng (engine_state w)) as [u s].
    destruct fresh.
    + destruct (set_and_not_blank (get (py "location") d)) as [hl|];
        [|discriminate].
      injection H as _ <- _.
      destruct hl; do 4 eexists; repeat split; try reflexivity; discriminate.
    + destruct (kept_key_str _ (PStr (py "python-anon-" ++ u)) Hn)
        as [k [Hk Hne]].
      rewrite Hk in H.
      destruct (set_and_not_blank (get (py "location") d)) as [hl|];
        [|discriminate].
      injection H as _ <- _.
      destruct hl; do 4 eexists; repeat split; try reflexivity; exact Hne.
Qed.

(** Every request to [/api/context] that returns leaves a well-formed
    [current_context] behind. *)
Lemma context_endpoint_preserves req g w resp g' w' :
  well_formed_context (current_context g) ->
  context_endpoint eng req g w = (Ok (resp, g'), w') ->
  well_formed_context (current_context g').
Proof.
  intros Hwf H. unfold context_endpoint in H.
  destruct (pystr_eqb (method req) (py "OPTIONS")).
  { injection H as _ <- _. exact Hwf. }
  destruct (pystr_eqb (method req) (py "GET")).
  { injection H as _ <- _. exact Hwf. }
  unfold try_except, mbind in H.
  destruct (update_context eng req g w) as [[[r [new|]]|e] w1] eqn:Hu;
    cbn [fst snd ret] in H.
  - injection H as _ <- _. cbn [set_current_context current_context].
    exact (update_context_well_formed _ _ _ _ _ _ Hu).
  - injection H as _ <- _. exact Hwf.
  - destruct (is_Exception e); [|discriminate].
    injection H as _ <- _. exact Hwf.
Qed.

Lemma flag_error_not_missing msg error_kind code :
  pystr_eqb error_kind (py "MISSING_PARAMETER") = false ->
  flag_error msg error_kind code <> missing_parameter.
Proof.
  intros Hk Heq.
  apply (f_equal (fun r => match body r with
                           | PDict [_; _; (_, PDict [_; (_, PStr k)])] => k
                           | _ => []
                           end)) in Heq.
  cbn in Heq. rewrite Heq in Hk. vm_compute in Hk. discriminate Hk.
Qed.

(** With a truthy [current_context] the head of [flag_endpoint] always finds
    context parameters: it never takes the early MISSING_PARAMETER answer. *)
Lemma select_context_selects req g :
  truthy (current_context g) = true ->
  returns (select_context (E:=E) req g) (fun sel => exists x, sel = inr x).
Proof.
  intros Hcc. unfold select_context. rewrite Hcc.
  destruct (negb (truthy (args_get (py "contextKey") (args req)))).
  - destruct (current_context g) as [| | | | | |d];
      try apply returns_throw.
    destruct (str_eq _ _).
    + destruct (get_default (py "user") (PDict []) d);
        try apply returns_throw.
      apply returns_ret. eexists; reflexivity.
    + apply returns_ret. eexists; reflexivity.
  - apply returns_ret. eexists; reflexivity.
Qed.

(** The early answer is taken only when [current_context] is falsy (and no
    contextKey was given), and it is the MISSING_PARAMETER answer. *)
Lemma select_context_early req g :
  returns (select_context (E:=E) req g)
    (fun sel => forall r, sel = inl r ->
                          r = missing_parameter /\
                          truthy (current_context g) = false /\
                          truthy (args_get (py "contextKey") (args req)) = false).
Proof.
  unfold select_context.
  destruct (truthy (args_get (py "contextKey") (args req))); cbn [negb].
  - apply returns_ret. discriminate.
  - destruct (truthy (current_context g)).
    + destruct (current_context g) as [| | | | | |d];
        try apply returns_throw.
      destruct (str_eq _ _).
      * destruct (get_default (py "user") (PDict []) d);
          try apply returns_throw.
        apply returns_ret. discriminate.
      * apply returns_ret. discriminate.
    + apply returns_ret. intros r Hr. injection Hr as <-. auto.
Qed.

Lemma flag_endpoint_not_missing sdk req g :
  truthy (current_context g) = true ->
  returns (flag_endpoint eng sdk req g) (fun r => r <> missing_parameter).
Proof.
  intros Hcc. unfold flag_endpoint.
  apply returns_try.
  - eapply returns_bind; [apply (select_context_selects req g Hcc)|].
    intros sel [[[[context_key email] name] location] ->]. cbv beta iota.
    destruct (validate_context_key context_key) as [is_valid error_message].
    destruct is_valid; cbn [negb].
    + destruct (create_context sdk context_key email name location)
        as [context|e].
      * eapply returns_bind; [apply returns_any|]. intros result _.
        eapply returns_bind; [apply returns_any|]. intros result' _.
        eapply returns_bind; [apply returns_any|]. intros cd _.
        apply returns_ret. intros Heq.
        apply (f_equal status) in Heq. discriminate Heq.
      * destruct (exc_kind e); try apply returns_throw;
          apply returns_ret; apply flag_error_not_missing; reflexivity.
    + apply returns_ret. apply flag_error_not_missing. reflexivity.
  - intros e. apply returns_ret. apply flag_error_not_missing. reflexivity.
Qed.

(** C10. Every value [current_context] can take, from the one created at
    start-up through any sequence of requests to [/api/context] (custom and
    anonymous updates alike), is a dict of kind "multi" with a "user"
    sub-context whose key is a non-empty string and a "container" sub-context
    with the key "python-app". Such a value is truthy, so [GET /api/flag]
    never gives the MISSING_PARAMETER answer, whatever the request. *)
Theorem current_context_well_formed cc :
  reachable_context eng cc ->
  well_formed_context cc /\
  truthy cc = true /\
  (forall sdk req g,
      current_context g = cc ->
      returns (flag_endpoint eng sdk req g) (fun r => r <> missing_parameter)).
Proof.
  intros Hr.
  assert (Hwf : well_formed_context cc).
  { induction Hr as [u | req g w resp g' w' _ IH Hstep].
    - apply startup_well_formed.
    - exact (context_endpoint_preserves _ _ _ _ _ _ IH Hstep). }
  split; [exact Hwf|].
  split; [exact (well_formed_truthy cc Hwf)|].
  intros sdk req g <-.
  apply flag_endpoint_not_missing. exact (well_formed_truthy _ Hwf).
Qed.

End State.

Lemma current_context_well_formed_witness :
  well_formed_context
    (PDict (custom_context (PStr (py "user@example.com")))).
Proof.
  refine (proj1 (current_context_well_formed unit
                   (mock_engine (Ok true) (Raise network_error)) _ _)).
  refine (reach_request unit (mock_engine (Ok true) (Raise network_error))
            custom_request sample_globals empty_world
            {| body := PDict [(py "success", PBool true);
                              (py "context",
                               PDict (custom_context (PStr (py "user@example.com"))))];
               status := 200;
               headers := cors (py "http://localhost:8000") |}
            (set_current_context
               (PDict (custom_context (PStr (py "user@example.com"))))
               sample_globals)
            empty_world _ _).
  - apply (reach_startup unit).
  - vm_compute. reflexivity.
Defined.

End ContextStateFacts.

(** * Further properties *)

(** ** Trimming *)

Module StripFacts.

Lemma lstrip_idempotent s : lstrip (lstrip s) = lstrip s.
Proof.
  induction s as [|c s IH]; [reflexivity|].
  simpl. destruct (is_space c) eqn:Hc; [exact IH|].
  simpl. now rewrite Hc.
Qed.

(** [lstrip] removes a run of white space from the front. *)
Lemma lstrip_suffix s :
  exists sp, s = sp ++ lstrip s /\ forallb is_space sp = true.
Proof.
  induction s as [|c s [sp [Hs Hsp]]]; [now exists []|].
  simpl. destruct (is_space c) eqn:Hc.
  - exists (c :: sp). split; [simpl; congruence|]. simpl. now rewrite Hc.
  - now exists [].
Qed.

Lemma lstrip_head s c r : lstrip s = c :: r -> is_space c = false.
Proof.
  induction s as [|x s IH]; [discriminate|].
  simpl. destruct (is_space x) eqn:Hx; [exact IH|].
  intros H. injection H as <- _. exact Hx.
Qed.

Lemma lstrip_id s c r : s = c :: r -> is_space c = false -> lstrip s = s.
Proof. intros -> H. simpl. now rewrite H. Qed.

(** [rstrip] removes a run of white space from the back. *)
Lemma rstrip_prefix s :
  exists sp, s = rstrip s ++ sp /\ forallb is_space sp = true.
Proof.
  unfold rstrip. destruct (lstrip_suffix (rev s)) as [sp [Hs Hsp]].
  exists (rev sp). split.
  - rewrite <- rev_app_distr, <- Hs. now rewrite rev_involutive.
  - rewrite forallb_forall in *. intros x Hx. apply Hsp.
    now apply in_rev.
Qed.

Lemma rstrip_idempotent s : rstrip (rstrip s) = rstrip s.
Proof.
  unfold rstrip. now rewrite rev_involutive, lstrip_idempotent.
Qed.

(** The head of a non-empty [rstrip s] is the head of [s]. *)
Lemma rstrip_head s c r : rstrip s = c :: r -> exists r', s = c :: r'.
Proof.
  intros H. destruct (rstrip_prefix s) as [sp [Hs _]].
  rewrite H in Hs. simpl in Hs. eauto.
Qed.

Lemma strip_head s c r : strip s = c :: r -> is_space c = false.
Proof.
  unfold strip. intros H.
  destruct (rstrip_head _ _ _ H) as [r' Hr'].
  exact (lstrip_head _ _ _ Hr').
Qed.

(** Trimming twice is trimming once. *)
Lemma strip_idempotent s : strip (strip s) = strip s.
Proof.
  unfold strip at 1.
  destruct (strip s) as [|c r] eqn:Hs; [reflexivity|].
  rewrite (lstrip_id (c :: r) c r eq_refl (strip_head _ _ _ Hs)).
  rewrite <- Hs. unfold strip. apply rstrip_idempotent.
Qed.

(** A string with a character that is not white space does not trim to the
    empty string. *)
Lemma lstrip_not_blank s :
  existsb (fun c => negb (is_space c)) s = true -> lstrip s <> [].
Proof.
  induction s as [|c s IH]; [discriminate|].
  simpl. destruct (is_space c); simpl; [exact IH | discriminate].
Qed.

Lemma lstrip_keeps_nonspace s :
  existsb (fun c => negb (is_space c)) (lstrip s) =
  existsb (fun c => negb (is_space c)) s.
Proof.
  induction s as [|c s IH]; [reflexivity|].
  simpl. destruct (is_space c) eqn:Hc; simpl; [exact IH | now rewrite Hc].
Qed.

Lemma existsb_rev {A} (f : A -> bool) l : existsb f (rev l) = existsb f l.
Proof.
  induction l as [|x l IH]; [reflexivity|].
  simpl. rewrite existsb_app, IH. simpl.
  destruct (f x), (existsb f l); reflexivity.
Qed.

Lemma strip_not_blank s :
  existsb (fun c => negb (is_space c)) s = true -> strip s <> [].
Proof.
  intros H. unfold strip, rstrip. intros Hn.
  apply (f_equal (@rev Z)) in Hn. rewrite rev_involutive in Hn. simpl in Hn.
  revert Hn. apply lstrip_not_blank.
  now rewrite existsb_rev, lstrip_keeps_nonspace.
Qed.

Lemma strip_blank_iff s :
  strip s <> [] <-> existsb (fun c => negb (is_space c)) s = true.
Proof.
  split; [|apply strip_not_blank].
  intros H. destruct (existsb _ s) eqn:He; [reflexivity|].
  exfalso. apply H.
  assert (Hall : forall t, existsb (fun c => negb (is_space c)) t = false ->
                           lstrip t = []).
  { induction t as [|c t IH]; [reflexivity|].
    simpl. destruct (is_space c); simpl; [exact IH | discriminate]. }
  unfold strip, rstrip.
  rewrite (Hall (rev (lstrip s))); [reflexivity|].
  now rewrite existsb_rev, lstrip_keeps_nonspace.
Qed.

End StripFacts.

(** ** More on the context builders *)

Module ContextExtras.
Import Contexts Vocabulary StripFacts.

Lemma truthy_strip s :
  truthy (PStr s) && truthy (PStr (strip s)) = truthy (PStr (strip s)).
Proof. destruct s as [|c s]; reflexivity. Qed.

Lemma strip_val_idempotent v : strip_val (strip_val v) = strip_val v.
Proof. destruct v; simpl; try reflexivity. now rewrite strip_idempotent. Qed.

Lemma guard_strip v :
  truthy (strip_val v) && truthy (strip_val (strip_val v)) =
  truthy v && truthy (strip_val v).
Proof.
  rewrite strip_val_idempotent.
  destruct v as [| | | |s| |]; cbn [strip_val]; try reflexivity.
  now rewrite andb_diag, truthy_strip.
Qed.

Lemma check_optional_strip label v :
  check_optional label (strip_val v) = check_optional label v.
Proof. destruct v; reflexivity. Qed.

(** White space around the key and around the optional attributes does not
    matter to [create_context]: the call with the trimmed arguments gives the
    same context, or fails in the same way. *)
Theorem create_context_trims (sdk : ContextSDK) key email name location :
  create_context sdk (strip_val key) (strip_val email) (strip_val name)
    (strip_val location) =
  create_context sdk key email name location.
Proof.
  destruct key as [| | | |k| |]; try reflexivity.
  unfold create_context. cbn [strip_val].
  change (PStr (strip (strip k))) with (strip_val (strip_val (PStr k))).
  change (PStr (strip k)) with (strip_val (PStr k)).
  rewrite <- !negb_andb, guard_strip, !check_optional_strip.
  rewrite !guard_strip, !strip_val_idempotent. reflexivity.
Qed.

Lemma reraise_runtime_class {A} prefix (r : outcome A) e :
  reraise_runtime prefix r = Raise e ->
  (exc_kind e = RuntimeError /\ exists cause, exc_text e = prefix ++ cause) \/
  is_Exception e = false.
Proof.
  destruct r as [a|e0]; [discriminate|]. simpl.
  destruct (is_Exception e0) eqn:He0; intros H; injection H as <-.
  - left. split; [reflexivity|]. now exists (exc_text e0).
  - now right.
Qed.



Lemma check_optional_class label v e :
  check_optional label v = Raise e -> exc_kind e = TypeError.
Proof. destruct v; simpl; intros H; inversion H; reflexivity. Qed.

(** [validate_context_key] and [create_context] agree: a key is refused by
    the first exactly when the second raises ValueError, and then with the
    message the first reports. *)
Theorem validate_agrees_with_create_context (sdk : ContextSDK)
    key email name location :
  match validate_context_key key with
  | (false, error_message) =>
      exists m, error_message = Some m /\
                create_context sdk key email name location =
                  Raise {| exc_kind := ValueError; exc_text := m |}
  | (true, error_message) =>
      error_message = None /\
      forall e, create_context sdk key email name location = Raise e ->
                exc_kind e <> ValueError
  end.
Proof.
  unfold validate_context_key, create_context.
  destruct key as [| | | |k| |]; try (eexists; split; reflexivity).
  destruct (negb (truthy (PStr k)) || negb (truthy (strip_val (PStr k))));
    [eexists; split; reflexivity|].
  split; [reflexivity|]. intros e.
  destruct (check_optional (py "email") email) as [[]|e1] eqn:H1.
  2:{ cbn [bind]. intros H. injection H as <-.
      rewrite (check_optional_class _ _ _ H1). discriminate. }
  destruct (check_optional (py "name") name) as [[]|e2] eqn:H2.
  2:{ cbn [bind]. intros H. injection H as <-.
      rewrite (check_optional_class _ _ _ H2). discriminate. }
  destruct (check_optional (py "location") location) as [[]|e3] eqn:H3.
  2:{ cbn [bind]. intros H. injection H as <-.
      rewrite (check_optional_class _ _ _ H3). discriminate. }
  cbn [bind]. intros H.
  destruct (reraise_runtime_class _ _ _ H) as [[Hk _] | Hn].
  - rewrite Hk. discriminate.
  - unfold is_Exception in Hn. intros Hk. rewrite Hk in Hn. discriminate.
Qed.


Lemma check_optional_accepts label v :
  optional_ok v -> check_optional label v = Ok tt.
Proof.
  intros [-> | Hv]; [reflexivity|].
  destruct v; try discriminate; reflexivity.
Qed.

Lemma create_context_recording_ok k email name location :
  strip k <> [] ->
  optional_ok email -> optional_ok name -> optional_ok location ->
  exists ctx,
    create_context recording_sdk (PStr k) email name location = Ok ctx.
Proof.
  intros Hk He Hn Hl. unfold create_context.
  assert (Hc : negb (truthy (PStr k)) || negb (truthy (strip_val (PStr k)))
               = false).
  { cbn [strip_val]. destruct k as [|c k]; [now elim Hk|].
    destruct (strip (c :: k)); [now elim Hk | reflexivity]. }
  rewrite Hc, !check_optional_accepts by assumption.
  cbn [bind reraise_runtime recording_sdk build create_multi].
  eexists. reflexivity.
Qed.

(** With an SDK that builds what it is given, [create_context] succeeds
    exactly when the key is a string that is not blank and each of email,
    name and location is None or a string. *)
Theorem create_context_succeeds_iff key email name location :
  (exists ctx, create_context recording_sdk key email name location = Ok ctx)
  <->
  (exists k, key = PStr k /\ strip k <> []) /\
  optional_ok email /\ optional_ok name /\ optional_ok location.
Proof.
  unfold optional_ok. split.
  - intros [ctx H]. unfold create_context in H.
    destruct key as [| | | |k| |]; try discriminate.
    assert (Hk : strip k <> []).
    { intros Hk. cbn [strip_val] in H. rewrite Hk in H.
      rewrite orb_true_r in H. discriminate. }
    split; [now exists k|].
    destruct (negb (truthy (PStr k)) || negb (truthy (strip_val (PStr k))));
      [discriminate|].
    destruct (check_optional (py "email") email) as [[]|] eqn:He; [|discriminate].
    destruct (check_optional (py "name") name) as [[]|] eqn:Hn; [|discriminate].
    destruct (check_optional (py "location") location) as [[]|] eqn:Hl;
      [|discriminate].
    repeat split; eapply ContextFacts.check_optional_ok; eassumption.
  - intros [[k [-> Hk]] [He [Hn Hl]]].
    now apply create_context_recording_ok.
Qed.

(** [buildContext] raises ValueError exactly when its input is not a dict or
    the dict has no truthy [key]; any other key, a blank string included,
    gets past the check. *)
Theorem buildContext_value_error_iff (sdk : ContextSDK) context_data :
  (exists m, buildContext sdk context_data =
             Raise {| exc_kind := ValueError; exc_text := m |})
  <->
  (forall d, context_data = PDict d -> truthy (get (py "key") d) = false).
Proof.
  split.
  - intros [m H] d ->. unfold buildContext in H.
    destruct (truthy (get (py "key") d)); [|reflexivity].
    cbn [negb] in H.
    destruct (reraise_runtime_class _ _ _ H) as [[Hk _] | Hn]; discriminate.
  - intros H. unfold buildContext.
    destruct context_data as [| | | | | |d]; try (eexists; reflexivity).
    rewrite (H d eq_refl). eexists; reflexivity.
Qed.

(** For a trimmed key and well-typed optional attributes the two entry
    points build the same context. *)
Theorem builders_agree k email name location :
  k <> [] -> strip k = k ->
  optional_ok email -> optional_ok name -> optional_ok location ->
  buildContext recording_sdk
    (PDict [(py "key", PStr k); (py "email", email); (py "name", name);
            (py "location", location)]) =
  create_context recording_sdk (PStr k) email name location.
Proof.
  intros Hk Hs He Hn Hl.
  assert (Hopt : forall label v, optional_ok v -> check_optional label v = Ok tt).
  { intros label v [-> | Hv]; [reflexivity|].
    destruct v; try discriminate; reflexivity. }
  unfold buildContext, create_context.
  change (get (py "key") _) with (PStr k).
  change (get (py "email") _) with email.
  change (get (py "name") _) with name.
  change (get (py "location") _) with location.
  change (get_default (py "anonymous") (PBool false) _) with (PBool false).
  cbn [strip_val]. rewrite Hs.
  destruct k as [|c k]; [now elim Hk|]. cbn [truthy negb orb].
  rewrite !Hopt by assumption. cbn [bind]. cbv zeta.
  rewrite !ContextFacts.guard_buildContext.
  rewrite !ContextFacts.guard_create_context by assumption.
  reflexivity.
Qed.

Lemma builders_agree_witness :
  buildContext recording_sdk
    (PDict [(py "key", PStr (py "user-123"));
            (py "email", PStr (py " user@example.com "));
            (py "name", PNone); (py "location", PStr [])]) =
  create_context recording_sdk (PStr (py "user-123"))
    (PStr (py " user@example.com ")) PNone (PStr []).
Proof.
  apply (builders_agree (py "user-123") (PStr (py " user@example.com "))
           PNone (PStr [])).
  - discriminate.
  - reflexivity.
  - right; reflexivity.
  - left; reflexivity.
  - right; reflexivity.
Defined.

End ContextExtras.

(** ** More on the evaluator and the SDK life cycle *)

Module AppExtras.
Import Contexts App Vocabulary.

Section Engine.
Variable E : Type.
Variable eng : Engine E.

Lemma call_is_initialized_log c w r w1 :
  call_is_initialized eng c w = (r, w1) ->
  calls w1 = CallIsInitialized c :: calls w /\
  is_initialized eng c (engine_state w) = (r, engine_state w1).
Proof.
  unfold call_is_initialized, logged.
  destruct (is_initialized eng c (engine_state w)) as [r0 s].
  intros H. injection H as <- <-. split; reflexivity.
Qed.

(** [evaluate_flag] always answers with a dict that has a [value] and a
    [reason] with a [kind]; no exception of class [Exception] leaves it. *)
Theorem evaluate_flag_always_answers flag_key context default_value g w :
  match evaluate_flag eng flag_key context default_value g w with
  | (Ok r, _) =>
      exists v reason k,
        r = PDict [(py "value", v); (py "reason", PDict reason)] /\
        lookup (py "kind") reason = Some k
  | (Raise e, _) => is_Exception e = false
  end.
Proof.
  unfold evaluate_flag, try_except, mbind.
  destruct (is_sdk_initialized eng g w) as [[ready|e] w1].
  - destruct (get_ld_client g) as [c|].
    + destruct ready; cbn [negb].
      * destruct (call_variation_detail eng c flag_key context default_value w1)
          as [[detail|e] w2].
        -- do 3 eexists. split; [reflexivity|].
           apply (AppFacts.normalize_reason_fields (reason detail)).
        -- destruct (is_Exception e) eqn:He; [|exact He].
           do 3 eexists. split; reflexivity.
      * do 3 eexists. split; reflexivity.
    + do 3 eexists. split; reflexivity.
  - destruct (is_Exception e) eqn:He; [|exact He].
    do 3 eexists. split; reflexivity.
Qed.

(** When the client is READY and the engine answers, [evaluate_flag] polls
    readiness once and then calls [variation_detail] exactly once, with its
    own flag key, context and default; the value returned is the engine's. *)
Theorem evaluate_flag_calls_engine_once
    flag_key context default_value g c w w1 detail s :
  ready eng g c w w1 ->
  variation_detail eng c flag_key context default_value (engine_state w1)
    = (Ok detail, s) ->
  exists w2 reason,
    evaluate_flag eng flag_key context default_value g w =
      (Ok (PDict [(py "value", value detail); (py "reason", reason)]), w2) /\
    calls w2 =
      CallVariationDetail c flag_key context default_value
        :: CallIsInitialized c :: calls w /\
    engine_state w2 = s.
Proof.
  intros Hr Hv.
  pose proof (AppFacts.is_sdk_initialized_ready E eng g c w w1 Hr) as Hs.
  destruct Hr as [_ [Hc Hi]].
  destruct (call_is_initialized_log _ _ _ _ Hi) as [Hlog _].
  unfold evaluate_flag, try_except, mbind. rewrite Hs.
  unfold get_ld_client. rewrite Hc. cbn [negb].
  unfold call_variation_detail, logged. rewrite Hv.
  do 2 eexists. split; [reflexivity|]. cbn [calls engine_state].
  now rewrite Hlog.
Qed.

(** Whenever [initialize_launchdarkly_sdk] returns, the initialized flag is
    the value returned; True comes with a client, False with a recorded,
    non-empty error message; [current_context] is never touched. *)
Theorem initialize_outcome fuel g w b g' w' :
  initialize_launchdarkly_sdk eng fuel g w = Some (Ok b, g', w') ->
  _sdk_initialized g' = b /\
  (b = true -> exists c, _ld_client g' = Some c) /\
  (b = false ->
   exists m, _sdk_initialization_error g' = Some m /\ m <> []) /\
  current_context g' = current_context g.
Proof.
  unfold initialize_launchdarkly_sdk, initialization_failed.
  destruct (_sdk_initialized g && is_some (_ld_client g)) eqn:Hg.
  { intros H. injection H as <- <- _.
    apply andb_true_iff in Hg as [H1 H2].
    split; [exact H1|]. split; [|split; [discriminate | reflexivity]].
    intros _. destruct (_ld_client g) as [c|]; [eauto | discriminate H2]. }
  assert (Hfail : forall m g0 (w0 : World E),
             m <> [] -> current_context g0 = current_context g ->
             Some (Ok false, set_init false (Some m) g0, w0) = Some (Ok b, g', w') ->
             _sdk_initialized g' = b /\
             (b = true -> exists c, _ld_client g' = Some c) /\
             (b = false ->
              exists m, _sdk_initialization_error g' = Some m /\ m <> []) /\
             current_context g' = current_context g).
  { intros m g0 w0 Hm Hcc H. injection H as <- <- _.
    split; [reflexivity|]. split; [discriminate|].
    split; [intros _; exists m; split; [reflexivity | exact Hm] | exact Hcc]. }
  assert (Hexc : forall e g0 (w0 : World E),
             current_context g0 = current_context g ->
             Some (if is_Exception e
                   then (Ok false,
                         set_init false
                           (Some (py "Failed to initialize LaunchDarkly SDK: "
                                  ++ exc_text e)) g0, w0)
                   else (Raise e, g0, w0)) = Some (Ok b, g', w') ->
             _sdk_initialized g' = b /\
             (b = true -> exists c, _ld_client g' = Some c) /\
             (b = false ->
              exists m, _sdk_initialization_error g' = Some m /\ m <> []) /\
             current_context g' = current_context g).
  { intros e g0 w0 Hcc H. destruct (is_Exception e); [|discriminate].
    eapply Hfail; [|exact Hcc|exact H]. discriminate. }
  destruct (environ_get eng _ _) as [[|k0 k]|];
    try (apply Hfail; [discriminate | reflexivity]).
  destruct (call_set_config eng (k0 :: k) w) as [[[]|e1] w1];
    [|apply Hexc; reflexivity].
  destruct (call_get eng w1) as [[c|e2] w2]; [|apply Hexc; reflexivity].
  destruct (call_time eng w2) as [[t|e3] w3]; [|apply Hexc; reflexivity].
  destruct (wait_for_initialization eng fuel c t w3) as [[[[|]|e4] w4]|];
    try discriminate.
  - intros H. injection H as <- <- _.
    split; [reflexivity|]. split; [intros _; now exists c|].
    split; [discriminate | reflexivity].
  - apply Hfail; [discriminate | reflexivity].
  - apply Hexc; reflexivity.
Qed.

(** [get_sdk_connection_state] answers OFF, INITIALIZING or VALID, never
    INTERRUPTED. It polls the client exactly as [is_sdk_initialized] does:
    VALID is the answer exactly when [is_sdk_initialized] is true, OFF exactly
    when the initialized flag is unset or there is no client. *)
Theorem connection_state_matches_readiness g w :
  match get_sdk_connection_state eng g w, is_sdk_initialized eng g w with
  | (Ok s, w1), (Ok b, w2) =>
      w1 = w2 /\
      (s = py "OFF" \/ s = py "INITIALIZING" \/ s = py "VALID") /\
      s <> py "INTERRUPTED" /\
      (b = true <-> s = py "VALID") /\
      (s = py "OFF" <-> _sdk_initialized g = false \/ _ld_client g = None)
  | (Raise e1, w1), (Raise e2, w2) => e1 = e2 /\ w1 = w2
  | _, _ => False
  end.
Proof.
  unfold get_sdk_connection_state, is_sdk_initialized, mbind, ret.
  destruct (_sdk_initialized g); cbn [negb].
  - destruct (_ld_client g) as [c|].
    + destruct (call_is_initialized eng c w) as [[[|]|e] w1]; cbn [negb].
      * repeat split; auto; try discriminate.
        intros [H | H]; discriminate.
      * repeat split; auto; try discriminate.
        intros [H | H]; discriminate.
      * split; reflexivity.
    + repeat split; auto; try discriminate.
  - repeat split; auto; try discriminate.
Qed.

(** [get_flag_salt] is decided by [is_sdk_initialized]: when that answers
    True, the salt of "user-message" is the known salt
    94b881a3be5c449d99dbbe1a92ca3fa0 and the salt of any other flag is its
    key; when it answers False or raises an [Exception], the salt is the flag
    key, "user-message" included. Nothing else touches the engine, no
    [Exception] escapes, and the salt of a non-empty flag key is not
    empty. *)
Theorem get_flag_salt_values flag_key g w :
  match is_sdk_initialized eng g w with
  | (Ok ready, w1) =>
      get_flag_salt eng flag_key g w =
        (Ok (if ready && pystr_eqb flag_key (py "user-message")
             then py "94b881a3be5c449d99dbbe1a92ca3fa0"
             else flag_key), w1)
  | (Raise e, w1) =>
      get_flag_salt eng flag_key g w =
        if is_Exception e then (Ok flag_key, w1) else (Raise e, w1)
  end /\
  (forall s w1,
      get_flag_salt eng flag_key g w = (Ok s, w1) ->
      flag_key <> [] -> s <> []).
Proof.
  assert (Hne : forall s w1,
             get_flag_salt eng flag_key g w = (Ok s, w1) ->
             flag_key <> [] -> s <> []).
  { unfold get_flag_salt, try_except, mbind, ret, get_ld_client,
      is_sdk_initialized.
    intros s w1.
    destruct (_ld_client g) as [c|]; [|intros H; injection H as <- _; auto].
    destruct (_sdk_initialized g); [|intros H; injection H as <- _; auto].
    destruct (call_is_initialized eng c w) as [[[|]|e] w2]; cbn [negb].
    - destruct (pystr_eqb flag_key (py "user-message"));
        intros H; injection H as <- _; [discriminate | auto].
    - intros H; injection H as <- _; auto.
    - destruct (is_Exception e); [|discriminate].
      intros H; injection H as <- _; auto. }
  split; [|exact Hne].
  unfold get_flag_salt, try_except, mbind, ret, get_ld_client,
    is_sdk_initialized.
  destruct (_ld_client g) as [c|];
    [|destruct (_sdk_initialized g); reflexivity].
  destruct (_sdk_initialized g); [|reflexivity].
  destruct (call_is_initialized eng c w) as [[[|]|e] w2]; cbn [negb andb].
  - destruct (pystr_eqb flag_key (py "user-message")); reflexivity.
  - reflexivity.
  - destruct (is_Exception e); reflexivity.
Qed.

End Engine.

Lemma evaluate_flag_calls_engine_once_witness :
  exists w2 reason,
    evaluate_flag
      (mock_engine (Ok true) (Ok {| value := hello; reason := PDict [] |}))
      (py "user-message") sample_context hello sample_globals empty_world =
      (Ok (PDict [(py "value", hello); (py "reason", reason)]), w2) /\
    calls w2 =
      [CallVariationDetail 0%nat (py "user-message") sample_context hello;
       CallIsInitialized 0%nat] /\
    engine_state w2 = tt.
Proof.
  apply (evaluate_flag_calls_engine_once unit
           (mock_engine (Ok true) (Ok {| value := hello; reason := PDict [] |}))
           (py "user-message") sample_context hello sample_globals 0%nat
           empty_world
           {| engine_state := tt; calls := [CallIsInitialized 0%nat] |}
           {| value := hello; reason := PDict [] |} tt).
  - repeat split.
  - reflexivity.
Defined.

Lemma initialize_outcome_witness :
  _sdk_initialized
    (set_init false
       (Some (py "LAUNCHDARKLY_SDK_KEY environment variable not set"))
       {| _ld_client := None; _sdk_initialized := false;
          _sdk_initialization_error := None;
          current_context := startup_context (py "u") |}) = false.
Proof.
  refine (proj1 (initialize_outcome unit
                   (mock_engine (Ok true) (Raise network_error)) 0%nat
                   {| _ld_client := None; _sdk_initialized := false;
                      _sdk_initialization_error := None;
                      current_context := startup_context (py "u") |}
                   empty_world false _ empty_world _)).
  reflexivity.
Defined.

(** *** The time-out of the start-up *)

Section Timeout.
Variable E : Type.
Variable eng : Engine E.
(** The time the world has reached. *)
Variable clock : E -> Q.
Hypothesis time_reads_clock :
  forall s, (clock s <= fst (time_time eng s))%Q /\
            (fst (time_time eng s) <= clock (snd (time_time eng s)))%Q.
Hypothesis sleep_advances :
  forall d s, (clock s + d <= clock (time_sleep eng d s))%Q.
Hypothesis never_ready :
  forall c s, fst (is_initialized eng c s) = Ok false /\
              (clock s <= clock (snd (is_initialized eng c s)))%Q.

Lemma wait_for_initialization_gives_up n : forall fuel c start_time w,
  (n < fuel)%nat ->
  (start_time + 10 + (1 # 10) - slept n <= clock (engine_state w))%Q ->
  exists w', wait_for_initialization eng fuel c start_time w = Some (Ok false, w').
Proof.
  induction n as [|n IH]; intros fuel c start_time w Hf Hc;
    (destruct fuel as [|fuel]; [lia|]); cbn [wait_for_initialization];
    unfold call_is_initialized, logged, call_time, call_sleep;
    destruct (never_ready c (engine_state w)) as [Hr Hm];
    destruct (is_initialized eng c (engine_state w)) as [r s1];
    cbn [fst snd] in Hr, Hm; subst r; cbn [engine_state];
    destruct (time_reads_clock s1) as [Hlo Hhi];
    destruct (time_time eng s1) as [now s2]; cbn [fst snd] in Hlo, Hhi;
    destruct (Qle_bool (now - start_time) 10) eqn:Ht; cbn [negb];
    try (eexists; reflexivity).
  - apply Qle_bool_iff in Ht. cbn [slept] in Hc. lra.
  - apply Qle_bool_iff in Ht. cbn [snd].
    apply IH; [lia|]. cbn [engine_state slept] in *.
    pose proof (sleep_advances (1 # 10) s2). lra.
Qed.

(** If the client never reports ready and the clock advances by at least the
    time slept, the start-up gives up: with an SDK key in the environment and
    ldclient handing out a client, 102 polls are enough for
    [initialize_launchdarkly_sdk] to return False with the time-out message,
    keeping the client it obtained. *)
Theorem initialize_times_out fuel g w sdk_key c :
  _sdk_initialized g && is_some (_ld_client g) = false ->
  environ_get eng (py "LAUNCHDARKLY_SDK_KEY") (engine_state w) = Some sdk_key ->
  sdk_key <> [] ->
  (forall s, fst (set_config eng sdk_key s) = Ok tt) ->
  (forall s, fst (ldclient_get eng s) = Ok c) ->
  (102 <= fuel)%nat ->
  exists g' w',
    initialize_launchdarkly_sdk eng fuel g w = Some (Ok false, g', w') /\
    _sdk_initialized g' = false /\
    _ld_client g' = Some c /\
    _sdk_initialization_error g' =
      Some (py "SDK initialization timed out after 10 seconds").
Proof.
  intros Hg Hkey Hne Hset Hget Hfuel.
  unfold initialize_launchdarkly_sdk. rewrite Hg, Hkey.
  destruct sdk_key as [|k0 k]; [now elim Hne|].
  unfold call_set_config, call_get, call_time, logged.
  specialize (Hset (engine_state w)).
  destruct (set_config eng (k0 :: k) (engine_state w)) as [r1 s1].
  cbn [fst] in Hset. subst r1. cbn [engine_state].
  specialize (Hget s1).
  destruct (ldclient_get eng s1) as [r2 s2]. cbn [fst] in Hget. subst r2.
  cbn [engine_state].
  destruct (time_reads_clock s2) as [_ Hhi].
  destruct (time_time eng s2) as [start_time s3]. cbn [fst snd] in Hhi.
  match goal with
  | |- context [wait_for_initialization eng fuel c start_time ?w0] =>
      destruct (wait_for_initialization_gives_up 101 fuel c start_time w0)
        as [w' Hw]
  end.
  - lia.
  - cbn [engine_state].
    assert (Hs : (slept 101 == 101 # 10)%Q) by (vm_compute; reflexivity).
    lra.
  - rewrite Hw. do 2 eexists. split; [reflexivity|]. repeat split.
Qed.

End Timeout.

Lemma initialize_times_out_witness :
  exists g' w',
    initialize_launchdarkly_sdk ticking_engine 102
      (fresh_globals (py "u")) {| engine_state := 0%Q; calls := [] |} =
      Some (Ok false, g', w') /\
    _sdk_initialization_error g' =
      Some (py "SDK initialization timed out after 10 seconds").
Proof.
  destruct (initialize_times_out Q ticking_engine (fun s => s)) with
    (fuel := 102%nat) (g := fresh_globals (py "u"))
    (w := {| engine_state := 0%Q; calls := @nil Call |})
    (sdk_key := py "sdk-key") (c := 0%nat)
    as [g' [w' [H [_ [_ He]]]]].
  - intros s. split; apply Qle_refl.
  - intros d s. apply Qle_refl.
  - intros c s. split; [reflexivity | apply Qle_refl].
  - reflexivity.
  - reflexivity.
  - discriminate.
  - reflexivity.
  - reflexivity.
  - lia.
  - exists g', w'. split; assumption.
Defined.

End AppExtras.

(** ** Dicts *)

Module DictFacts.

Lemma pystr_eqb_sym a b : pystr_eqb a b = pystr_eqb b a.
Proof.
  revert b; induction a as [|x a IH]; intros [|y b]; simpl; try reflexivity.
  now rewrite Z.eqb_sym, IH.
Qed.

Lemma pystr_eqb_trans_false a b c :
  pystr_eqb a b = true -> pystr_eqb c a = false -> pystr_eqb c b = false.
Proof.
  intros Hab Hca. apply PyFacts.pystr_eqb_eq in Hab. now subst b.
Qed.

(** What was stored under a key is what is found there. *)
Lemma lookup_setitem_eq k v d : lookup k (setitem k v d) = Some v.
Proof.
  induction d as [|[k0 v0] d IH]; simpl.
  - now rewrite PyFacts.pystr_eqb_refl.
  - destruct (pystr_eqb k k0) eqn:Hk; simpl.
    + now rewrite PyFacts.pystr_eqb_refl.
    + now rewrite Hk.
Qed.

(** Storing under one key leaves the other keys alone. *)
Lemma lookup_setitem_ne k k' v d :
  pystr_eqb k k' = false -> lookup k (setitem k' v d) = lookup k d.
Proof.
  intros Hne. induction d as [|[k0 v0] d IH]; simpl.
  - now rewrite Hne.
  - destruct (pystr_eqb k' k0) eqn:Hk; simpl.
    + rewrite Hne. now rewrite (pystr_eqb_trans_false k' k0 k Hk Hne).
    + destruct (pystr_eqb k k0); [reflexivity | exact IH].
Qed.

End DictFacts.

(** ** More on [/api/flag] *)

Module FlagEndpointExtras.
Import Contexts App Vocabulary StripFacts DictFacts ContextStateFacts.

Section Flag.
Variable E : Type.
Variable eng : Engine E.

Lemma contained_ret {A} (a : A) : contained (E:=E) (ret a).
Proof. intros w e w' H. discriminate H. Qed.

Lemma contained_bind {A B} (m : M E A) (f : A -> M E B) Q :
  contained m -> returns m Q -> (forall a, Q a -> contained (f a)) ->
  contained (mbind m f).
Proof.
  intros Hm Hq Hf w e w' H. unfold mbind in H.
  destruct (m w) as [[a|e0] w1] eqn:Hmw.
  - exact (Hf a (Hq _ _ _ Hmw) _ _ _ H).
  - injection H as <- _. exact (Hm _ _ _ Hmw).
Qed.

Lemma contained_try {A} (m : M E A) h :
  (forall e, contained (h e)) -> contained (try_except m h).
Proof.
  intros Hh w e w' H. unfold try_except in H.
  destruct (m w) as [[a|e0] w1]; [discriminate|].
  destruct (is_Exception e0) eqn:He0.
  - exact (Hh e0 _ _ _ H).
  - injection H as <- _. exact He0.
Qed.

Lemma returns_try_contained {A} (m : M E A) h (P : A -> Prop) :
  returns m P -> contained m -> returns (try_except m h) P.
Proof.
  intros Hm Hc w a w' H. unfold try_except in H.
  destruct (m w) as [[a1|e] w1] eqn:Hmw.
  - injection H as <- _. exact (Hm _ _ _ Hmw).
  - rewrite (Hc _ _ _ Hmw) in H. discriminate H.
Qed.

Lemma returns_weaken {A} (m : M E A) (P Q : A -> Prop) :
  returns m P -> (forall a, P a -> Q a) -> returns m Q.
Proof. intros Hm HPQ w a w' H. exact (HPQ _ (Hm _ _ _ H)). Qed.

Lemma returns_lift {A} (r : outcome A) (P : A -> Prop) :
  (forall a, r = Ok a -> P a) -> returns (E:=E) (lift r) P.
Proof. intros H w a w' Heq. injection Heq as Hr _. exact (H a Hr). Qed.

Lemma contained_lift_ok {A} (a : A) : contained (E:=E) (lift (Ok a)).
Proof. intros w e w' H. discriminate H. Qed.

Lemma evaluate_flag_contained flag_key context default_value g :
  contained (evaluate_flag eng flag_key context default_value g).
Proof. apply contained_try. intros e. apply contained_ret. Qed.

Lemma evaluate_flag_returns_dict flag_key context default_value g :
  returns (evaluate_flag eng flag_key context default_value g)
    (fun r => exists v rs,
                r = PDict [(py "value", v); (py "reason", PDict rs)]).
Proof.
  apply returns_try.
  - eapply returns_bind; [apply returns_any|]. intros ready _.
    destruct (get_ld_client g) as [c|];
      [|apply returns_ret; do 2 eexists; reflexivity].
    destruct (negb ready); [apply returns_ret; do 2 eexists; reflexivity|].
    eapply returns_bind; [apply returns_any|]. intros detail _.
    apply returns_ret. do 2 eexists; reflexivity.
  - intros e. apply returns_ret. do 2 eexists; reflexivity.
Qed.

Lemma attach_hash_info_contained context_key g result :
  contained (attach_hash_info E eng context_key g result).
Proof. apply contained_try. intros e. apply contained_ret. Qed.

(** The bucketing demonstration only adds the key [hashInfo]. *)
Lemma attach_hash_info_keeps context_key g result :
  returns (attach_hash_info E eng context_key g result)
    (fun r => forall k, pystr_eqb k (py "hashInfo") = false ->
                        lookup k r = lookup k result).
Proof.
  apply returns_try.
  - eapply returns_bind; [apply returns_any|]. intros salt _.
    destruct (Bucketing.calculate_hash_value _ _ salt);
      apply returns_ret; intros k Hk;
      [now apply lookup_setitem_ne | reflexivity].
  - intros e. apply returns_ret. intros k Hk. now apply lookup_setitem_ne.
Qed.

(** With the recording SDK the context is always turned into a dict. *)
Lemma context_dict_recording_ok context context_key email name location :
  exists cd,
    context_dict recording_sdk context context_key email name location = Ok cd.
Proof.
  unfold context_dict. cbn [get_individual_context recording_sdk Contexts.bind].
  destruct (find_kind (py "user") context) as [u|];
    destruct (find_kind (py "container") context) as [c|];
    cbn [option_map view v_truthy user_dict_escapes v_get Contexts.bind];
    eexists; reflexivity.
Qed.

Lemma args_get_optional k l : optional_ok (args_get k l).
Proof.
  induction l as [|[k' v] l IH]; simpl; [now left|].
  destruct (pystr_eqb k k'); [now right | exact IH].
Qed.

Lemma from_current_optional cur k user :
  optional_ok cur -> stored_optional k user ->
  optional_ok (from_current cur k user).
Proof.
  unfold from_current, stored_optional, has_key, get, get_default.
  intros Hc Hs. destruct (lookup k user) as [v|].
  - destruct (negb (truthy cur) && true); assumption.
  - now rewrite andb_false_r.
Qed.

(** What the head of [flag_endpoint] selects under a servable
    [current_context]: always a string key and well-typed attributes; the
    key is blank only when the request itself carries a blank contextKey. *)
Lemma select_context_servable req g :
  servable_context (current_context g) ->
  contained (select_context (E:=E) req g) /\
  returns (select_context (E:=E) req g)
    (fun sel =>
       exists k email name location,
         sel = inr (PStr k, email, name, location) /\
         optional_ok email /\ optional_ok name /\ optional_ok location /\
         k <> [] /\
         (if blank_context_key req then strip k = [] else strip k <> [])).
Proof.
  intros [d [user [key [Hcc [Hkind [Huser [Hkey [Hstrip [He [Hn Hl]]]]]]]]]].
  unfold select_context, blank_context_key.
  pose proof (args_get_optional (py "email") (args req)) as Ae.
  pose proof (args_get_optional (py "name") (args req)) as An.
  pose proof (args_get_optional (py "location") (args req)) as Al.
  destruct (args_get (py "contextKey") (args req)) as [| | | |[|c k]| |] eqn:Hck;
    try (exfalso;
         pose proof (args_get_optional (py "contextKey") (args req)) as Hopt;
         rewrite Hck in Hopt; destruct Hopt; discriminate).
  1,2: cbn [truthy negb]; rewrite Hcc; cbn [truthy];
       (assert (Hd : match d with [] => false | _ => true end = true)
          by (destruct d; [discriminate Hkind | reflexivity]));
       rewrite Hd; unfold get, get_default; rewrite Hkind, Huser, Hkey;
       cbn [str_eq]; rewrite PyFacts.pystr_eqb_refl;
       (split; [apply contained_ret|]); apply returns_ret;
       exists key; do 3 eexists; (split; [reflexivity|]);
       (repeat split; try (apply from_current_optional; assumption));
       try exact Hstrip; intros ->; now apply Hstrip.
  cbn [truthy negb]. split; [apply contained_ret|]. apply returns_ret.
  exists (c :: k). do 3 eexists. split; [reflexivity|].
  repeat split; try assumption; try discriminate.
  destruct (strip (c :: k)); [reflexivity | discriminate].
Qed.

Lemma validate_blank k :
  k <> [] -> strip k = [] ->
  validate_context_key (PStr k) =
    (false, Some (py "context_key cannot be empty or whitespace")).
Proof.
  intros Hk Hs. unfold validate_context_key. cbn [strip_val]. rewrite Hs.
  destruct k; [now elim Hk | reflexivity].
Qed.

Lemma validate_not_blank k :
  strip k <> [] -> validate_context_key (PStr k) = (true, None).
Proof.
  intros Hs. unfold validate_context_key. cbn [strip_val].
  destruct k as [|c k]; [now elim Hs|].
  destruct (strip (c :: k)); [now elim Hs | reflexivity].
Qed.

(** With an SDK that builds what it is given and a servable
    [current_context], [GET /api/flag] lets no [Exception] out and answers
    400 only to a blank contextKey, with the INVALID_PARAMETER body; every
    other request, with or without a contextKey, is answered 200 with a
    [value] and a [reason]. *)
Theorem flag_endpoint_status req g :
  servable_context (current_context g) ->
  contained (flag_endpoint eng recording_sdk req g) /\
  returns (flag_endpoint eng recording_sdk req g)
    (fun r =>
       if blank_context_key req then r = invalid_context_key
       else status r = 200 /\
            exists d v rs,
              body r = PDict d /\
              lookup (py "value") d = Some v /\
              lookup (py "reason") d = Some (PDict rs)).
Proof.
  intros Hs. destruct (select_context_servable req g Hs) as [Hsc Hsr].
  split; [apply contained_try; intros e; apply contained_ret|].
  unfold flag_endpoint. apply returns_try_contained.
  - eapply returns_bind; [exact Hsr|].
    intros sel [k [email [name [location [-> [He [Hn [Hl [Hk Hb]]]]]]]]].
    cbv beta iota.
    destruct (blank_context_key req).
    + rewrite (validate_blank k Hk Hb). cbn [negb].
      apply returns_ret. reflexivity.
    + rewrite (validate_not_blank k Hb). cbn [negb].
      destruct (ContextExtras.create_context_recording_ok k email name location
                  Hb He Hn Hl) as [ctx ->].
      eapply returns_bind; [apply evaluate_flag_returns_dict|].
      intros result [v [rs ->]].
      eapply returns_bind; [apply attach_hash_info_keeps|].
      intros result' Hkeep.
      destruct (context_dict_recording_ok ctx (PStr k) email name location)
        as [cd ->].
      eapply returns_bind; [apply returns_lift; intros a Ha; exact Ha|].
      intros cd' Hcd. apply returns_ret. split; [reflexivity|].
      exists (setitem (py "context") cd' result'), v, rs.
      split; [reflexivity|].
      rewrite !lookup_setitem_ne by reflexivity.
      rewrite !Hkeep by reflexivity. split; reflexivity.
  - eapply contained_bind; [exact Hsc | exact Hsr|].
    intros sel [k [email [name [location [-> [He [Hn [Hl [Hk Hb]]]]]]]]].
    cbv beta iota.
    destruct (validate_context_key (PStr k)) as [is_valid msg] eqn:Hv.
    destruct is_valid; cbn [negb]; [|apply contained_ret].
    assert (Hnb : strip k <> []).
    { intros Hz. rewrite (validate_blank k Hk Hz) in Hv. discriminate. }
    destruct (ContextExtras.create_context_recording_ok k email name location
                Hnb He Hn Hl) as [ctx ->].
    eapply contained_bind;
      [apply evaluate_flag_contained | apply returns_any|].
    intros result _.
    eapply contained_bind;
      [apply attach_hash_info_contained | apply returns_any|].
    intros result' _.
    destruct (context_dict_recording_ok ctx (PStr k) email name location)
      as [cd ->].
    eapply contained_bind;
      [apply contained_lift_ok | apply returns_any|].
    intros cd' _. apply contained_ret.
Qed.

End Flag.

End FlagEndpointExtras.

(** ** More on [/api/context] *)

Module ContextEndpointExtras.
Import Contexts App Vocabulary StripFacts DictFacts ContextStateFacts.

Section Update.
Variable E : Type.
Variable eng : Engine E.

Lemma set_and_not_blank_true v :
  set_and_not_blank v = Ok true -> optional_ok v.
Proof.
  unfold set_and_not_blank. destruct (truthy v); [|discriminate].
  destruct v; try discriminate. intros _. now right.
Qed.

Lemma anon_key_not_blank k :
  startswith k (py "python-anon-") = true -> strip k <> [].
Proof.
  intros H. apply strip_not_blank.
  destruct k as [|c k]; [discriminate H|].
  change (py "python-anon-") with (112 :: py "ython-anon-") in H.
  cbn [startswith] in H. apply andb_true_iff in H as [H _].
  apply Z.eqb_eq in H. subst c. reflexivity.
Qed.

Lemma startswith_app p u : startswith (p ++ u) p = true.
Proof.
  induction p as [|c p IH]; [destruct u; reflexivity|].
  simpl. now rewrite Z.eqb_refl, IH.
Qed.

Lemma kept_key_anon cc fallback :
  needs_new_key cc = Ok false ->
  exists k, kept_key cc fallback = Ok (PStr k) /\
            startswith k (py "python-anon-") = true /\
            user_key cc = Some (PStr k).
Proof.
  unfold needs_new_key, kept_key, get_default, user_key.
  destruct (truthy cc); cbn [negb]; [|discriminate].
  destruct cc as [| | | | | |d]; try discriminate.
  destruct (str_eq _ _); cbn [negb]; [|discriminate].
  destruct (lookup (py "user") d) as [[| | | | | |user]|]; try discriminate.
  destruct (truthy _); cbn [negb]; [|discriminate].
  destruct (lookup (py "key") user) as [[| | | |k| |]|]; try discriminate.
  intros H. exists k. split; [reflexivity|]. split; [|reflexivity].
  destruct (startswith k (py "python-anon-")); [reflexivity | discriminate H].
Qed.

Ltac servable :=
  do 3 eexists; repeat split; try reflexivity; unfold stored_optional; cbn;
  auto.

(** Both branches of a successful update build a servable context. *)
Lemma update_context_servable req g w resp new w' :
  update_context eng req g w = (Ok (resp, Some new), w') ->
  servable_context new.
Proof.
  intros H.
  unfold update_context, mbind, lift, ret, throw in H.
  destruct (get_json req) as [data|]; [|discriminate].
  destruct data as [| | | | | |d]; try discriminate.
  destruct (str_eq _ (py "custom")).
  - destruct (truthy (get (py "email") d)) eqn:Hte; cbn [negb] in H;
      [|discriminate].
    destruct (get (py "email") d) as [| | | |s| |] eqn:Hem; try discriminate.
    cbn [py_strip Contexts.bind] in H.
    destruct (pystr_eqb (strip s) []) eqn:Hb; [discriminate|].
    assert (Hs : strip s <> []) by (intros Hz; rewrite Hz in Hb; discriminate).
    destruct (set_and_not_blank (get (py "name") d)) as [hn|] eqn:Hn;
      [|discriminate].
    destruct (set_and_not_blank (get (py "location") d)) as [hl|] eqn:Hl;
      [|discriminate].
    injection H as _ <- _.
    assert (Hes : optional_ok (PStr s)) by (now right).
    destruct hn, hl;
      try (pose proof (set_and_not_blank_true _ Hn));
      try (pose proof (set_and_not_blank_true _ Hl)); servable.
  - destruct (needs_new_key (current_context g)) as [fresh|] eqn:Hn;
      [|discriminate].
    unfold call_uuid4 in H.
    destruct (uuid4 eng (engine_state w)) as [u s].
    destruct fresh.
    + destruct (set_and_not_blank (get (py "location") d)) as [hl|] eqn:Hl;
        [|discriminate].
      injection H as _ <- _.
      assert (Hk : strip (py "python-anon-" ++ u) <> [])
        by (apply anon_key_not_blank, startswith_app).
      destruct hl; try (pose proof (set_and_not_blank_true _ Hl)); servable.
    + destruct (kept_key_anon _ (PStr (py "python-anon-" ++ u)) Hn)
        as [k [Hk [Hsw _]]].
      rewrite Hk in H.
      destruct (set_and_not_blank (get (py "location") d)) as [hl|] eqn:Hl;
        [|discriminate].
      injection H as _ <- _.
      pose proof (anon_key_not_blank k Hsw).
      destruct hl; try (pose proof (set_and_not_blank_true _ Hl)); servable.
Qed.

Lemma startup_servable u : servable_context (startup_context u).
Proof.
  assert (Hk : strip (py "python-anon-" ++ u) <> [])
    by (apply anon_key_not_blank, startswith_app).
  unfold startup_context, anonymous_context. servable.
Qed.

(** What a request to [/api/context] does to the module state: only
    [current_context] can change, and only to the new context of a
    successful update. *)
Lemma context_endpoint_cases req g w resp g' w' :
  context_endpoint eng req g w = (Ok (resp, g'), w') ->
  (g' = g /\
   (is_update req -> status resp = 400 \/ status resp = 500)) \/
  (is_update req /\
   exists new w0,
     update_context eng req g w0 = (Ok (resp, Some new), w') /\
     g' = set_current_context new g).
Proof.
  unfold context_endpoint, is_update. intros H.
  destruct (pystr_eqb (method req) (py "OPTIONS")).
  { injection H as _ <- _. left. split; [reflexivity|]. intros [? _].
    discriminate. }
  destruct (pystr_eqb (method req) (py "GET")).
  { injection H as _ <- _. left. split; [reflexivity|]. intros [_ ?].
    discriminate. }
  unfold try_except, mbind in H.
  destruct (update_context eng req g w) as [[[r [new|]]|e] w1] eqn:Hu;
    cbn [fst snd ret] in H.
  - injection H as <- <- <-. right. split; [auto|].
    exists new, w. split; [exact Hu | reflexivity].
  - injection H as <- <- _. left. split; [reflexivity|]. intros _.
    revert Hu. unfold update_context, mbind, lift, ret, throw.
    destruct (get_json req) as [data|]; [|discriminate].
    destruct data as [| | | | | |d]; try discriminate.
    destruct (str_eq _ (py "custom")).
    + destruct (if negb (truthy (get (py "email") d)) then _ else _)
        as [[|]|]; try discriminate.
      * intros Hu. injection Hu as <- _. now left.
      * destruct (set_and_not_blank (get (py "name") d)) as [hn|];
          [|discriminate].
        destruct (set_and_not_blank (get (py "location") d)) as [hl|];
          discriminate.
    + destruct (needs_new_key (current_context g)) as [fresh|];
        [|discriminate].
      unfold call_uuid4. destruct (uuid4 eng (engine_state w)) as [u s].
      destruct (if fresh then _ else _) as [[ck|] w2]; [|discriminate].
      destruct (set_and_not_blank (get (py "location") d)) as [hl|];
        discriminate.
  - destruct (is_Exception e); [|discriminate].
    injection H as <- <- _. left. split; [reflexivity|]. intros _. now right.
Qed.

Lemma update_context_answer req g w resp new w' :
  update_context eng req g w = (Ok (resp, Some new), w') ->
  resp = {| body := PDict [(py "success", PBool true); (py "context", new)];
            status := 200; headers := cors (request_origin req) |}.
Proof.
  unfold update_context, mbind, lift, ret, throw.
  destruct (get_json req) as [data|]; [|discriminate].
  destruct data as [| | | | | |d]; try discriminate.
  destruct (str_eq _ (py "custom")).
  - destruct (if negb (truthy (get (py "email") d)) then _ else _)
      as [[|]|]; try discriminate.
    destruct (set_and_not_blank (get (py "name") d)) as [hn|]; [|discriminate].
    destruct (set_and_not_blank (get (py "location") d)) as [hl|];
      [|discriminate].
    intros H. injection H as <- <- _. reflexivity.
  - destruct (needs_new_key (current_context g)) as [fresh|]; [|discriminate].
    unfold call_uuid4. destruct (uuid4 eng (engine_state w)) as [u s].
    destruct (if fresh then _ else _) as [[ck|] w2]; [|discriminate].
    destruct (set_and_not_blank (get (py "location") d)) as [hl|];
      [|discriminate].
    intros H. injection H as <- <- _. reflexivity.
Qed.

Lemma update_context_refusal req g w resp w' :
  update_context eng req g w = (Ok (resp, None), w') ->
  resp = {| body := PDict [(py "success", PBool false);
                           (py "error",
                            PStr (py "Email is required for custom context"))];
            status := 400; headers := cors (request_origin req) |}.
Proof.
  unfold update_context, mbind, lift, ret, throw.
  destruct (get_json req) as [data|]; [|discriminate].
  destruct data as [| | | | | |d]; try discriminate.
  destruct (str_eq _ (py "custom")).
  - destruct (if negb (truthy (get (py "email") d)) then _ else _)
      as [[|]|]; try discriminate.
    + intros H. injection H as <- _. reflexivity.
    + destruct (set_and_not_blank (get (py "name") d)) as [hn|];
        [|discriminate].
      destruct (set_and_not_blank (get (py "location") d)) as [hl|];
        discriminate.
  - destruct (needs_new_key (current_context g)) as [fresh|]; [|discriminate].
    unfold call_uuid4. destruct (uuid4 eng (engine_state w)) as [u s].
    destruct (if fresh then _ else _) as [[ck|] w2]; [|discriminate].
    destruct (set_and_not_blank (get (py "location") d)) as [hl|];
      discriminate.
Qed.

(** The module state after a request to [/api/context]: only
    [current_context] can differ, and the state is left as it was unless the
    request is an update (neither OPTIONS nor GET) that is answered 200; the
    body of that answer reports exactly the context stored. So a GET, an
    OPTIONS and any request with another answer than 200 change nothing. *)
Theorem context_endpoint_state req g w resp g' w' :
  context_endpoint eng req g w = (Ok (resp, g'), w') ->
  g' = set_current_context (current_context g') g /\
  (g' = g \/ (is_update req /\ status resp = 200)) /\
  (~ is_update req -> g' = g) /\
  (status resp <> 200 -> g' = g) /\
  (is_update req -> status resp = 200 ->
   body resp = PDict [(py "success", PBool true);
                      (py "context", current_context g')]).
Proof.
  intros H.
  destruct (context_endpoint_cases _ _ _ _ _ _ H)
    as [[-> Hst] | [Hup [new [w0 [Hu ->]]]]].
  - split; [destruct g; reflexivity|]. split; [now left|].
    split; [reflexivity|]. split; [reflexivity|].
    intros Hupd H200. destruct (Hst Hupd) as [H4 | H5]; congruence.
  - pose proof (update_context_answer _ _ _ _ _ _ Hu) as ->.
    split; [reflexivity|]. split; [right; split; [exact Hup | reflexivity]|].
    split; [intros Hn; now elim Hn|]. split; [intros Hn; now elim Hn|].
    intros _ _. reflexivity.
Qed.

(** A GET after a successful update returns exactly the context that the
    update answered with. *)
Theorem context_round_trip req g w resp g' w' req' w2 :
  is_update req ->
  context_endpoint eng req g w = (Ok (resp, g'), w') ->
  status resp = 200 ->
  pystr_eqb (method req') (py "GET") = true ->
  exists r,
    context_endpoint eng req' g' w2 = (Ok (r, g'), w2) /\
    status r = 200 /\
    lookup (py "context")
      match body resp with PDict d => d | _ => [] end = Some (body r).
Proof.
  intros Hup H H200 Hget.
  destruct (context_endpoint_cases _ _ _ _ _ _ H)
    as [[-> Hst] | [_ [new [w0 [Hu ->]]]]].
  { destruct (Hst Hup) as [H4 | H5]; congruence. }
  pose proof (update_context_answer _ _ _ _ _ _ Hu) as ->.
  unfold context_endpoint at 1.
  apply PyFacts.pystr_eqb_eq in Hget. rewrite Hget.
  change (pystr_eqb (py "GET") (py "OPTIONS")) with false.
  change (pystr_eqb (py "GET") (py "GET")) with true. cbv iota.
  eexists. split; [reflexivity|]. split; reflexivity.
Qed.

(** Every answer of [/api/context] has status 200, 400 or 500 and carries
    the CORS headers for the origin of the request (http://localhost:8000
    when the request names none); no [Exception] leaves the route. *)
Theorem context_endpoint_cors req g w :
  match context_endpoint eng req g w with
  | (Ok (resp, _), _) =>
      (status resp = 200 \/ status resp = 400 \/ status resp = 500) /\
      exists rest,
        headers resp =
          [(py "Access-Control-Allow-Origin", request_origin req);
           (py "Access-Control-Allow-Credentials", py "true")] ++ rest
  | (Raise e, _) => is_Exception e = false
  end.
Proof.
  unfold context_endpoint.
  destruct (pystr_eqb (method req) (py "OPTIONS")).
  { split; [now left | eexists; reflexivity]. }
  destruct (pystr_eqb (method req) (py "GET")).
  { split; [now left | exists []; reflexivity]. }
  unfold try_except, mbind.
  destruct (update_context eng req g w) as [[[r [new|]]|e] w1] eqn:Hu;
    cbn [fst snd ret].
  - rewrite (update_context_answer _ _ _ _ _ _ Hu).
    split; [now left | exists []; reflexivity].
  - rewrite (update_context_refusal _ _ _ _ _ Hu).
    split; [now right; left | exists []; reflexivity].
  - destruct (is_Exception e) eqn:He; [|exact He].
    split; [now right; right | exists []; reflexivity].
Qed.

Lemma set_and_not_blank_total v :
  optional_ok v -> exists b, set_and_not_blank v = Ok b.
Proof.
  intros [-> | Hv]; [now exists false|].
  destruct v as [| | | |s| |]; try discriminate.
  unfold set_and_not_blank. destruct (truthy (PStr s)); eexists; reflexivity.
Qed.

Lemma user_key_set_location ck location :
  user_key (PDict (set_user_attr (py "location") location (anonymous_context ck)))
  = Some ck.
Proof. reflexivity. Qed.

(** An anonymous update keeps the key of an anonymous [current_context]
    (one whose user key starts with "python-anon-") and gives any context
    whose user is not anonymous a fresh key, "python-anon-" followed by a new
    uuid. *)
Theorem anonymous_update_key req g w resp new w' d user anon :
  get_json req = Ok (PDict d) ->
  str_eq (get_default (py "type") (PStr (py "anonymous")) d) (py "custom")
    = false ->
  stored_user (current_context g) user anon ->
  update_context eng req g w = (Ok (resp, Some new), w') ->
  (anon = true ->
   forall k, lookup (py "key") user = Some (PStr k) ->
             startswith k (py "python-anon-") = true ->
             user_key new = Some (PStr k)) /\
  (anon = false ->
   user_key new =
     Some (PStr (py "python-anon-" ++ fst (uuid4 eng (engine_state w))))).
Proof.
  intros Hj Hty [cd [Hcc [Hkind [Huser Hanon]]]] H.
  unfold update_context, mbind, lift, ret, throw in H.
  rewrite Hj, Hty in H.
  assert (Hneeds :
    needs_new_key (current_context g) =
    if anon then
      match get_default (py "key") (PStr []) user with
      | PStr k => Ok (negb (startswith k (py "python-anon-")))
      | v => Raise (no_attribute v (py "startswith"))
      end
    else Ok true).
  { unfold needs_new_key. rewrite Hcc.
    assert (Ht : truthy (PDict cd) = true)
      by (destruct cd; [discriminate Hkind | reflexivity]).
    rewrite Ht. cbn [negb]. unfold get at 1. unfold get_default at 1.
    rewrite Hkind. cbn [str_eq]. rewrite PyFacts.pystr_eqb_refl. cbn [negb].
    unfold get_default at 1. rewrite Huser, Hanon.
    destruct anon; reflexivity. }
  rewrite Hneeds in H. unfold call_uuid4 in H.
  destruct (uuid4 eng (engine_state w)) as [u s]. cbn [fst].
  split.
  - intros -> k Hk Hsw.
    unfold get_default in H. rewrite Hk, Hsw in H. cbn [negb] in H.
    unfold kept_key in H. rewrite Hcc in H. unfold get_default in H.
    rewrite Huser, Hk in H.
    destruct (set_and_not_blank (get (py "location") d)) as [hl|];
      [|discriminate].
    injection H as _ <- _. destruct hl; reflexivity.
  - intros ->.
    destruct (set_and_not_blank (get (py "location") d)) as [hl|];
      [|discriminate].
    injection H as _ <- _. destruct hl; reflexivity.
Qed.

(** A custom update whose email is a string: a blank email is refused with
    400 and nothing is stored; any other email becomes, as it was sent and
    without trimming, both the key and the email of a user that is not
    anonymous. *)
Theorem custom_update req g w d s :
  get_json req = Ok (PDict d) ->
  str_eq (get_default (py "type") (PStr (py "anonymous")) d) (py "custom")
    = true ->
  get (py "email") d = PStr s ->
  optional_ok (get (py "name") d) ->
  optional_ok (get (py "location") d) ->
  exists resp stored,
    update_context eng req g w = (Ok (resp, stored), w) /\
    match strip s with
    | [] => status resp = 400 /\ stored = None
    | _ =>
        status resp = 200 /\
        exists new user,
          stored = Some (PDict new) /\
          lookup (py "user") new = Some (PDict user) /\
          lookup (py "key") user = Some (PStr s) /\
          lookup (py "email") user = Some (PStr s) /\
          lookup (py "anonymous") user = Some (PBool false)
    end.
Proof.
  intros Hj Hty Hem Hn Hl.
  unfold update_context, mbind, lift, ret, throw.
  rewrite Hj, Hty, Hem.
  destruct (set_and_not_blank_total _ Hn) as [hn Hhn].
  destruct (set_and_not_blank_total _ Hl) as [hl Hhl].
  rewrite Hhn, Hhl.
  destruct s as [|c s]; [do 2 eexists; split; [reflexivity | split; reflexivity]|].
  cbn [truthy negb py_strip Contexts.bind].
  destruct (strip (c :: s)) as [|c' s'] eqn:Hs.
  - do 2 eexists; split; [reflexivity | split; reflexivity].
  - cbn [pystr_eqb].
    destruct hn, hl; do 2 eexists; (split; [reflexivity|]);
      (split; [reflexivity|]); do 2 eexists; repeat split; reflexivity.
Qed.

(** Every value [current_context] can take is servable: its user key is a
    string that is not blank, and the email, name and location it stores are
    strings. *)
Theorem reachable_servable cc :
  reachable_context eng cc -> servable_context cc.
Proof.
  induction 1 as [u | req g w resp g' w' _ IH Hstep].
  - apply startup_servable.
  - destruct (context_endpoint_cases _ _ _ _ _ _ Hstep)
      as [[-> _] | [_ [new [w0 [Hu ->]]]]]; [exact IH|].
    exact (update_context_servable _ _ _ _ _ _ Hu).
Qed.

End Update.

Lemma custom_request_answer :
  context_endpoint mock custom_request sample_globals empty_world =
    (Ok ({| body := PDict [(py "success", PBool true);
                           (py "context", current_context custom_globals)];
            status := 200;
            headers := cors (py "http://localhost:8000") |},
         custom_globals), empty_world).
Proof. vm_compute. reflexivity. Qed.

Lemma reachable_servable_witness :
  servable_context (current_context custom_globals).
Proof.
  apply (reachable_servable unit mock).
  eapply reach_request; [|exact custom_request_answer].
  exact (reach_startup unit mock (py "6f1c2a9e-0b7d-4c55-9e2a-3d1f8b4c7a10")).
Defined.

Lemma context_endpoint_state_witness :
  custom_globals = set_current_context (current_context custom_globals)
                     sample_globals.
Proof.
  pose proof custom_request_answer as H.
  apply (context_endpoint_state unit mock) in H.
  exact (proj1 H).
Defined.

Lemma context_round_trip_witness :
  exists r,
    context_endpoint mock get_request custom_globals empty_world =
      (Ok (r, custom_globals), empty_world) /\
    body r = current_context custom_globals.
Proof.
  pose proof custom_request_answer as H.
  eapply (context_round_trip unit mock) with (req' := get_request)
    (w2 := empty_world) in H;
    [|split; reflexivity | reflexivity | reflexivity].
  destruct H as [r [Hr [_ Hb]]].
  exists r. split; [exact Hr|]. cbn in Hb. now injection Hb as <-.
Defined.

Lemma anonymous_update_key_witness :
  exists resp new w',
    update_context mock (anonymous_request PNone) sample_globals empty_world =
      (Ok (resp, Some new), w') /\
    user_key new = user_key (current_context sample_globals).
Proof.
  destruct (update_context mock (anonymous_request PNone) sample_globals
              empty_world) as [[[resp [new|]]|e] w'] eqn:Hu;
    try (vm_compute in Hu; discriminate Hu).
  exists resp, new, w'. split; [reflexivity|].
  destruct (anonymous_update_key unit mock (anonymous_request PNone)
              sample_globals empty_world resp new w'
              [(py "type", PStr (py "anonymous")); (py "location", PNone)]
              [(py "kind", PStr (py "user"));
               (py "key",
                PStr (py "python-anon-6f1c2a9e-0b7d-4c55-9e2a-3d1f8b4c7a10"));
               (py "anonymous", PBool true)]
              true eq_refl eq_refl) as [T _].
  - eexists. repeat split; reflexivity.
  - exact Hu.
  - exact (T eq_refl _ eq_refl eq_refl).
Defined.

Lemma custom_update_witness :
  exists resp stored,
    update_context mock custom_request sample_globals empty_world =
      (Ok (resp, stored), empty_world) /\
    status resp = 200.
Proof.
  destruct (custom_update unit mock custom_request sample_globals empty_world
              _ (py "user@example.com") eq_refl eq_refl eq_refl)
    as [resp [stored [H Hs]]].
  - left; reflexivity.
  - left; reflexivity.
  - exists resp, stored. split; [exact H|].
    change (strip (py "user@example.com")) with (py "user@example.com") in Hs.
    exact (proj1 Hs).
Defined.

Lemma flag_endpoint_status_witness :
  servable_context (current_context sample_globals) /\
  returns (flag_endpoint mock recording_sdk get_request sample_globals)
    (fun r => status r = 200 /\
              exists d v rs,
                body r = PDict d /\
                lookup (py "value") d = Some v /\
                lookup (py "reason") d = Some (PDict rs)).
Proof.
  split; [apply startup_servable|].
  exact (proj2 (FlagEndpointExtras.flag_endpoint_status unit mock get_request
                  sample_globals (startup_servable _))).
Defined.

End ContextEndpointExtras.

(** ** More on the bucketing hash *)

Module BucketingExtras.
Import Sha1 Bucketing Contexts App Vocabulary DictFacts ContextStateFacts.

Lemma py_scalar s : Forall scalar (py s).
Proof.
  induction s as [|c s IH]; [constructor|].
  cbn [py]. constructor; [|exact IH].
  pose proof (N_ascii_bounded c) as Hb. unfold scalar. lia.
Qed.

Lemma empty_iff s : is_empty s = false <-> s <> [].
Proof. destruct s; simpl; split; congruence. Qed.

Lemma calculate_hash_value_some flag_key context_key salt :
  flag_key <> [] -> context_key <> [] -> salt <> [] ->
  Forall scalar flag_key -> Forall scalar context_key -> Forall scalar salt ->
  exists r,
    calculate_hash_value flag_key context_key salt = Some r /\
    Bucketing.salt r = salt /\
    0 <= hashValue r <= Z.pos max_hash.
Proof.
  intros Hf Hc Hs Sf Sc Ss. unfold calculate_hash_value.
  apply empty_iff in Hf, Hc, Hs. rewrite Hf, Hc, Hs. cbn [orb].
  destruct (BucketingFacts.utf8_encode_scalar
              (flag_key ++ py "." ++ salt ++ py "." ++ context_key))
    as [bytes Hbytes].
  { apply Forall_app; split; [exact Sf|].
    apply Forall_app; split; [apply py_scalar|].
    apply Forall_app; split; [exact Ss|].
    apply Forall_app; split; [apply py_scalar | exact Sc]. }
  rewrite Hbytes.
  destruct (BucketingFacts.hash_prefix_value bytes) as [h [Hh Hb]].
  cbv zeta. rewrite Hh.
  eexists. split; [reflexivity|]. split; [reflexivity | exact Hb].
Qed.

Lemma utf8_cp_scalar c b : utf8_cp c = Some b -> scalar c.
Proof.
  unfold utf8_cp, scalar.
  destruct (c <? 0) eqn:H0; [discriminate|]. apply Z.ltb_ge in H0.
  destruct (c <? 128) eqn:H1; [apply Z.ltb_lt in H1; intros _; lia|].
  destruct (c <? 2048) eqn:H2; [apply Z.ltb_lt in H2; intros _; lia|].
  destruct (c <? 65536) eqn:H3.
  - apply Z.ltb_lt in H3.
    destruct ((55296 <=? c) && (c <=? 57343)) eqn:Hs; [discriminate|].
    intros _. apply andb_false_iff in Hs.
    destruct Hs as [Hs | Hs]; apply Z.leb_gt in Hs; lia.
  - apply Z.ltb_ge in H3.
    destruct (c <=? 1114111) eqn:H4; [|discriminate].
    apply Z.leb_le in H4. intros _. lia.
Qed.

(** Only strings of scalar values have a UTF-8 encoding. *)
Lemma utf8_encode_only_scalar s : forall bytes,
  utf8_encode s = Some bytes -> Forall scalar s.
Proof.
  induction s as [|c s IH]; intros bytes H; [constructor|].
  cbn [utf8_encode] in H.
  destruct (utf8_cp c) as [b|] eqn:Hc; [|discriminate].
  destruct (utf8_encode s) as [bs|]; [|discriminate].
  constructor; [exact (utf8_cp_scalar c b Hc) | exact (IH bs eq_refl)].
Qed.

(** [calculate_hash_value] returns None exactly when one of its three
    strings is empty or holds a code point that has no UTF-8 encoding (a lone
    surrogate); in every other case it returns a record. *)
Theorem calculate_hash_value_none_iff flag_key context_key salt :
  calculate_hash_value flag_key context_key salt = None <->
  flag_key = [] \/ context_key = [] \/ salt = [] \/
  ~ (Forall scalar flag_key /\ Forall scalar context_key /\
     Forall scalar salt).
Proof.
  split.
  - intros Hnone.
    destruct flag_key as [|f0 fk]; [now left|].
    destruct context_key as [|c0 ck]; [now right; left|].
    destruct salt as [|s0 sk]; [now right; right; left|].
    right; right; right. intros [Sf [Sc Ss]].
    destruct (calculate_hash_value_some (f0 :: fk) (c0 :: ck) (s0 :: sk))
      as [r [Hr _]]; try assumption; try (intros H; inversion H).
    rewrite Hr in Hnone. inversion Hnone.
  - intros [-> | [-> | [-> | Hns]]]; unfold calculate_hash_value.
    + reflexivity.
    + destruct flag_key; reflexivity.
    + destruct flag_key; [reflexivity|]. destruct context_key; reflexivity.
    + destruct (is_empty flag_key || is_empty context_key || is_empty salt);
        [reflexivity|].
      destruct (utf8_encode
                  (flag_key ++ py "." ++ salt ++ py "." ++ context_key))
        as [bytes|] eqn:Hb; [|reflexivity].
      exfalso. apply Hns.
      apply utf8_encode_only_scalar in Hb.
      apply Forall_app in Hb as [Sf Hb].
      apply Forall_app in Hb as [_ Hb].
      apply Forall_app in Hb as [Ss Hb].
      apply Forall_app in Hb as [_ Sc].
      auto.
Qed.

Section HashInfo.
Variable E : Type.
Variable eng : Engine E.

(** The salt [get_flag_salt] finds for "user-message". *)
Lemma user_message_salt g :
  returns (get_flag_salt eng (py "user-message") g)
    (fun salt => salt = py "user-message" \/
                 salt = py "94b881a3be5c449d99dbbe1a92ca3fa0").
Proof.
  unfold get_flag_salt. apply returns_try.
  - destruct (get_ld_client g); [|apply returns_ret; now left].
    eapply returns_bind; [apply returns_any|]. intros ready _.
    destruct (negb ready); [apply returns_ret; now left|].
    apply returns_ret. now right.
  - intros e. apply returns_ret. now left.
Qed.

Lemma get_flag_salt_contained flag_key g :
  contained (get_flag_salt eng flag_key g).
Proof.
  apply FlagEndpointExtras.contained_try. intros e.
  apply FlagEndpointExtras.contained_ret.
Qed.

(** The bucketing demonstration of [/api/flag] and of the stream, for a
    context key that is a non-empty string without lone surrogates. No
    [Exception] escapes, and the result always gets a [hashInfo] dict with
    the hash value, the bucket value and the salt of
    [calculate_hash_value("user-message", key, salt)], where the salt is the
    one [get_flag_salt("user-message")] returns there: "user-message" itself
    or the known salt of that flag. Every other key of the result is kept,
    and the engine is touched by [get_flag_salt] only. *)
Theorem attach_hash_info_present k g result w :
  k <> [] -> Forall scalar k ->
  match attach_hash_info E eng (PStr k) g result w with
  | (Ok r, w') =>
      exists h,
        get_flag_salt eng (py "user-message") g w
          = (Ok (Bucketing.salt h), w') /\
        (Bucketing.salt h = py "user-message" \/
         Bucketing.salt h = py "94b881a3be5c449d99dbbe1a92ca3fa0") /\
        calculate_hash_value (py "user-message") k (Bucketing.salt h)
          = Some h /\
        lookup (py "hashInfo") r =
          Some (PDict [(py "hashValue", PInt (hashValue h));
                       (py "bucketValue", PFloat (bucketValue h));
                       (py "salt", PStr (Bucketing.salt h))]) /\
        (forall k', pystr_eqb k' (py "hashInfo") = false ->
                    lookup k' r = lookup k' result)
  | (Raise e, _) => is_Exception e = false
  end.
Proof.
  intros Hk Sk. unfold attach_hash_info, try_except, mbind.
  destruct (get_flag_salt eng (py "user-message") g w) as [[salt|e] w1] eqn:Hs.
  - pose proof (user_message_salt g w salt w1 Hs) as Hsalt.
    cbn [as_str].
    assert (Hum : py "user-message" <> [])
      by (cbn [py]; intros H; inversion H).
    assert (Hne : salt <> [])
      by (destruct Hsalt as [-> | ->]; cbn [py]; intros H; inversion H).
    assert (Ssalt : Forall scalar salt)
      by (destruct Hsalt as [-> | ->]; apply py_scalar).
    destruct (calculate_hash_value_some (py "user-message") k salt
                Hum Hk Hne (py_scalar _) Sk Ssalt) as [h [Hh [Hsh _]]].
    rewrite Hh. unfold ret. exists h. subst salt.
    split; [reflexivity|]. split; [exact Hsalt|]. split; [exact Hh|].
    split; [apply lookup_setitem_eq|].
    intros k' Hk'. now apply lookup_setitem_ne.
  - pose proof (get_flag_salt_contained (py "user-message") g w e w1 Hs) as He.
    rewrite He. exact He.
Qed.

End HashInfo.

Lemma attach_hash_info_present_witness :
  match attach_hash_info unit mock (PStr (py "user-123")) sample_globals []
          empty_world with
  | (Ok r, w') =>
      exists h,
        get_flag_salt mock (py "user-message") sample_globals empty_world
          = (Ok (Bucketing.salt h), w') /\
        (Bucketing.salt h = py "user-message" \/
         Bucketing.salt h = py "94b881a3be5c449d99dbbe1a92ca3fa0") /\
        calculate_hash_value (py "user-message") (py "user-123")
          (Bucketing.salt h) = Some h /\
        lookup (py "hashInfo") r =
          Some (PDict [(py "hashValue", PInt (hashValue h));
                       (py "bucketValue", PFloat (bucketValue h));
                       (py "salt", PStr (Bucketing.salt h))]) /\
        (forall k', pystr_eqb k' (py "hashInfo") = false ->
                    lookup k' r = lookup k' [])
  | (Raise e, _) => is_Exception e = false
  end.
Proof.
  apply (attach_hash_info_present unit mock (py "user-123") sample_globals []
           empty_world).
  - cbn [py]. intros H. inversion H.
  - apply py_scalar.
Defined.

End BucketingExtras.

(** ** The health and status routes *)

Module StatusExtras.
Import Contexts App Status Vocabulary DictFacts ContextStateFacts.

Section Routes.
Variable E : Type.
Variable eng : Engine E.
Variable VERSION : pystr.

(** A start-up that returns False leaves the initialized flag unset and a
    non-empty message recorded. *)
Lemma initialize_failure_recorded fuel g w g' w' :
  initialize_launchdarkly_sdk eng fuel g w = Some (Ok false, g', w') ->
  _sdk_initialized g' = false /\
  exists m, _sdk_initialization_error g' = Some m /\ m <> [].
Proof.
  unfold initialize_launchdarkly_sdk, initialization_failed.
  destruct (_sdk_initialized g && is_some (_ld_client g)); [discriminate|].
  assert (Hfail : forall m g0 (w0 : World E),
             m <> [] ->
             Some (Ok false, set_init false (Some m) g0, w0)
               = Some (Ok false, g', w') ->
             _sdk_initialized g' = false /\
             exists m, _sdk_initialization_error g' = Some m /\ m <> []).
  { intros m g0 w0 Hm H. injection H as <- _.
    split; [reflexivity|]. exists m. split; [reflexivity | exact Hm]. }
  assert (Hexc : forall e g0 (w0 : World E),
             Some (if is_Exception e
                   then (Ok false,
                         set_init false
                           (Some (py "Failed to initialize LaunchDarkly SDK: "
                                  ++ exc_text e)) g0, w0)
                   else (Raise e, g0, w0)) = Some (Ok false, g', w') ->
             _sdk_initialized g' = false /\
             exists m, _sdk_initialization_error g' = Some m /\ m <> []).
  { intros e g0 w0 H. destruct (is_Exception e); [|discriminate].
    eapply Hfail; [|exact H]. discriminate. }
  destruct (environ_get eng _ _) as [[|k0 k]|];
    try (apply Hfail; discriminate).
  destruct (call_set_config eng (k0 :: k) w) as [[[]|e1] w1]; [|apply Hexc].
  destruct (call_get eng w1) as [[c|e2] w2]; [|apply Hexc].
  destruct (call_time eng w2) as [[t|e3] w3]; [|apply Hexc].
  destruct (wait_for_initialization eng fuel c t w3) as [[[[|]|e4] w4]|];
    try discriminate.
  - apply Hfail. discriminate.
  - apply Hexc.
Qed.

(** Degraded mode is reported consistently. After a start-up that returned
    False, [/health] answers 503 and [/api/status] answers 200 with
    connected false, sdkInitialized false and connectionState OFF; both carry
    the recorded error message, and neither polls the client. *)
Theorem degraded_mode_reported fuel g w g' w' :
  initialize_launchdarkly_sdk eng fuel g w = Some (Ok false, g', w') ->
  exists m,
    _sdk_initialization_error g' = Some m /\
    forall w2,
      health_check eng g' w2 =
        (Ok {| body := PDict [(py "status", PStr (py "unhealthy"));
                              (py "service", PStr (py "python-app-dev"));
                              (py "sdkInitialized", PBool false);
                              (py "error", PStr m)];
               status := 503; headers := [] |}, w2) /\
      get_status eng VERSION g' w2 =
        (Ok {| body := PDict [(py "connected", PBool false);
                              (py "mode", PStr (py "default"));
                              (py "sdkVersion", PStr (py "not-initialized"));
                              (py "sdkInitialized", PBool false);
                              (py "connectionState", PStr (py "OFF"));
                              (py "error", PStr m)];
               status := 200; headers := [] |}, w2).
Proof.
  intros H.
  destruct (initialize_failure_recorded _ _ _ _ _ H) as [Hi [m [Hm Hne]]].
  exists m. split; [exact Hm|]. intros w2.
  unfold health_check, get_status, try_except, mbind, ret,
    get_sdk_connection_state, is_sdk_initialized.
  rewrite Hi, Hm. cbn [negb opt_str andb].
  destruct m as [|c m]; [now elim Hne|].
  split; reflexivity.
Qed.

Lemma connection_state_values g :
  returns (get_sdk_connection_state eng g)
    (fun cs => cs = py "OFF" \/ cs = py "INITIALIZING" \/ cs = py "VALID").
Proof.
  unfold get_sdk_connection_state.
  destruct (negb (_sdk_initialized g)); [apply returns_ret; auto|].
  destruct (_ld_client g) as [c|]; [|apply returns_ret; auto].
  eapply returns_bind; [apply returns_any|]. intros ready _.
  destruct (negb ready); apply returns_ret; auto.
Qed.

Lemma status_body_complete g cs (i : bool) :
  cs = py "OFF" \/ cs = py "INITIALIZING" \/ cs = py "VALID" ->
  status_answer VERSION
    {| body :=
         PDict
           (if negb i && truthy (opt_str (_sdk_initialization_error g))
            then setitem (py "error") (opt_str (_sdk_initialization_error g))
                   [(py "connected", PBool (i && pystr_eqb cs (py "VALID")));
                    (py "mode", PStr (py "default"));
                    (py "sdkVersion",
                     PStr (if i then VERSION else py "not-initialized"));
                    (py "sdkInitialized", PBool i);
                    (py "connectionState", PStr cs)]
            else [(py "connected", PBool (i && pystr_eqb cs (py "VALID")));
                  (py "mode", PStr (py "default"));
                  (py "sdkVersion",
                   PStr (if i then VERSION else py "not-initialized"));
                  (py "sdkInitialized", PBool i);
                  (py "connectionState", PStr cs)]);
       status := 200; headers := [] |}.
Proof.
  intros Hcs. unfold status_answer. cbn [status body].
  split; [now left|].
  eexists. exists cs, (if i then VERSION else py "not-initialized"),
    (i && pystr_eqb cs (py "VALID")), i.
  split; [reflexivity|].
  assert (Hc : i && pystr_eqb cs (py "VALID") = true <->
               i = true /\ cs = py "VALID").
  { rewrite andb_true_iff. split.
    - intros [Hi Hv]. split; [exact Hi | now apply PyFacts.pystr_eqb_eq].
    - intros [Hi ->]. split; [exact Hi | reflexivity]. }
  destruct (negb i && truthy (opt_str (_sdk_initialization_error g)));
    rewrite ?lookup_setitem_ne by reflexivity;
    (split; [reflexivity|]; split; [reflexivity|]; split; [exact Hcs|];
     split; [reflexivity|]; split; [reflexivity|]; split; [reflexivity|];
     split; [exact Hc|]; split; [intros ->; reflexivity|];
     split; [reflexivity | discriminate]).
Qed.

(** Every answer of [/api/status] has status 200 or 500 and a body with
    mode "default", a connectionState among OFF, INITIALIZING and VALID, an
    sdkVersion, connected and sdkInitialized; connected is true exactly when
    sdkInitialized is true and connectionState is VALID. In a 200 answer
    sdkVersion is the version of the SDK when sdkInitialized is true and
    "not-initialized" otherwise; a 500 answer has connected false,
    sdkInitialized false, connectionState OFF, sdkVersion "error" and an
    error text. No [Exception] leaves the route. *)
Theorem get_status_complete g :
  contained (get_status eng VERSION g) /\
  returns (get_status eng VERSION g) (status_answer VERSION).
Proof.
  split.
  { apply FlagEndpointExtras.contained_try. intros e.
    apply FlagEndpointExtras.contained_ret. }
  unfold get_status. apply returns_try.
  - eapply returns_bind; [apply connection_state_values|].
    intros cs Hcs.
    eapply returns_bind; [apply returns_any|]. intros i _. cbv zeta.
    apply returns_ret. apply status_body_complete. exact Hcs.
  - intros e. apply returns_ret. unfold status_answer. cbn [status body].
    split; [now right|].
    eexists. exists (py "OFF"), (py "error"), false, false.
    split; [reflexivity|]. split; [reflexivity|]. split; [reflexivity|].
    split; [now left|]. split; [reflexivity|]. split; [reflexivity|].
    split; [reflexivity|].
    split; [split; [discriminate | intros [H _]; discriminate H]|].
    split; [discriminate|]. split; [discriminate|].
    intros _. repeat split. now exists (exc_text e).
Qed.

End Routes.

Lemma degraded_mode_reported_witness :
  exists m,
    fst (health_check mock
           (set_init false
              (Some (py "LAUNCHDARKLY_SDK_KEY environment variable not set"))
              (fresh_globals (py "u"))) empty_world) =
      Ok {| body := PDict [(py "status", PStr (py "unhealthy"));
                           (py "service", PStr (py "python-app-dev"));
                           (py "sdkInitialized", PBool false);
                           (py "error", PStr m)];
            status := 503; headers := [] |}.
Proof.
  destruct (degraded_mode_reported unit mock (py "9.2.0") 0%nat
              (fresh_globals (py "u")) empty_world
              (set_init false
                 (Some (py "LAUNCHDARKLY_SDK_KEY environment variable not set"))
                 (fresh_globals (py "u")))
              empty_world eq_refl) as [m [_ H]].
  exists m. destruct (H empty_world) as [Hh _]. now rewrite Hh.
Defined.

End StatusExtras.

(** ** The raw flag store route *)

Module StoreExtras.
Import Contexts App Store Vocabulary DictFacts ContextStateFacts.

Lemma lookup_app_absent k d d' :
  lookup k d = None -> lookup k (d ++ d') = lookup k d'.
Proof.
  induction d as [|[k0 v0] d IH]; simpl; [reflexivity|].
  destruct (pystr_eqb k k0); [discriminate | exact IH].
Qed.

(** Storing under a key the dict does not have appends the entry. *)
Lemma setitem_absent k v d :
  lookup k d = None -> setitem k v d = d ++ [(k, v)].
Proof.
  induction d as [|[k0 v0] d IH]; simpl; [reflexivity|].
  destruct (pystr_eqb k k0); [discriminate|].
  intros H. now rewrite IH.
Qed.

Lemma lookup_keys_absent k (d : pydict) :
  ~ In k (map fst d) -> lookup k d = None.
Proof.
  induction d as [|[k0 v0] d IH]; simpl; [reflexivity|].
  intros H. destruct (pystr_eqb k k0) eqn:Hk.
  - apply PyFacts.pystr_eqb_eq in Hk. subst. exfalso. apply H. now left.
  - apply IH. intros Hin. apply H. now right.
Qed.

Lemma convert_flags_appends raw : forall acc d,
  NoDup (map fst raw) ->
  (forall k, In k (map fst raw) -> ~ In k (map fst acc)) ->
  convert_flags raw acc = Ok d ->
  exists js,
    d = acc ++ js /\
    map fst js = map fst raw /\
    Forall2 (fun kf kj => flag_json (snd kf) = Ok (snd kj)) raw js.
Proof.
  induction raw as [|[k f] raw IH]; intros acc d Hnd Hfresh H.
  - injection H as <-. exists []. rewrite app_nil_r. repeat split. constructor.
  - cbn [convert_flags] in H.
    destruct (flag_json f) as [j|e] eqn:Hj; [|discriminate].
    inversion Hnd as [|? ? Hnotin Hnd']; subst.
    rewrite (setitem_absent k j acc) in H
      by (apply lookup_keys_absent, Hfresh; now left).
    destruct (IH (acc ++ [(k, j)]) d Hnd') as [js [Hd [Hk Hf]]].
    + intros k' Hin. rewrite map_app, in_app_iff. cbn [map fst In].
      intros [Hacc | [<- | []]].
      * apply (Hfresh k'); [now right | exact Hacc].
      * now apply Hnotin.
    + exact H.
    + exists ((k, j) :: js). rewrite Hd, <- app_assoc. cbn [app map fst].
      split; [reflexivity|]. split; [now rewrite Hk|].
      constructor; [exact Hj | exact Hf].
Qed.

(** The conversion loop of [get_sdk_data_store] on a store with distinct flag
    keys: when it succeeds, the result lists every flag of the store, in the
    order of the store, each with the JSON its conversion gives, so the
    flag count is the number of flags in the store. *)
Theorem convert_flags_complete raw d :
  NoDup (map fst raw) ->
  convert_flags raw [] = Ok d ->
  map fst d = map fst raw /\
  List.length d = List.length raw /\
  (forall k f, In (k, f) raw ->
               exists j, flag_json f = Ok j /\ In (k, j) d).
Proof.
  intros Hnd H.
  destruct (convert_flags_appends raw [] d Hnd) as [js [-> [Hk Hf]]];
    [intros k _ []| exact H |].
  cbn [app]. split; [exact Hk|].
  split; [now rewrite <- (length_map fst js), Hk, length_map|].
  clear H Hnd. revert js Hk Hf.
  induction raw as [|[k0 f0] raw IH]; intros js Hk Hf k f Hin; [destruct Hin|].
  inversion Hf as [|? [k1 j1] ? js' Hj Hf']; subst.
  cbn [map fst] in Hk. injection Hk as Hk1 Hk.
  destruct Hin as [Heq | Hin].
  - injection Heq as <- <-. exists j1. split; [exact Hj|]. left. now subst.
  - destruct (IH js' Hk Hf' k f Hin) as [j [Hj' Hin']].
    exists j. split; [exact Hj' | now right].
Qed.

(** One flag whose conversion raises makes the whole conversion raise:
    there is no partial list of flags. *)
Lemma convert_flags_fails raw : forall acc k f e,
  In (k, f) raw -> flag_json f = Raise e ->
  exists e', convert_flags raw acc = Raise e'.
Proof.
  induction raw as [|[k0 f0] raw IH]; intros acc k f e Hin Hf; [destruct Hin|].
  cbn [convert_flags].
  destruct (flag_json f0) as [j|e0] eqn:Hj; [|now exists e0].
  destruct Hin as [Heq | Hin].
  - injection Heq as -> ->. rewrite Hf in Hj. discriminate.
  - exact (IH _ k f e Hin Hf).
Qed.

Lemma convert_flags_complete_witness :
  List.length [(py "user-message", PStr (py "on"))] = 1%nat.
Proof.
  refine (proj1 (proj2 (convert_flags_complete
                          [(py "user-message", HasToJsonDict (Ok (PStr (py "on"))))]
                          [(py "user-message", PStr (py "on"))] _ eq_refl))).
  constructor; [intros [] | constructor].
Defined.

Section Route.
Variable E : Type.
Variable eng : Engine E.
Variable store : FeatureStore E.

Lemma is_sdk_initialized_client g :
  returns (is_sdk_initialized eng g)
    (fun b => b = true -> exists c, _ld_client g = Some c).
Proof.
  unfold is_sdk_initialized.
  destruct (_sdk_initialized g); [|apply returns_ret; discriminate].
  destruct (_ld_client g) as [c|]; [|apply returns_ret; discriminate].
  intros w b w' _ _. now exists c.
Qed.

Lemma store_failure_answer msg initialized code :
  code = 500 \/ code = 503 ->
  msg <> py "SDK client not available" ->
  store_answer (store_failure msg initialized code).
Proof.
  intros Hc Hm. unfold store_answer, store_failure. cbn [status body].
  split; [tauto|]. do 2 eexists. split; [reflexivity|].
  split; [reflexivity|].
  split; [intros _; split; reflexivity|].
  split; [intros H; destruct Hc; congruence|].
  cbn. intros H. injection H as H. now apply Hm.
Qed.

(** Every answer of [/api/sdk-data-store] has status 200, 500 or 503 and a
    [flags] dict, which is empty (with success false) unless the status is
    200; a 200 answer reports success and a flagCount equal to the number of
    entries of [flags]. The answer "SDK client not available" is never
    given, and no [Exception] leaves the route. *)
Theorem get_sdk_data_store_answers g :
  contained (get_sdk_data_store eng store g) /\
  returns (get_sdk_data_store eng store g) store_answer.
Proof.
  split.
  { apply FlagEndpointExtras.contained_try. intros e.
    apply FlagEndpointExtras.contained_ret. }
  unfold get_sdk_data_store. apply returns_try.
  - eapply returns_bind; [apply is_sdk_initialized_client|].
    intros initialized Hclient.
    destruct initialized; cbn [negb].
    2:{ apply returns_ret. apply store_failure_answer; [now right|].
        cbn [py]. intros H. inversion H. }
    destruct (Hclient eq_refl) as [c Hc]. unfold get_ld_client. rewrite Hc.
    apply returns_try.
    + eapply returns_bind; [apply returns_any|]. intros fs _.
      destruct (negb fs).
      { apply returns_ret. apply store_failure_answer; [now left|].
        cbn [py]. intros H. inversion H. }
      eapply returns_bind; [apply returns_any|]. intros raw_flags _.
      destruct raw_flags as [raw|].
      2:{ apply returns_ret. apply store_failure_answer; [now left|].
          cbn [py]. intros H. inversion H. }
      eapply returns_bind; [apply returns_any|]. intros flags_dict _.
      apply returns_ret. unfold store_answer. cbn [status body].
      split; [now left|]. do 2 eexists. split; [reflexivity|].
      split; [reflexivity|].
      split; [intros H; now elim H|].
      split; [intros _; split; reflexivity|].
      cbn. discriminate.
    + intros e. apply returns_ret. apply store_failure_answer; [now left|].
      cbn [py app]. intros H. inversion H.
  - intros e. apply returns_ret. unfold store_answer. cbn [status body].
    split; [now right; left|]. do 2 eexists. split; [reflexivity|].
    split; [reflexivity|].
    split; [intros _; split; reflexivity|].
    split; [intros H; discriminate H|].
    cbn. intros H. inversion H.
Qed.

End Route.

End StoreExtras.

(** ** The event stream *)

Module StreamExtras.
Import Contexts App Stream Vocabulary DictFacts ContextStateFacts.

Lemma args_get_shape k l :
  args_get k l = PNone \/ exists s, args_get k l = PStr s.
Proof.
  induction l as [|[k' v] l IH]; simpl; [now left|].
  destruct (pystr_eqb k k'); [right; now exists v | exact IH].
Qed.

(** For a key that is not blank and optional arguments that are None or
    strings, only the SDK can make [create_context] fail. *)
Lemma create_context_sdk_failure sdk k email name location e :
  strip k <> [] ->
  optional_ok email -> optional_ok name -> optional_ok location ->
  create_context sdk (PStr k) email name location = Raise e ->
  exc_kind e = RuntimeError \/ is_Exception e = false.
Proof.
  intros Hk He Hn Hl. unfold create_context.
  assert (Hc : negb (truthy (PStr k)) || negb (truthy (strip_val (PStr k)))
               = false).
  { cbn [strip_val]. destruct k as [|c k]; [now elim Hk|].
    destruct (strip (c :: k)); [now elim Hk | reflexivity]. }
  rewrite Hc, !ContextExtras.check_optional_accepts by assumption.
  cbn [bind]. intros H.
  destruct (ContextExtras.reraise_runtime_class _ _ _ H) as [[Hkind _] | Hne];
    auto.
Qed.

(** [GET /api/sse] before the stream starts, whatever the SDK does. The
    route touches neither the engine nor the module state, and the outer
    [except] clause with its 500 is never reached. A missing, empty or blank
    contextKey is answered 400. For any other contextKey the answer follows
    [create_context]: the context it builds is streamed as
    text/event-stream, with the key kept as it was sent; an [Exception] it
    raises is a RuntimeError and is answered 400 with its text; an exception
    that is no [Exception] leaves the route. *)
Theorem sse_endpoint_opens (E : Type) (sdk : ContextSDK) (req : Request)
    (w : World E) :
  let key := args_get (py "contextKey") (args req) in
  let attempt :=
    create_context sdk key (args_get (py "email") (args req))
      (args_get (py "name") (args req))
      (args_get (py "location") (args req)) in
  (key = PNone \/ exists k, key = PStr k) /\
  (key = PNone \/ (exists k, key = PStr k /\ strip k = []) ->
   exists msg,
     sse_endpoint sdk req w = (Ok (inl (sse_error msg 400)), w)) /\
  (forall k, key = PStr k -> strip k <> [] ->
   match attempt with
   | Ok ctx =>
       sse_endpoint sdk req w =
         (Ok (inr {| stream_context := ctx;
                     stream_context_key := PStr k;
                     mimetype := py "text/event-stream";
                     stream_headers :=
                       [(py "Cache-Control", py "no-cache");
                        (py "X-Accel-Buffering", py "no");
                        (py "Connection", py "keep-alive")] |}), w)
   | Raise e =>
       if is_Exception e then
         exc_kind e = RuntimeError /\
         sse_endpoint sdk req w =
           (Ok (inl (sse_error (py "Failed to create context: " ++ exc_text e)
                       400)), w)
       else sse_endpoint sdk req w = (Raise e, w)
   end).
Proof.
  cbv zeta. split; [apply args_get_shape|]. split.
  - unfold sse_endpoint, try_except.
    intros [Hkey | [k [Hkey Hs]]]; rewrite Hkey.
    + cbn [truthy negb]. unfold ret. eexists. reflexivity.
    + destruct k as [|c0 k0].
      * cbn [truthy negb]. unfold ret. eexists. reflexivity.
      * cbn [truthy negb].
        rewrite (FlagEndpointExtras.validate_blank (c0 :: k0))
          by (assumption || discriminate).
        cbn [negb]. unfold ret. eexists. reflexivity.
  - intros k Hkey Hne. unfold sse_endpoint, try_except. rewrite Hkey.
    rewrite (FlagEndpointExtras.validate_not_blank k Hne).
    destruct k as [|c0 k0]; [now elim Hne|].
    cbn [truthy negb].
    destruct (create_context sdk (PStr (c0 :: k0)) _ _ _) as [ctx|e] eqn:Hc;
      [reflexivity|].
    destruct (create_context_sdk_failure _ _ _ _ _ _ Hne
                (FlagEndpointExtras.args_get_optional _ _)
                (FlagEndpointExtras.args_get_optional _ _)
                (FlagEndpointExtras.args_get_optional _ _) Hc)
      as [Hk | Hn].
    + unfold is_Exception. rewrite Hk. split; reflexivity.
    + rewrite Hn. unfold is_Exception in Hn.
      destruct (exc_kind e) eqn:Hkind; try discriminate Hn.
      unfold throw, is_Exception. rewrite Hkind. reflexivity.
Qed.

Lemma sse_endpoint_opens_witness :
  exists msg,
    sse_endpoint recording_sdk get_request empty_world
      = (Ok (inl (sse_error msg 400)), empty_world).
Proof.
  apply (proj1 (proj2 (sse_endpoint_opens unit recording_sdk get_request
                         empty_world))).
  left. reflexivity.
Defined.

Section Generator.
Variable E : Type.
Variable eng : Engine E.
Variable add_flag_value_change_listener :
  ClientRef -> pystr -> LDContext -> E -> outcome unit * E.
Variable context : LDContext.
Variable context_key : pyval.
Variable g : Globals.

(** The payload built for the first event and by the listener. *)
Lemma snapshot_payload w :
  match snapshot eng context context_key g w with
  | (Ok p, _) =>
      exists v rs hi t w1,
        evaluate_flag eng (py "user-message") context
          (PStr (py "Hello from Python!")) g w
          = (Ok (PDict [(py "value", v); (py "reason", PDict rs)]), w1) /\
        p = PDict [(py "message", v); (py "hashInfo", hi);
                   (py "timestamp", PInt t)]
  | (Raise e, _) => is_Exception e = false
  end.
Proof.
  unfold snapshot, mbind.
  destruct (evaluate_flag eng (py "user-message") context
              (PStr (py "Hello from Python!")) g w) as [[r|e] w1] eqn:Hev.
  2:{ exact (FlagEndpointExtras.evaluate_flag_contained _ _ _ _ _ _ _ _ _ Hev). }
  destruct (FlagEndpointExtras.evaluate_flag_returns_dict _ _ _ _ _ _ _ _ _ Hev)
    as [v [rs ->]].
  destruct (attach_hash_info E eng context_key g _ w1) as [[r2|e2] w2] eqn:Hat.
  2:{ exact (FlagEndpointExtras.attach_hash_info_contained _ _ _ _ _ _ _ _ Hat). }
  pose proof (FlagEndpointExtras.attach_hash_info_keeps _ _ _ _ _ _ _ _ Hat
                (py "value") eq_refl) as Hv.
  unfold call_time. destruct (time_time eng (engine_state w2)) as [t s].
  unfold ret. exists v, rs. eexists. exists (py_int t), w1.
  split; [reflexivity|].
  unfold get, get_default.
  rewrite (lookup_setitem_ne (py "value") (py "timestamp")) by reflexivity.
  rewrite Hv, lookup_setitem_eq. cbn [lookup pystr_eqb].
  reflexivity.
Qed.

(** The first step of the stream. It yields exactly one data event, made
    of the message, the hashInfo and the timestamp, in this order, where the
    message is the value [evaluate_flag] gives for "user-message" with the
    default "Hello from Python!"; the generator then goes on to register the
    listener. The stream-error event is never the first event, and no
    [Exception] escapes. *)
Theorem stream_first_event w :
  match resume eng add_flag_value_change_listener context context_key g
          Opening w with
  | (Ok (events, ph), _) =>
      ph = Subscribing /\
      exists v rs hi t w1,
        evaluate_flag eng (py "user-message") context
          (PStr (py "Hello from Python!")) g w
          = (Ok (PDict [(py "value", v); (py "reason", PDict rs)]), w1) /\
        events = [Data (PDict [(py "message", v); (py "hashInfo", hi);
                               (py "timestamp", PInt t)])]
  | (Raise e, _) => is_Exception e = false
  end.
Proof.
  pose proof (snapshot_payload w) as H.
  unfold resume, try_except, mbind.
  destruct (snapshot eng context context_key g w) as [[p|e] w1].
  - destruct H as [v [rs [hi [t [w0 [Hev ->]]]]]].
    unfold ret. split; [reflexivity|].
    exists v, rs, hi, t, w0. split; [exact Hev | reflexivity].
  - rewrite H. exact H.
Qed.

(** One pass of the loop always completes: it takes at most the head of the
    queue and leaves the registration as it is. *)
Lemma loop_pass st w :
  exists events st' w',
    resume eng add_flag_value_change_listener context context_key g
      (Looping st) w = (Ok (events, Looping st'), w') /\
    payloads events ++ update_queue st' = update_queue st /\
    listener_registered st' = listener_registered st /\
    (List.length (payloads events) <= 1)%nat.
Proof.
  unfold resume, try_except, loop_iteration, mbind, call_time, call_sleep.
  destruct (time_time eng (engine_state w)) as [t s]. unfold ret.
  do 3 eexists. split; [reflexivity|]. cbn [update_queue listener_registered].
  destruct (update_queue st) as [|u q];
    destruct (Qle_bool 15 (t - last_heartbeat st)); cbn;
    repeat split; lia.
Qed.

(** A change of the flag puts at most one payload at the back of the queue,
    and none without a registered listener. *)
Lemma flag_changed_put st w :
  match flag_changed eng context context_key g (Looping st) w with
  | (Ok (put, ph), _) =>
      exists st',
        ph = Looping st' /\
        update_queue st' = update_queue st ++ put /\
        listener_registered st' = listener_registered st /\
        (listener_registered st = false -> put = [])
  | (Raise e, _) => is_Exception e = false
  end.
Proof.
  unfold flag_changed.
  destruct (listener_registered st) eqn:Hreg.
  2:{ unfold ret. exists st. rewrite app_nil_r. repeat split. exact Hreg. }
  pose proof (snapshot_payload w) as H.
  unfold flag_value_change_listener, try_except, mbind.
  destruct (snapshot eng context context_key g w) as [[p|e] w1].
  - unfold ret. eexists. split; [reflexivity|].
    cbn [update_queue listener_registered].
    repeat split. discriminate.
  - rewrite H. exact H.
Qed.

Lemma payloads_app a b : payloads (a ++ b) = payloads a ++ payloads b.
Proof. unfold payloads. apply flat_map_app. Qed.

(** The stream in its loop, under any interleaving of steps and flag
    changes: it stays in the loop, and the payloads sent so far followed by
    the queue are the initial queue followed by everything the listener has
    put, so that no update is lost, duplicated or reordered. Each step sends
    at most one update, nothing is put without a registered listener, and no
    [Exception] escapes. *)
Theorem stream_fifo script : forall st w,
  match run eng add_flag_value_change_listener context context_key g
          script (Looping st) w with
  | (Ok (events, puts, ph), _) =>
      exists st',
        ph = Looping st' /\
        payloads events ++ update_queue st' = update_queue st ++ puts /\
        listener_registered st' = listener_registered st /\
        (listener_registered st = false -> puts = []) /\
        (List.length (payloads events) <= steps script)%nat
  | (Raise e, _) => is_Exception e = false
  end.
Proof.
  induction script as [|a rest IH]; intros st w.
  - cbn [run]. unfold ret. exists st. rewrite app_nil_r.
    repeat split. cbn. lia.
  - destruct a; cbn [run]; unfold mbind.
    + destruct (loop_pass st w) as [ev [st1 [w1 [-> [Hq [Hreg Hlen]]]]]].
      cbn [snd fst]. specialize (IH st1 w1).
      destruct (run eng add_flag_value_change_listener context context_key g
                  rest (Looping st1) w1) as [[[[ev' puts'] ph']|e] w2];
        [|exact IH].
      destruct IH as [st' [-> [Hq' [Hreg' [Hno Hlen']]]]].
      unfold ret. cbn [fst snd]. exists st'.
      split; [reflexivity|].
      split; [rewrite payloads_app, <- app_assoc, Hq', app_assoc, Hq;
              reflexivity|].
      split; [congruence|].
      split; [intros Hf; apply Hno; congruence|].
      rewrite payloads_app, length_app.
      unfold steps in *. cbn [filter List.length]. lia.
    + pose proof (flag_changed_put st w) as Hput.
      destruct (flag_changed eng context context_key g (Looping st) w)
        as [[[put ph]|e] w1]; [|exact Hput].
      destruct Hput as [st1 [-> [Hq [Hreg Hnone]]]].
      cbn [snd fst]. specialize (IH st1 w1).
      destruct (run eng add_flag_value_change_listener context context_key g
                  rest (Looping st1) w1) as [[[[ev' puts'] ph']|e] w2];
        [|exact IH].
      destruct IH as [st' [-> [Hq' [Hreg' [Hno Hlen']]]]].
      unfold ret. cbn [fst snd]. exists st'.
      split; [reflexivity|].
      split; [rewrite Hq', Hq, <- app_assoc; reflexivity|].
      split; [congruence|].
      split; [intros Hf; rewrite (Hnone Hf), Hno by congruence; reflexivity|].
      unfold steps in *. cbn [filter]. exact Hlen'.
Qed.

(** Without a listener and with an empty queue the loop never sends data. *)
Lemma idle_loop script : forall st w,
  listener_registered st = false -> update_queue st = [] ->
  match run eng add_flag_value_change_listener context context_key g
          script (Looping st) w with
  | (Ok (events, puts, ph), _) =>
      payloads events = [] /\ puts = [] /\
      exists st', ph = Looping st' /\ listener_registered st' = false /\
                  update_queue st' = []
  | (Raise e, _) => is_Exception e = false
  end.
Proof.
  induction script as [|a rest IH]; intros st w Hreg Hq.
  - cbn [run]. unfold ret. repeat split. now exists st.
  - destruct a; cbn [run]; unfold mbind.
    + destruct (loop_pass st w) as [ev [st1 [w1 [-> [Hq1 [Hreg1 _]]]]]].
      cbn [snd fst]. rewrite Hq in Hq1.
      apply app_eq_nil in Hq1 as [Hev Hq1].
      specialize (IH st1 w1 ltac:(congruence) Hq1).
      destruct (run eng add_flag_value_change_listener context context_key g
                  rest (Looping st1) w1) as [[[[ev' puts'] ph']|e] w2];
        [|exact IH].
      destruct IH as [Hev' [Hputs Hst]].
      unfold ret. cbn [fst snd].
      split; [now rewrite payloads_app, Hev, Hev'|].
      split; assumption.
    + pose proof (flag_changed_put st w) as Hput.
      destruct (flag_changed eng context context_key g (Looping st) w)
        as [[[put ph]|e] w1]; [|exact Hput].
      destruct Hput as [st1 [-> [Hq1 [Hreg1 Hnone]]]].
      rewrite (Hnone Hreg), Hq in Hq1. cbn [app] in Hq1.
      cbn [snd fst].
      specialize (IH st1 w1 ltac:(congruence) Hq1).
      destruct (run eng add_flag_value_change_listener context context_key g
                  rest (Looping st1) w1) as [[[[ev' puts'] ph']|e] w2];
        [|exact IH].
      destruct IH as [Hev' [Hputs Hst]].
      unfold ret. cbn [fst snd].
      split; [exact Hev'|]. split; [|exact Hst].
      now rewrite (Hnone Hreg), Hputs.
Qed.

(** A stream that reaches the registration while the module has no client
    or has not finished its start-up registers no listener, and from then
    on sends no data event, whatever the SDK reports later: it stays in the
    loop, where it can only send heartbeats. *)
Theorem stream_without_sdk script w :
  _ld_client g = None \/ _sdk_initialized g = false ->
  match run eng add_flag_value_change_listener context context_key g
          (Resume :: script) Subscribing w with
  | (Ok (events, puts, ph), _) =>
      payloads events = [] /\ puts = [] /\
      exists st', ph = Looping st' /\ listener_registered st' = false /\
                  update_queue st' = []
  | (Raise e, _) => is_Exception e = false
  end.
Proof.
  intros Hnot. cbn [run]. unfold mbind at 1.
  assert (Hreg : register_listener eng add_flag_value_change_listener
                   context g w = (Ok false, w)).
  { unfold register_listener, get_ld_client, is_sdk_initialized.
    destruct (_ld_client g) as [c|]; [|reflexivity].
    destruct Hnot as [Hc | Hi]; [discriminate|].
    rewrite Hi. reflexivity. }
  unfold resume, try_except, mbind at 1 2. rewrite Hreg.
  unfold call_time. destruct (time_time eng (engine_state w)) as [t s].
  unfold ret at 1. cbn [snd fst].
  unfold mbind.
  match goal with
  | |- context [run _ _ _ _ _ script (Looping ?st1) ?w1] =>
      pose proof (idle_loop script st1 w1 eq_refl eq_refl) as H;
      destruct (run eng add_flag_value_change_listener context context_key g
                  script (Looping st1) w1)
        as [[[[ev' puts'] ph']|e] w2]
  end; [|exact H].
  destruct H as [Hev [Hputs Hst]].
  unfold ret. cbn [fst snd app].
  split; [exact Hev|]. split; [exact Hputs | exact Hst].
Qed.

End Generator.

Section Heartbeat.
Variable E : Type.
Variable eng : Engine E.
Variable add_flag_value_change_listener :
  ClientRef -> pystr -> LDContext -> E -> outcome unit * E.
Variable context : LDContext.
Variable context_key : pyval.
Variable g : Globals.
(** The time the world has reached. *)
Variable clock : E -> Q.
Hypothesis time_reads_clock :
  forall s, (clock s <= fst (time_time eng s))%Q /\
            (fst (time_time eng s) <= clock (snd (time_time eng s)))%Q.
Hypothesis sleep_advances :
  forall d s, (clock s + d <= clock (time_sleep eng d s))%Q.

(** Steps alone never end the loop and put nothing in the queue. *)
Lemma steps_complete n : forall st w,
  exists events st' w',
    run eng add_flag_value_change_listener context context_key g
      (repeat Resume n) (Looping st) w = (Ok (events, [], Looping st'), w').
Proof.
  induction n as [|n IH]; intros st w.
  - cbn [repeat run]. unfold ret. now exists [], st, w.
  - cbn [repeat run]. unfold mbind.
    destruct (loop_pass E eng add_flag_value_change_listener context
                context_key g st w) as [ev [st1 [w1 [-> _]]]].
    cbn [snd fst].
    destruct (IH st1 w1) as [ev' [st' [w' ->]]].
    unfold ret. cbn [fst snd]. now exists (ev ++ ev'), st', w'.
Qed.

Lemma heartbeat_due n : forall st w a,
  (1 <= n)%nat ->
  (last_heartbeat st + a <= clock (engine_state w))%Q ->
  (16 <= a + inject_Z (Z.of_nat n))%Q ->
  exists events st' w',
    run eng add_flag_value_change_listener context context_key g
      (repeat Resume n) (Looping st) w = (Ok (events, [], Looping st'), w') /\
    In Heartbeat events.
Proof.
  induction n as [|n IH]; intros st w a Hn Hclock Hsum; [lia|].
  cbn [repeat run].
  unfold mbind, resume, try_except, loop_iteration, mbind, call_time,
    call_sleep.
  destruct (time_reads_clock (engine_state w)) as [Hread Hafter].
  destruct (time_time eng (engine_state w)) as [t s1].
  cbn [fst snd] in Hread, Hafter.
  pose proof (sleep_advances 1 s1) as Hsleep.
  unfold ret. cbn [fst snd].
  destruct (Qle_bool 15 (t - last_heartbeat st)) eqn:Hdue.
  - match goal with
    | |- context [run _ _ _ _ _ _ (Looping ?st1) ?w1] =>
        destruct (steps_complete n st1 w1) as [ev' [st' [w' ->]]]
    end.
    cbn [fst snd]. do 3 eexists. split; [reflexivity|].
    apply in_or_app. left. apply in_or_app. right. now left.
  - assert (Hlt : (t - last_heartbeat st < 15)%Q).
    { apply Qnot_le_lt. intros Hle. apply Qle_bool_iff in Hle. congruence. }
    rewrite Nat2Z.inj_succ, <- Z.add_1_r, inject_Z_plus in Hsum.
    change (inject_Z 1) with 1%Q in Hsum.
    assert (Hn' : (1 <= n)%nat).
    { destruct n; [|lia]. change (inject_Z (Z.of_nat 0)) with 0%Q in Hsum.
      exfalso. lra. }
    match goal with
    | |- context [run _ _ _ _ _ _ (Looping ?st1) ?w1] =>
        destruct (IH st1 w1 (a + 1)%Q Hn') as [ev' [st' [w' [-> Hin]]]]
    end.
    + cbn [last_heartbeat engine_state]. lra.
    + lra.
    + cbn [fst snd]. do 3 eexists. split; [reflexivity|].
      apply in_or_app. now right.
Qed.

(** The heartbeat. With a clock that [time.time()] reads and that
    [time.sleep(d)] advances by at least [d], a stream that is in its loop,
    with a last heartbeat that is not in the future, yields a heartbeat
    within any 16 steps in a row. *)
Theorem heartbeat_within_16_steps n st w :
  (16 <= n)%nat ->
  (last_heartbeat st <= clock (engine_state w))%Q ->
  exists events st' w',
    run eng add_flag_value_change_listener context context_key g
      (repeat Resume n) (Looping st) w = (Ok (events, [], Looping st'), w') /\
    In Heartbeat events.
Proof.
  intros Hn Hclock.
  apply (heartbeat_due n st w 0%Q); [lia | lra |].
  assert (H : (inject_Z 16 <= inject_Z (Z.of_nat n))%Q).
  { rewrite <- Zle_Qle. lia. }
  change (inject_Z 16) with 16%Q in H. lra.
Qed.

End Heartbeat.

Lemma stream_without_sdk_witness :
  match run mock accepting_tracker sample_context (PStr (py "user-123"))
          (fresh_globals (py "u")) [Resume; FlagChange; Resume] Subscribing
          empty_world with
  | (Ok (events, puts, ph), _) =>
      payloads events = [] /\ puts = [] /\
      exists st', ph = Looping st' /\ listener_registered st' = false /\
                  update_queue st' = []
  | (Raise e, _) => is_Exception e = false
  end.
Proof.
  apply (stream_without_sdk unit mock accepting_tracker sample_context
           (PStr (py "user-123")) (fresh_globals (py "u"))
           [FlagChange; Resume] empty_world).
  left. reflexivity.
Defined.

Lemma heartbeat_within_16_steps_witness :
  exists events st' w',
    run ticking_engine accepting_tracker sample_context
      (PStr (py "user-123")) sample_globals (repeat Resume 16)
      (Looping idle_stream) {| engine_state := 0%Q; calls := [] |}
      = (Ok (events, [], Looping st'), w') /\
    In Heartbeat events.
Proof.
  apply (heartbeat_within_16_steps Q ticking_engine accepting_tracker
           sample_context (PStr (py "user-123")) sample_globals
           (fun s => s)).
  - intros s. split; apply Qle_refl.
  - intros d s. apply Qle_refl.
  - lia.
  - apply Qle_refl.
Defined.

End StreamExtras.
